(** * Money-mate bot: registry, monthly store, classifier, chart renderer and
    dispatcher, embedded from the Python sources

    The development follows the modules of the repository:
    - [Py]        the fragment of Python's dynamic values the code relies on
                  (JSON values, truthiness, [float()], [str.replace]);
    - [Eff]       a state-and-exception monad: Python code that calls the
                  spreadsheet backend, the inference endpoint or the chat
                  transport threads a state and may raise;
    - [Sheets]    google_sheets_api.py;
    - [Gemini]    gemini_api.py;
    - [Chart]     utils.py;
    - [Handlers]  bot_handlers.py;
    - [RegistrySpec] ... [DispatcherSpec]  the vocabulary of the statements;
    - [RegistryFacts] ... [DispatcherFacts]  the verified properties.
    - [StoreLawsSpec] ... [DispatcherLawsSpec] and [RegistryLawsFacts] ...
      [DispatcherLawsFacts]  further laws of the same functions: behaviour
      under backend faults, invariants, round trips and compositions.

    External collaborators are modelled as state:
    - the spreadsheet backend is a store of text cells, kept in the form in
      which [values().get] returns it; each request first consumes one entry
      of a fault script, which decides whether the request raises;
    - the inference endpoint is a script of responses;
    - the chat transport is an outbox of delivered replies plus a script of
      send failures;
    - the wall clock is a field of the backend state. *)

From Stdlib Require Import String Ascii List ZArith Bool Lia DecimalString.
Import ListNotations.
Set Warnings "-register-all".
Local Open Scope string_scope.
Local Open Scope list_scope.

(* ================================================================== *)
(** * Python values *)
(* ================================================================== *)

Module Py.

(** A Python [float].  Finite values are kept as exact decimals
    [mant * 10^exp10]; rounding to binary64 is not modelled. *)
Inductive pyfloat :=
| Fin (mant : Z) (exp10 : Z)
| Inf (negative : bool)
| NaN.

(** What [json.loads] produces: [None], [bool], [int], [float], [str],
    [list] and [dict].  A dict is an association list searched from the
    front; [dict_set] keeps at most one binding per key it writes. *)
Inductive json :=
| JNull
| JBool (b : bool)
| JInt (z : Z)
| JFloat (f : pyfloat)
| JStr (s : string)
| JList (l : list json)
| JDict (d : list (string * json)).

Definition dict := list (string * json).

Fixpoint dict_get (k : string) (d : dict) : option json :=
  match d with
  | [] => None
  | (k', v) :: d' => if String.eqb k' k then Some v else dict_get k d'
  end.

(** [d.get(k)]: [None] when the key is missing. *)
Definition get (k : string) (d : dict) : json :=
  match dict_get k d with Some v => v | None => JNull end.

(** [d.get(k, default)]. *)
Definition get_default (k : string) (default : json) (d : dict) : json :=
  match dict_get k d with Some v => v | None => default end.

(** [k in d]. *)
Definition dict_mem (k : string) (d : dict) : bool :=
  match dict_get k d with Some _ => true | None => false end.

(** [d[k] = v]. *)
Fixpoint dict_set (k : string) (v : json) (d : dict) : dict :=
  match d with
  | [] => [(k, v)]
  | (k', v') :: d' =>
      if String.eqb k' k then (k, v) :: d' else (k', v') :: dict_set k v d'
  end.

(** Truth value of an object, as [if x:] and [not x] test it. *)
Definition float_truthy (f : pyfloat) : bool :=
  match f with
  | Fin m _ => negb (m =? 0)%Z
  | Inf _ => true
  | NaN => true
  end.

Definition truthy (j : json) : bool :=
  match j with
  | JNull => false
  | JBool b => b
  | JInt z => negb (z =? 0)%Z
  | JFloat f => float_truthy f
  | JStr s => negb (String.eqb s "")
  | JList l => match l with [] => false | _ => true end
  | JDict d => match d with [] => false | _ => true end
  end.

(** [x == s] for a string literal [s]: only a [str] can equal a [str]. *)
Definition eq_str (j : json) (s : string) : bool :=
  match j with
  | JStr t => String.eqb t s
  | _ => false
  end.

Definition is_none (j : json) : bool :=
  match j with JNull => true | _ => false end.

(** ** Strings *)

Fixpoint is_prefix (p s : list ascii) : bool :=
  match p, s with
  | [], _ => true
  | _ :: _, [] => false
  | a :: p', b :: s' => Ascii.eqb a b && is_prefix p' s'
  end.

(** [p in s] for two strings. *)
Fixpoint is_infix (p s : list ascii) : bool :=
  is_prefix p s ||
  match s with
  | [] => false
  | _ :: s' => is_infix p s'
  end.

Definition str_contains (p s : string) : bool :=
  is_infix (list_ascii_of_string p) (list_ascii_of_string s).

(** [s.replace(',', '.')]. *)
Definition replace_comma (s : string) : string :=
  string_of_list_ascii
    (map (fun c => if Ascii.eqb c "," then "."%char else c)
         (list_ascii_of_string s)).

Definition is_upper (c : ascii) : bool :=
  let n := nat_of_ascii c in (65 <=? n)%nat && (n <=? 90)%nat.

Definition lower_char (c : ascii) : ascii :=
  if is_upper c then ascii_of_nat (nat_of_ascii c + 32) else c.

(** [s.lower()], on the ASCII letters.  No character outside ASCII
    lower-cases to one of the letters of [bar], [line] or [pie], which are
    the only strings the result is compared with. *)
Definition lower (s : string) : string :=
  string_of_list_ascii (map lower_char (list_ascii_of_string s)).

(** ** [float(s)] for a string

    The grammar of the Python reference: surrounding whitespace is
    stripped, then an optional sign, then [inf], [infinity] or [nan] in any
    case, or a decimal literal with optional fraction and exponent, digits
    possibly grouped by single underscores.  Strings are byte strings here,
    so only the ASCII digits and the ASCII whitespace are recognised. *)

Definition is_digit (c : ascii) : bool :=
  let n := nat_of_ascii c in (48 <=? n)%nat && (n <=? 57)%nat.

Definition digit_val (c : ascii) : Z := Z.of_nat (nat_of_ascii c - 48).

Definition is_space (c : ascii) : bool :=
  let n := nat_of_ascii c in
  ((9 <=? n)%nat && (n <=? 13)%nat) || ((28 <=? n)%nat && (n <=? 32)%nat).

Fixpoint lstrip (cs : list ascii) : list ascii :=
  match cs with
  | c :: cs' => if is_space c then lstrip cs' else cs
  | [] => []
  end.

Definition strip (cs : list ascii) : list ascii :=
  rev (lstrip (rev (lstrip cs))).

(** The digits that follow a digit already read: [(["_"] digit)*]. *)
Fixpoint digits_tail (cs : list ascii) : list Z * list ascii :=
  match cs with
  | [] => ([], [])
  | c :: cs' =>
      if is_digit c then
        let (ds, r) := digits_tail cs' in (digit_val c :: ds, r)
      else if Ascii.eqb c "_" then
        match cs' with
        | d :: cs'' =>
            if is_digit d then
              let (ds, r) := digits_tail cs'' in (digit_val d :: ds, r)
            else ([], cs)
        | [] => ([], cs)
        end
      else ([], cs)
  end.

(** [digitpart ::= digit (["_"] digit)*]; the empty list of digits when the
    input does not start with a digit. *)
Definition digitpart (cs : list ascii) : list Z * list ascii :=
  match cs with
  | c :: cs' =>
      if is_digit c then
        let (ds, r) := digits_tail cs' in (digit_val c :: ds, r)
      else ([], cs)
  | [] => ([], [])
  end.

Definition digits_value (ds : list Z) : Z :=
  fold_left (fun acc d => acc * 10 + d)%Z ds 0%Z.

Definition take_sign (cs : list ascii) : bool * list ascii :=
  match cs with
  | c :: cs' =>
      if Ascii.eqb c "-" then (true, cs')
      else if Ascii.eqb c "+" then (false, cs')
      else (false, cs)
  | [] => (false, [])
  end.

(** [exponent ::= ("e" | "E") [sign] digitpart], then the end of input. *)
Definition exponent (cs : list ascii) : option Z :=
  match cs with
  | [] => Some 0%Z
  | c :: cs' =>
      if Ascii.eqb c "e" || Ascii.eqb c "E" then
        let (neg, cs1) := take_sign cs' in
        match digitpart cs1 with
        | ((_ :: _) as ds, []) =>
            Some (if neg then - digits_value ds else digits_value ds)%Z
        | _ => None
        end
      else None
  end.

(** [number ::= [digitpart] "." digitpart | digitpart ["."]]. *)
Definition floatnumber (cs : list ascii) : option (Z * Z) :=
  let (ip, r1) := digitpart cs in
  let '(fp, r2, well_formed) :=
    match r1 with
    | c :: r1' =>
        if Ascii.eqb c "." then
          let (fp, r2) := digitpart r1' in
          (fp, r2, match ip, fp with [], [] => false | _, _ => true end)
        else ([], r1, match ip with [] => false | _ => true end)
    | [] => ([], [], match ip with [] => false | _ => true end)
    end in
  if well_formed then
    match exponent r2 with
    | Some e => Some (digits_value (ip ++ fp), (e - Z.of_nat (length fp))%Z)
    | None => None
    end
  else None.

Definition float_of_chars (cs : list ascii) : option pyfloat :=
  let (neg, body) := take_sign (strip cs) in
  let low := string_of_list_ascii (map lower_char body) in
  if String.eqb low "inf" || String.eqb low "infinity" then Some (Inf neg)
  else if String.eqb low "nan" then Some NaN
  else
    match floatnumber body with
    | Some (m, e) => Some (Fin (if neg then - m else m)%Z e)
    | None => None
    end.

(** [float(s)]: [None] stands for [ValueError]. *)
Definition float_of_string (s : string) : option pyfloat :=
  float_of_chars (list_ascii_of_string s).

(** [float(z)] for an [int] raises [OverflowError] once [z] rounds to
    [2^1024] or beyond. *)
Definition int_fits_float (z : Z) : bool :=
  (Z.abs z <? 2 ^ 1024 - 2 ^ 970)%Z.

End Py.

(* ================================================================== *)
(** * Effects: state and exceptions *)
(* ================================================================== *)

Module Eff.

(** The exception classes the sources name in an [except] clause, and the
    built-in ones the modelled operations raise. *)
Inductive exn_kind :=
| HttpError (status : Z)
| BadRequest
| BlockedPromptException
| JSONDecodeError
| ValueError
| TypeError
| OverflowError
| AttributeError
| KeyError
| IndexError
| OtherException.

(** An exception object: its class and [str(e)]. *)
Record exn := Exn { kind : exn_kind; text : string }.

Inductive res (A : Type) :=
| Ret (a : A)
| Raise (e : exn).
Arguments Ret {A} a.
Arguments Raise {A} e.

(** A computation over a state [S]: the state reached is kept also when an
    exception is raised, as effects performed before a Python [raise] are. *)
Definition M (S A : Type) : Type := S -> res A * S.

Definition ret {S A} (a : A) : M S A := fun s => (Ret a, s).

Definition raise {S A} (e : exn) : M S A := fun s => (Raise e, s).

Definition bind {S A B} (c : M S A) (k : A -> M S B) : M S B :=
  fun s =>
    match c s with
    | (Ret a, s') => k a s'
    | (Raise e, s') => (Raise e, s')
    end.

(** [try: c  except ... as e: h e]; a handler re-raises by [raise e]. *)
Definition try_except {S A} (c : M S A) (h : exn -> M S A) : M S A :=
  fun s =>
    match c s with
    | (Ret a, s') => (Ret a, s')
    | (Raise e, s') => h e s'
    end.

Definition gets {S A} (f : S -> A) : M S A := fun s => (Ret (f s), s).

Definition modify {S} (f : S -> S) : M S unit := fun s => (Ret tt, f s).

(** Runs a computation of a component inside a larger state. *)
Definition lift {W S A} (proj : W -> S) (inj : S -> W -> W) (c : M S A)
  : M W A :=
  fun w => let (r, s') := c (proj w) in (r, inj s' w).

Definition is_http (e : exn) : bool :=
  match kind e with HttpError _ => true | _ => false end.

(** [except (ValueError, TypeError)]. *)
Definition is_value_or_type_error (e : exn) : bool :=
  match kind e with ValueError | TypeError => true | _ => false end.

(** A result that does not depend on the state. *)
Definition pure {S A} (r : res A) : M S A := fun s => (r, s).

(** [float(x)] for a string. *)
Definition float_of_str (s : string) : res Py.pyfloat :=
  match Py.float_of_string s with
  | Some f => Ret f
  | None => Raise (Exn ValueError "could not convert string to float")
  end.

(** [float(x)] for any value. *)
Definition to_float (x : Py.json) : res Py.pyfloat :=
  match x with
  | Py.JFloat f => Ret f
  | Py.JInt z =>
      if Py.int_fits_float z then Ret (Py.Fin z 0)
      else Raise (Exn OverflowError "int too large to convert to float")
  | Py.JBool b => Ret (Py.Fin (if b then 1 else 0) 0)
  | Py.JStr s => float_of_str s
  | Py.JNull | Py.JList _ | Py.JDict _ =>
      Raise (Exn TypeError "float() argument must be a string or a real number")
  end.

Definition float_str {S} (s : string) : M S Py.pyfloat := pure (float_of_str s).

Definition py_float {S} (x : Py.json) : M S Py.pyfloat := pure (to_float x).

(** ** Operations on values of unknown type

    What the built-in operations do on each kind of value, with the
    exception they raise on the kinds they refuse. *)

(** [k in x] for a string [k]. *)
Definition has_key {S} (k : string) (x : Py.json) : M S bool :=
  match x with
  | Py.JDict d => ret (Py.dict_mem k d)
  | Py.JList l => ret (existsb (fun v => Py.eq_str v k) l)
  | Py.JStr s => ret (Py.str_contains k s)
  | _ => raise (Exn TypeError "argument is not iterable")
  end.

(** [all(k in x for k in ks)]: stops at the first key that is missing. *)
Fixpoint has_keys {S} (ks : list string) (x : Py.json) : M S bool :=
  match ks with
  | [] => ret true
  | k :: ks' =>
      bind (has_key k x) (fun b => if b then has_keys ks' x else ret false)
  end.

(** The receiver of [x.get(...)]: only a dict has the method. *)
Definition as_dict {S} (x : Py.json) : M S Py.dict :=
  match x with
  | Py.JDict d => ret d
  | _ => raise (Exn AttributeError "object has no attribute 'get'")
  end.

(** [x[k]] for a string [k]. *)
Definition subscript {S} (x : Py.json) (k : string) : M S Py.json :=
  match x with
  | Py.JDict d =>
      match Py.dict_get k d with
      | Some v => ret v
      | None => raise (Exn KeyError k)
      end
  | _ => raise (Exn TypeError "indices must be integers")
  end.

(** [x[i]] for an index [i]. *)
Definition item {S} (x : Py.json) (i : nat) : M S Py.json :=
  match x with
  | Py.JList l =>
      match nth_error l i with
      | Some v => ret v
      | None => raise (Exn IndexError "list index out of range")
      end
  | Py.JStr s =>
      match String.get i s with
      | Some c => ret (Py.JStr (String c ""))
      | None => raise (Exn IndexError "string index out of range")
      end
  | Py.JDict _ => raise (Exn KeyError "")
  | _ => raise (Exn TypeError "object is not subscriptable")
  end.

(** [len(x)]; the length of a string is counted in bytes. *)
Definition len {S} (x : Py.json) : M S nat :=
  match x with
  | Py.JList l => ret (length l)
  | Py.JStr s => ret (String.length s)
  | Py.JDict d => ret (length d)
  | _ => raise (Exn TypeError "object has no len()")
  end.

(** The elements a [for] loop over [x] visits. *)
Definition iter {S} (x : Py.json) : M S (list Py.json) :=
  match x with
  | Py.JList l => ret l
  | Py.JStr s =>
      ret (map (fun c => Py.JStr (String c "")) (list_ascii_of_string s))
  | Py.JDict d => ret (map (fun kv => Py.JStr (fst kv)) d)
  | _ => raise (Exn TypeError "object is not iterable")
  end.

(** [d > 0]. *)
Definition gt_zero {S} (d : Py.json) : M S bool :=
  match d with
  | Py.JInt z => ret (0 <? z)%Z
  | Py.JBool b => ret b
  | Py.JFloat (Py.Fin m _) => ret (0 <? m)%Z
  | Py.JFloat (Py.Inf negative) => ret (negb negative)
  | Py.JFloat Py.NaN => ret false
  | _ => raise (Exn TypeError "'>' not supported between these instances")
  end.

(** [for x in xs: body x], collecting the results. *)
Fixpoint for_each {S A B} (body : A -> M S B) (xs : list A) : M S (list B) :=
  match xs with
  | [] => ret []
  | x :: xs' =>
      bind (body x) (fun y => bind (for_each body xs') (fun ys => ret (y :: ys)))
  end.

Module Notations.
  Declare Scope eff_scope.
  Delimit Scope eff_scope with eff.
  Notation "x <- c ;; k" := (bind c (fun x => k))
    (at level 61, c at next level, right associativity) : eff_scope.
  Notation "c ;; k" := (bind c (fun _ => k))
    (at level 61, right associativity) : eff_scope.
End Notations.

End Eff.

(* ================================================================== *)
(** * google_sheets_api.py *)
(* ================================================================== *)

Module Sheets.
Import Py Eff Eff.Notations.
Local Open Scope eff_scope.

(** ** The spreadsheet backend *)

Abbreviation row := (list string) (only parsing).
Abbreviation table := (list (list string)) (only parsing).

(** One tab of a spreadsheet: [properties.title] and its cell rows. *)
Record Sheet := mkSheet { title : string; rows : table }.

Record DateTime := mkDateTime {
  year : Z; month : Z; day : Z; hour : Z; minute : Z; second : Z
}.

(** The requests the module sends, as logged by the backend. *)
Inductive Request :=
| GetValues (spreadsheetId range : string)
| UpdateValues (spreadsheetId range : string) (values : list (list json))
| AppendValues (spreadsheetId range : string) (values : list (list json))
| GetSpreadsheet (spreadsheetId : string)
| AddSheet (spreadsheetId title : string).

Inductive level := WARNING | ERROR.

(** State of the collaborators of this module.
    - [master]: columns A:B of the first tab of the registry spreadsheet,
      one row per list, as [values().get] returns them.  The registry
      spreadsheet is a dedicated one: it is not among [books].
    - [books]: the users' spreadsheets by id.
    - [user_entered]: the text the backend shows for a payload value that
      is not a string (valueInputOption USER_ENTERED); strings are stored
      as they are.
    - [api_script]: the outcome of the next requests, [Some e] for one that
      raises [e]; requests beyond the script succeed.
    - [api_log]: the requests issued so far.
    - [now]: [datetime.now()].
    - [log]: the records this module's logger emitted at WARNING or above. *)
Record State := mkState {
  master : table;
  books : list (string * list Sheet);
  user_entered : json -> string;
  api_script : list (option exn);
  api_log : list Request;
  now : DateTime;
  log : list (level * string)
}.

Definition set_master (t : table) (s : State) : State :=
  mkState t (books s) (user_entered s) (api_script s) (api_log s) (now s)
          (log s).

Definition set_books (b : list (string * list Sheet)) (s : State) : State :=
  mkState (master s) b (user_entered s) (api_script s) (api_log s) (now s)
          (log s).

Definition set_api (script : list (option exn)) (l : list Request)
    (s : State) : State :=
  mkState (master s) (books s) (user_entered s) script l (now s) (log s).

Definition set_now (t : DateTime) (s : State) : State :=
  mkState (master s) (books s) (user_entered s) (api_script s) (api_log s) t
          (log s).

Definition set_log (l : list (level * string)) (s : State) : State :=
  mkState (master s) (books s) (user_entered s) (api_script s) (api_log s)
          (now s) l.

Definition logger (lv : level) (msg : string) : M State unit :=
  modify (fun s => set_log (log s ++ [(lv, msg)]) s).

(** Sends a request: it is logged, and raises when the script says so. *)
Definition request (r : Request) : M State unit :=
  fun s =>
    match api_script s with
    | Some e :: rest => (Raise e, set_api rest (api_log s ++ [r]) s)
    | None :: rest => (Ret tt, set_api rest (api_log s ++ [r]) s)
    | [] => (Ret tt, set_api [] (api_log s ++ [r]) s)
    end.

Definition cell_of (s : State) (v : json) : string :=
  match v with
  | JStr t => t
  | _ => user_entered s v
  end.

(** Writing [cells] over the start of a row leaves the cells to their
    right as they were. *)
Definition overlay (cells old : row) : row :=
  cells ++ skipn (length cells) old.

(** Writes [cells] at column A of row [i] (0-based), growing the grid with
    empty rows when it is shorter. *)
Fixpoint write_row (i : nat) (cells : row) (t : table) : table :=
  match i, t with
  | O, [] => [cells]
  | O, r :: t' => overlay cells r :: t'
  | S i', [] => [] :: write_row i' cells []
  | S i', r :: t' => r :: write_row i' cells t'
  end.

Definition http_error (status : Z) (msg : string) : exn :=
  Exn (HttpError status) msg.

Definition str_of_Z (z : Z) : string := NilZero.string_of_int (Z.to_int z).

(** [values().get(spreadsheetId=master, range='A:B')]. *)
Definition values_get_master (master_sheet_id : string) : M State table :=
  request (GetValues master_sheet_id "A:B") ;;
  gets master.

(** [values().update(spreadsheetId=master, range='A<i>:B<i>', ...)] with the
    1-based row number [i]. *)
Definition values_update_master (master_sheet_id : string) (i : Z)
    (r : list json) : M State unit :=
  request (UpdateValues master_sheet_id
             ("A" ++ str_of_Z i ++ ":B" ++ str_of_Z i) [r]) ;;
  modify (fun s =>
    set_master (write_row (Z.to_nat (i - 1)) (map (cell_of s) r) (master s)) s).

(** [values().append(spreadsheetId=master, range='A1', INSERT_ROWS)]: the
    row goes after the last row of the table. *)
Definition values_append_master (master_sheet_id : string) (r : list json)
  : M State unit :=
  request (AppendValues master_sheet_id "A1" [r]) ;;
  modify (fun s => set_master (master s ++ [map (cell_of s) r]) s).

Fixpoint find_book (sid : string) (b : list (string * list Sheet))
  : option (list Sheet) :=
  match b with
  | [] => None
  | (k, sheets) :: b' => if String.eqb k sid then Some sheets else find_book sid b'
  end.

Fixpoint put_book (sid : string) (sheets : list Sheet)
    (b : list (string * list Sheet)) : list (string * list Sheet) :=
  match b with
  | [] => [(sid, sheets)]
  | (k, old) :: b' =>
      if String.eqb k sid then (k, sheets) :: b'
      else (k, old) :: put_book sid sheets b'
  end.

Definition has_title (name : string) (sheets : list Sheet) : bool :=
  existsb (fun sh => String.eqb (title sh) name) sheets.

(** Applies [f] to the rows of the first tab called [name]. *)
Fixpoint map_sheet (name : string) (f : table -> table) (sheets : list Sheet)
  : list Sheet :=
  match sheets with
  | [] => []
  | sh :: rest =>
      if String.eqb (title sh) name then mkSheet (title sh) (f (rows sh)) :: rest
      else sh :: map_sheet name f rest
  end.

Fixpoint find_sheet (name : string) (sheets : list Sheet) : option Sheet :=
  match sheets with
  | [] => None
  | sh :: rest =>
      if String.eqb (title sh) name then Some sh else find_sheet name rest
  end.

(** The spreadsheet a request addresses; 404 when there is none. *)
Definition the_book (sid : string) : M State (list Sheet) :=
  b <- gets books ;;
  match find_book sid b with
  | Some sheets => ret sheets
  | None => raise (http_error 404 "Requested entity was not found.")
  end.

(** [service.get(spreadsheetId=...)]: the list of tabs. *)
Definition spreadsheet_get (sid : string) : M State (list Sheet) :=
  request (GetSpreadsheet sid) ;;
  the_book sid.

(** [service.batchUpdate] with one addSheet request: a new empty tab at the
    end; the backend refuses a title that is taken. *)
Definition batch_add_sheet (sid name : string) : M State unit :=
  request (AddSheet sid name) ;;
  sheets <- the_book sid ;;
  if has_title name sheets then
    raise (http_error 400 "A sheet with that name already exists.")
  else
    modify (fun s => set_books (put_book sid (sheets ++ [mkSheet name []]) (books s)) s).

(** Applies a write to the tab [name] of spreadsheet [sid]; 400 when the
    range names no tab. *)
Definition write_tab (sid name : string) (f : State -> table -> table)
  : M State unit :=
  sheets <- the_book sid ;;
  if has_title name sheets then
    modify (fun s => set_books (put_book sid (map_sheet name (f s) sheets) (books s)) s)
  else raise (http_error 400 "Unable to parse range.").

(** [values().update(range='<name>!A1', body={'values': [r]})]. *)
Definition values_update_a1 (sid name : string) (r : list json)
  : M State unit :=
  request (UpdateValues sid (name ++ "!A1") [r]) ;;
  write_tab sid name (fun s t => write_row 0 (map (cell_of s) r) t).

(** [values().append(range='<name>!A1', INSERT_ROWS, body={'values': [r]})]. *)
Definition values_append_a1 (sid name : string) (r : list json)
  : M State unit :=
  request (AppendValues sid (name ++ "!A1") [r]) ;;
  write_tab sid name (fun s t => t ++ [map (cell_of s) r]).

(** [values().get(range='<name>!A2:E')]: the rows below the first one,
    columns A to E. *)
Definition values_get_a2e (sid name : string) : M State table :=
  request (GetValues sid (name ++ "!A2:E")) ;;
  sheets <- the_book sid ;;
  match find_sheet name sheets with
  | Some sh => ret (map (firstn 5) (tl (rows sh)))
  | None => raise (http_error 400 "Unable to parse range.")
  end.

(** ** Constants *)

Definition HEADER_ROW : list string :=
  ["Date"; "Amount"; "Category"; "Description"; "Type"].

(** ** Master sheet operations *)

(** The loop of [get_user_sheet_id]: the second cell of the first row that
    has at least two cells and whose first cell is [user_id]. *)
Fixpoint find_sheet_id (user_id : string) (values : table) : option string :=
  match values with
  | [] => None
  | row :: rest =>
      if (2 <=? length row)%nat && String.eqb (nth 0 row "") user_id
      then Some (nth 1 row "")
      else find_sheet_id user_id rest
  end.

Definition get_user_sheet_id (master_sheet_id user_id : string)
  : M State (option string) :=
  try_except
    (values <- values_get_master master_sheet_id ;;
     match values with
     | [] => ret None
     | _ => ret (find_sheet_id user_id values)
     end)
    (fun e =>
       (if is_http e
        then logger ERROR "An API error occurred while reading Master Sheet"
        else logger ERROR "An unexpected error occurred while reading Master Sheet") ;;
       raise e).

(** The loop of [add_user_to_master_sheet]: [(user_row_index,
    existing_sheet_id)] after the [for ... break], where [i] is the index
    [enumerate] gives to the head of [values]. *)
Fixpoint scan_rows (user_id : string) (i : Z) (values : table)
  : Z * option string :=
  match values with
  | [] => ((-1)%Z, None)
  | row :: rest =>
      if (1 <=? length row)%nat && String.eqb (nth 0 row "") user_id
      then ((i + 1)%Z,
            if (2 <=? length row)%nat then Some (nth 1 row "") else None)
      else scan_rows user_id (i + 1) rest
  end.

Definition option_str_eqb (a : option string) (b : string) : bool :=
  match a with
  | Some x => String.eqb x b
  | None => false
  end.

Definition add_user_to_master_sheet (master_sheet_id user_id sheet_id : string)
  : M State bool :=
  try_except
    (values <- values_get_master master_sheet_id ;;
     let '(user_row_index, existing_sheet_id) := scan_rows user_id 0 values in
     if negb (user_row_index =? -1)%Z then
       if option_str_eqb existing_sheet_id sheet_id then ret true
       else
         values_update_master master_sheet_id user_row_index
           [JStr user_id; JStr sheet_id] ;;
         ret true
     else
       values_append_master master_sheet_id [JStr user_id; JStr sheet_id] ;;
       ret true)
    (fun e =>
       (if is_http e
        then logger ERROR "An API error occurred while writing to Master Sheet"
        else logger ERROR "An unexpected error occurred while writing to Master Sheet") ;;
       ret false).

(** ** User sheet operations *)

Definition is_status (e : exn) (code : Z) : bool :=
  match kind e with HttpError st => (st =? code)%Z | _ => false end.

Definition _get_or_create_monthly_sheet (user_sheet_id sheet_name : string)
  : M State bool :=
  try_except
    (sheets <- spreadsheet_get user_sheet_id ;;
     let sheet_exists := has_title sheet_name sheets in
     (if negb sheet_exists then
        batch_add_sheet user_sheet_id sheet_name ;;
        values_update_a1 user_sheet_id sheet_name (map JStr HEADER_ROW)
      else ret tt) ;;
     ret true)
    (fun e =>
       if is_http e then
         logger ERROR "API error checking/creating sheet" ;;
         (if is_status e 403
          then logger ERROR "Permission denied. Ensure the bot has editor access to the sheet."
          else ret tt) ;;
         ret false
       else
         logger ERROR "Unexpected error checking/creating sheet" ;;
         ret false).

(** [strftime]: [%Y] as four digits, the other fields as two. *)
Definition digit_char (d : Z) : ascii :=
  ascii_of_nat (48 + Z.to_nat (d mod 10)).

Definition pad2 (n : Z) : string :=
  String (digit_char (n / 10)) (String (digit_char n) "").

Definition pad4 (n : Z) : string :=
  String (digit_char (n / 1000)) (String (digit_char (n / 100)) (pad2 n)).

(** [now.strftime('%Y-%m')]. *)
Definition strftime_Y_m (t : DateTime) : string :=
  pad4 (year t) ++ "-" ++ pad2 (month t).

(** [now.strftime('%Y-%m-%d %H:%M:%S')]. *)
Definition strftime_full (t : DateTime) : string :=
  pad4 (year t) ++ "-" ++ pad2 (month t) ++ "-" ++ pad2 (day t) ++ " " ++
  pad2 (hour t) ++ ":" ++ pad2 (minute t) ++ ":" ++ pad2 (second t).

Definition append_expense_to_sheet (user_sheet_id : string)
    (amount category description : json) (transaction_type : string)
  : M State bool :=
  try_except
    (now <- gets now ;;
     let sheet_name := strftime_Y_m now in
     let date_str := strftime_full now in
     created <- _get_or_create_monthly_sheet user_sheet_id sheet_name ;;
     if negb created then
       logger ERROR "Failed to get or create sheet. Aborting append." ;;
       ret false
     else
       amount_f <- py_float amount ;;
       let row_data :=
         [JStr date_str; JFloat amount_f; category; description;
          JStr transaction_type] in
       values_append_a1 user_sheet_id sheet_name row_data ;;
       ret true)
    (fun e =>
       (if is_http e
        then logger ERROR "API error appending to sheet"
        else logger ERROR "Unexpected error appending to sheet") ;;
       raise e).

(** ** Analysis *)

(** [re.compile(r"^\d{4}-\d{2}$").match]: [$] also matches before a final
    newline.  Only the ASCII digits are recognised. *)
Definition monthly_sheet_pattern (s : string) : bool :=
  match list_ascii_of_string s with
  | y1 :: y2 :: y3 :: y4 :: dash :: m1 :: m2 :: rest =>
      is_digit y1 && is_digit y2 && is_digit y3 && is_digit y4 &&
      Ascii.eqb dash "-" && is_digit m1 && is_digit m2 &&
      match rest with
      | [] => true
      | [nl] => Ascii.eqb nl (ascii_of_nat 10)
      | _ => false
      end
  | _ => false
  end.

(** A record of [all_expenses]: the dict keyed by [HEADER_ROW].  [None] is
    Python's [None]; [Amount] holds the cleaned amount. *)
Record Expense := mkExpense {
  Date : option string;
  Amount : option pyfloat;
  Category : option string;
  Description : option string;
  Type_ : option string
}.

(** [row.extend([None] * (len(HEADER_ROW) - len(row)))]. *)
Definition pad_row (r : row) : list (option string) :=
  map Some r ++ repeat None (length HEADER_ROW - length r).

Definition cell_truthy (c : option string) : bool :=
  match c with
  | Some s => negb (String.eqb s "")
  | None => false
  end.

(** The cleaning of the amount cell: [float(str(x).replace(',', '.'))] for
    a non-empty cell, [0.0] for an empty one, [None] and a warning when the
    conversion raises [ValueError] or [TypeError]. *)
Definition clean_amount (cell : option string) : M State (option pyfloat) :=
  try_except
    (match cell with
     | Some s =>
         if cell_truthy cell then
           f <- float_str (replace_comma s) ;;
           ret (Some f)
         else ret (Some (Fin 0 0))
     | None => ret (Some (Fin 0 0))
     end)
    (fun e =>
       if is_value_or_type_error e then
         logger WARNING "Could not convert amount to float. Skipping amount field for this row." ;;
         ret None
       else raise e).

(** The body of the loop over the rows of one sheet. *)
Definition row_to_record (r : row) : M State Expense :=
  let padded := pad_row r in
  amount <- clean_amount (nth 1 padded None) ;;
  ret (mkExpense (nth 0 padded None) amount (nth 2 padded None)
                 (nth 3 padded None) (nth 4 padded None)).

Fixpoint rows_to_records (values : table) : M State (list Expense) :=
  match values with
  | [] => ret []
  | r :: rest =>
      e <- row_to_record r ;;
      es <- rows_to_records rest ;;
      ret (e :: es)
  end.

(** The loop over the tabs of the spreadsheet, with the records collected
    so far. *)
Fixpoint scan_sheets (user_sheet_id : string) (sheets : list Sheet)
    (all_expenses : list Expense) : M State (list Expense) :=
  match sheets with
  | [] => ret all_expenses
  | sheet :: rest =>
      let sheet_title := title sheet in
      if negb (String.eqb sheet_title "") && monthly_sheet_pattern sheet_title
      then
        collected <-
          try_except
            (values <- values_get_a2e user_sheet_id sheet_title ;;
             match values with
             | [] => ret all_expenses
             | _ =>
                 records <- rows_to_records values ;;
                 ret (all_expenses ++ records)
             end)
            (fun e =>
               (if is_http e
                then logger ERROR "API error reading sheet"
                else logger ERROR "Unexpected error reading sheet") ;;
               ret all_expenses) ;;
        scan_sheets user_sheet_id rest collected
      else scan_sheets user_sheet_id rest all_expenses
  end.

Definition get_all_expenses_for_analysis (user_sheet_id : string)
  : M State (list Expense) :=
  try_except
    (sheets <- spreadsheet_get user_sheet_id ;;
     scan_sheets user_sheet_id sheets [])
    (fun e =>
       (if is_http e
        then logger ERROR "API error getting spreadsheet metadata"
        else logger ERROR "Unexpected error getting spreadsheet metadata") ;;
       raise e).

End Sheets.

(* ================================================================== *)
(** * gemini_api.py *)
(* ================================================================== *)

Module Gemini.
Import Py Eff Eff.Notations.
Local Open Scope eff_scope.

(** One answer of the inference endpoint to [generate_content].  The text
    of a response is carried together with what [json.loads] makes of it
    once the Markdown fences are stripped: [None] when it is not JSON. *)
Inductive Response :=
| CallRaises (e : exn)
| NoText (e : exn)
| Text (raw : string) (parsed : option json).

(** State of the collaborators of this module: the answers to come, the
    number of calls made, and the environment variable GEMINI_API_KEY. *)
Record State := mkState {
  script : list Response;
  calls : nat;
  api_key : option string
}.

(** [model.generate_content(prompt)]; an endpoint with nothing left to
    answer is unavailable. *)
Definition generate_content : M State Response :=
  fun s =>
    match script s with
    | CallRaises e :: rest => (Raise e, mkState rest (S (calls s)) (api_key s))
    | r :: rest => (Ret r, mkState rest (S (calls s)) (api_key s))
    | [] => (Raise (Exn OtherException "endpoint unavailable"),
             mkState [] (S (calls s)) (api_key s))
    end.

(** [response.text]. *)
Definition response_text (r : Response) : M State string :=
  match r with
  | Text raw _ => ret raw
  | NoText e => raise e
  | CallRaises e => raise e
  end.

(** [json.loads(cleaned_response_text)]. *)
Definition json_loads (r : Response) : M State json :=
  match r with
  | Text _ (Some v) => ret v
  | _ => raise (Exn JSONDecodeError "Expecting value")
  end.

Definition required_keys : list string :=
  ["request_type"; "is_income"; "is_expense"; "amount"; "category";
   "description"; "analysis_query"].

(** The list the category is looked up in; [None] is its last element. *)
Definition categories : list string :=
  ["Ăn uống & Đồ uống"; "Đi lại"; "Nhà ở"; "Mua sắm";
   "Giải trí"; "Sức khỏe"; "Giáo dục"; "Hóa đơn & Tiện ích";
   "Cá nhân"; "Cho vay"; "Vay tiền"; "Khác"].

(** [category in [..., None]]. *)
Definition category_listed (c : json) : bool :=
  match c with
  | JNull => true
  | JStr s => existsb (String.eqb s) categories
  | _ => false
  end.

Definition default_other : json :=
  JDict [("request_type", JStr "other"); ("is_income", JBool false);
         ("is_expense", JBool false); ("amount", JNull); ("category", JNull);
         ("description", JNull); ("analysis_query", JNull)].

(** The validation of the parsed response, from the check of the keys to
    [return result_json]. *)
Definition validate (result_json : json) : M State json :=
  complete <- has_keys required_keys result_json ;;
  if negb complete then ret default_other
  else
    d <- as_dict result_json ;;
    let request_type := get "request_type" d in
    if eq_str request_type "transaction" then
      let d1 :=
        if (truthy (get "is_expense" d) || truthy (get "is_income" d))
           && negb (category_listed (get "category" d))
        then dict_set "category" (JStr "Khác") d
        else d in
      if negb (is_none (get "amount" d1)) then
        try_except
          (f <- py_float (get "amount" d1) ;;
           ret (JDict (dict_set "amount" (JFloat f) d1)))
          (fun e =>
             if is_value_or_type_error e
             then ret (JDict (dict_set "amount" JNull d1))
             else raise e)
      else ret (JDict (dict_set "request_type" (JStr "other") d1))
    else if eq_str request_type "analysis" then
      if negb (truthy (get "analysis_query" d))
      then ret (JDict (dict_set "request_type" (JStr "other") d))
      else ret (JDict d)
    else if eq_str request_type "other" then ret (JDict d)
    else ret (JDict (dict_set "request_type" (JStr "other") d)).

(** Returns [JNull] where the source returns [None]. *)
Definition analyze_expense_message (message_text : string) : M State json :=
  try_except
    (response <- generate_content ;;
     _ <- response_text response ;;
     try_except
       (result_json <- json_loads response ;;
        validate result_json)
       (fun _ => ret JNull))
    (fun _ => ret JNull).

Definition nl : string := String (ascii_of_nat 10) "".

Definition str_truthy (o : option string) : bool :=
  match o with
  | Some s => negb (String.eqb s "")
  | None => false
  end.

(** Returns [(summary, chart_json)].  The record list only enters the
    prompt, and it always serialises: its values are strings, floats and
    [None].  The chart JSON string is carried as the value it serialises. *)
Definition generate_expense_report {E : Type} (user_query : json)
    (expense_data : list E) : M State (json * option json) :=
  key <- gets api_key ;;
  if negb (str_truthy key) then ret (JNull, None)
  else
    try_except
      (response <- generate_content ;;
       raw <- try_except
                (t <- response_text response ;; ret (Some t))
                (fun _ => ret None) ;;
       match raw with
       | None =>
           ret (JStr "Error: Could not get text from Gemini response.", None)
       | Some raw_response_text =>
           try_except
             (result_json <- json_loads response ;;
              d <- as_dict result_json ;;
              let summary := get "summary" d in
              let chart_data := get "chart_json" d in
              if negb (truthy summary) || negb (truthy chart_data)
              then ret (JStr raw_response_text, None)
              else ret (summary, Some chart_data))
             (fun e =>
                match kind e with
                | JSONDecodeError =>
                    ret (JStr ("Received analysis summary (but failed to parse chart data):"
                               ++ nl ++ nl ++ raw_response_text), None)
                | _ =>
                    ret (JStr ("Error processing Gemini response: " ++ text e),
                         None)
                end)
       end)
      (fun e =>
         match kind e with
         | BlockedPromptException =>
             ret (JStr "Your request could not be processed due to safety filters.",
                  None)
         | _ =>
             ret (JStr ("An error occurred while contacting the analysis service: "
                        ++ text e), None)
         end).

End Gemini.

(* ================================================================== *)
(** * utils.py *)
(* ================================================================== *)

Module Chart.
Import Py Eff Eff.Notations.
Local Open Scope eff_scope.

(** What the function asks the plotting library to draw. *)
Inductive Plot :=
| Bar (i num_datasets : nat) (data label : json)
| BarTicks (labels : json)
| Line (labels data label : json)
| Pie (data labels : list json)
| NoDataText.

(** The figure that is saved to the PNG buffer. *)
Record Figure := mkFigure {
  plots : list Plot;
  fig_title : json;
  xlabel : json;
  ylabel : json;
  legend : bool
}.

Definition str_of_nat (n : nat) : string :=
  NilZero.string_of_uint (Nat.to_uint n).

(** [(dataset_data + [0] * len(labels))[:len(labels)]] when the lengths
    differ. *)
Definition fit_to_labels (dataset_data labels : json) : M unit json :=
  n <- len dataset_data ;;
  m <- len labels ;;
  if negb (n =? m)%nat then
    match dataset_data with
    | JList l => ret (JList (firstn m (l ++ repeat (JInt 0) m)))
    | _ => raise (Exn TypeError "can only concatenate list to list")
    end
  else ret dataset_data.

(** [dataset.get('label', f'Dataset {i+1}')]. *)
Definition dataset_label (i : nat) (d : dict) : json :=
  get_default "label" (JStr ("Dataset " ++ str_of_nat (i + 1))) d.

(** [for i, dataset in enumerate(datasets)], from index [i]. *)
Fixpoint enumerate_from {A} (i : nat) (body : nat -> json -> M unit A)
    (xs : list json) : M unit (list A) :=
  match xs with
  | [] => ret []
  | x :: xs' =>
      y <- body i x ;;
      ys <- enumerate_from (S i) body xs' ;;
      ret (y :: ys)
  end.

Definition plot_bar (labels datasets : json) : M unit (list Plot) :=
  num_datasets <- len datasets ;;
  _ <- len labels ;;
  elems <- iter datasets ;;
  bars <- enumerate_from 0
            (fun i dataset =>
               d <- as_dict dataset ;;
               dataset_data <- fit_to_labels (get_default "data" (JList []) d) labels ;;
               ret (Bar i num_datasets dataset_data (dataset_label i d)))
            elems ;;
  ret (bars ++ [BarTicks labels]).

Definition plot_line (labels datasets : json) : M unit (list Plot) :=
  elems <- iter datasets ;;
  enumerate_from 0
    (fun i dataset =>
       d <- as_dict dataset ;;
       dataset_data <- fit_to_labels (get_default "data" (JList []) d) labels ;;
       ret (Line labels dataset_data (dataset_label i d)))
    elems.

(** The elements kept by a comprehension with the filter [d > 0]. *)
Fixpoint keep {A} (flags : list bool) (xs : list A) : list A :=
  match flags, xs with
  | true :: fs, x :: xs' => x :: keep fs xs'
  | false :: fs, _ :: xs' => keep fs xs'
  | _, _ => []
  end.

Definition plot_pie (labels datasets : json) : M unit (list Plot) :=
  if truthy datasets then
    dataset <- item datasets 0 ;;
    d <- as_dict dataset ;;
    dataset_data <- fit_to_labels (get_default "data" (JList []) d) labels ;;
    elems <- iter dataset_data ;;
    positive <- for_each gt_zero elems ;;
    let non_zero_data := keep positive elems in
    non_zero_labels <- for_each (item labels)
                         (keep positive (seq 0 (length elems))) ;;
    match non_zero_data with
    | [] => ret [NoDataText]
    | _ => ret [Pie non_zero_data non_zero_labels]
    end
  else ret [NoDataText].

(** The check that rejects an incomplete specification:
    [not data or 'labels' not in data or 'datasets' not in data
     or not data['datasets']]. *)
Definition incomplete (data : json) : M unit bool :=
  if negb (truthy data) then ret true
  else
    has_labels <- has_key "labels" data ;;
    if negb has_labels then ret true
    else
      has_datasets <- has_key "datasets" data ;;
      if negb has_datasets then ret true
      else
        datasets <- subscript data "datasets" ;;
        ret (negb (truthy datasets)).

(** [chart_data.get('type', 'bar').lower()]. *)
Definition chart_type_of (cd : dict) : M unit string :=
  match get_default "type" (JStr "bar") cd with
  | JStr s => ret (lower s)
  | _ => raise (Exn AttributeError "object has no attribute 'lower'")
  end.

(** The body of the [try] block, up to the figure that is saved; [None]
    where the source returns [None]. *)
Definition draw (chart_data : json) : M unit (option Figure) :=
  cd <- as_dict chart_data ;;
  chart_type <- chart_type_of cd ;;
  let data := get "data" cd in
  let options := get_default "options" (JDict []) cd in
  bad <- incomplete data ;;
  if bad then ret None
  else
    labels <- subscript data "labels" ;;
    datasets <- subscript data "datasets" ;;
    drawn <-
      (if String.eqb chart_type "bar" then
         ps <- plot_bar labels datasets ;; ret (Some ps)
       else if String.eqb chart_type "line" then
         ps <- plot_line labels datasets ;; ret (Some ps)
       else if String.eqb chart_type "pie" then
         ps <- plot_pie labels datasets ;; ret (Some ps)
       else ret None) ;;
    match drawn with
    | None => ret None
    | Some ps =>
        opts <- as_dict options ;;
        n <- (if truthy datasets then len datasets else ret 0%nat) ;;
        ret (Some (mkFigure ps
                     (get_default "title" (JStr "Biểu đồ phân tích") opts)
                     (get_default "xAxisLabel" (JStr "") opts)
                     (get_default "yAxisLabel" (JStr "Giá trị") opts)
                     (truthy datasets && (1 <? n)%nat)))
    end.

(** [chart_json] is the string argument, carried as what [json.loads] makes
    of it, [None] when it is not JSON.  [plot_ok] tells whether the plotting
    library draws and saves the figure without raising.  The result stands
    for the PNG buffer. *)
Definition generate_chart_from_json (plot_ok : Figure -> bool)
    (chart_json : option json) : option Figure :=
  match chart_json with
  | None => None
  | Some chart_data =>
      match draw chart_data tt with
      | (Ret (Some fig), _) => if plot_ok fig then Some fig else None
      | (Ret None, _) => None
      | (Raise _, _) => None
      end
  end.

End Chart.

(* ================================================================== *)
(** * bot_handlers.py *)
(* ================================================================== *)

Module Handlers.
Import Py Eff Eff.Notations.
Local Open Scope eff_scope.

(** ** The chat transport *)

(** The texts the handlers send, one constructor per [reply_text] call of
    the source, with the values interpolated into the text. *)
Inductive TextMsg :=
| Welcome
| Help (email : option string)
| RegisterUsage
| InvalidUrl
| ConfigError
| RegisteredNoEmail
| RegisterFailedNoEmail
| RegisterErrorNoEmail
| Registered (email : string)
| RegisterFailed
| RegisterApiError (status : Z) (hint_403 : bool)
| RegisterUnexpected
| RegistrationCheckError
| Logged (income : bool) (amount category : json)
| AppendFailed (email : option string)
| PermissionDenied (email : option string)
| SheetNotFound
| AppendApiError (status : Z)
| AppendUnexpected
| Analysing (user_query : json)
| NoTransactions
| AnalysisResult (user_query : json) (escaped_summary : string)
| FormatError
| CannotSendResult
| ChartNotSent
| AnalysisFailed
| AnalysisSheetError
| AnalysisUnexpected.

Inductive Reply :=
| ReplyText (m : TextMsg)
| ReplyPhoto (photo : Chart.Figure) (caption_query : json).

(** The collaborators of the handlers: the state of the two API modules,
    the outcome of the next sends ([Some e] for one that raises [e], sends
    beyond the script are delivered), the replies delivered so far, and the
    plotting library. *)
Record World := mkWorld {
  sheets : Sheets.State;
  gemini : Gemini.State;
  send_script : list (option exn);
  outbox : list Reply;
  plot_ok : Chart.Figure -> bool
}.

Definition set_sheets (s : Sheets.State) (w : World) : World :=
  mkWorld s (gemini w) (send_script w) (outbox w) (plot_ok w).

Definition set_gemini (g : Gemini.State) (w : World) : World :=
  mkWorld (sheets w) g (send_script w) (outbox w) (plot_ok w).

Definition in_sheets {A} (c : M Sheets.State A) : M World A :=
  lift sheets set_sheets c.

Definition in_gemini {A} (c : M Gemini.State A) : M World A :=
  lift gemini set_gemini c.

(** A send: it raises and delivers nothing when the script says so. *)
Definition send (r : Reply) : M World unit :=
  fun w =>
    match send_script w with
    | Some e :: rest =>
        (Raise e, mkWorld (sheets w) (gemini w) rest (outbox w) (plot_ok w))
    | None :: rest =>
        (Ret tt, mkWorld (sheets w) (gemini w) rest (outbox w ++ [r]) (plot_ok w))
    | [] =>
        (Ret tt, mkWorld (sheets w) (gemini w) [] (outbox w ++ [r]) (plot_ok w))
    end.

(** [update.message.reply_text]. *)
Definition reply_text (m : TextMsg) : M World unit := send (ReplyText m).

(** [update.message.reply_photo]. *)
Definition reply_photo (photo : Chart.Figure) (caption_query : json)
  : M World unit :=
  send (ReplyPhoto photo caption_query).

(** [context.bot_data]. *)
Record BotData := mkBotData {
  sheets_service : bool;
  master_sheet_id : option string;
  service_account_email : option string
}.

(** The update and the command arguments that come with it. *)
Record Update := mkUpdate {
  effective_user_id : Z;
  message_text : string;
  args : list string
}.

(** ** Command handlers *)

Definition start (update : Update) (context : BotData) : M World unit :=
  reply_text Welcome.

Definition help_command (update : Update) (context : BotData) : M World unit :=
  if Gemini.str_truthy (service_account_email context)
  then reply_text (Help (service_account_email context))
  else reply_text (Help None).

(** The class [[a-zA-Z0-9-_]]. *)
Definition id_char (c : ascii) : bool :=
  let n := nat_of_ascii c in
  ((97 <=? n) && (n <=? 122))%nat || ((65 <=? n) && (n <=? 90))%nat
  || ((48 <=? n) && (n <=? 57))%nat || Ascii.eqb c "-" || Ascii.eqb c "_".

Fixpoint take_while (p : ascii -> bool) (cs : list ascii) : list ascii :=
  match cs with
  | c :: cs' => if p c then c :: take_while p cs' else []
  | [] => []
  end.

(** [re.search(r"/spreadsheets/d/([a-zA-Z0-9-_]+)", url)]: group 1 of the
    leftmost match. *)
Fixpoint search_sheet_id (cs : list ascii) : option string :=
  let marker := list_ascii_of_string "/spreadsheets/d/" in
  let here :=
    if is_prefix marker cs
    then take_while id_char (skipn (length marker) cs)
    else [] in
  match here with
  | _ :: _ => Some (string_of_list_ascii here)
  | [] =>
      match cs with
      | _ :: cs' => search_sheet_id cs'
      | [] => None
      end
  end.

Definition extract_sheet_id_from_url (url : string) : option string :=
  search_sheet_id (list_ascii_of_string url).

Definition status_of (e : exn) : Z :=
  match kind e with HttpError st => st | _ => 0%Z end.

(** Sends a message from an [except] block that guards the send itself. *)
Definition try_reply (m : TextMsg) : M World unit :=
  try_except (reply_text m) (fun _ => ret tt).

Definition register (update : Update) (context : BotData) : M World unit :=
  let user_id := effective_user_id update in
  match args update with
  | [] => reply_text RegisterUsage
  | sheet_url :: _ =>
      match extract_sheet_id_from_url sheet_url with
      | None => reply_text InvalidUrl
      | Some sheet_id =>
          if String.eqb sheet_id "" then reply_text InvalidUrl
          else if negb (sheets_service context)
                  || negb (Gemini.str_truthy (master_sheet_id context))
          then reply_text ConfigError
          else
            let master := match master_sheet_id context with
                          | Some m => m | None => "" end in
            if negb (Gemini.str_truthy (service_account_email context)) then
              try_except
                (success <- in_sheets
                   (Sheets.add_user_to_master_sheet master
                      (Sheets.str_of_Z user_id) sheet_id) ;;
                 if success then reply_text RegisteredNoEmail
                 else reply_text RegisterFailedNoEmail)
                (fun _ => reply_text RegisterErrorNoEmail)
            else
              let email := match service_account_email context with
                           | Some a => a | None => "" end in
              try_except
                (success <- in_sheets
                   (Sheets.add_user_to_master_sheet master
                      (Sheets.str_of_Z user_id) sheet_id) ;;
                 if success then reply_text (Registered email)
                 else reply_text RegisterFailed)
                (fun e =>
                   if is_http e then
                     try_reply (RegisterApiError (status_of e)
                                  (status_of e =? 403)%Z)
                   else try_reply RegisterUnexpected)
      end
  end.

(** ** Message handler *)

(** [telegram.helpers.escape_markdown(text, version=1)]: a backslash before
    each of [_], [*], the backquote and the opening square bracket. *)
Definition markdown_special (c : ascii) : bool :=
  Ascii.eqb c "_" || Ascii.eqb c "*" || Ascii.eqb c "`" || Ascii.eqb c "[".

Definition escape_markdown (summary : json) : M World string :=
  match summary with
  | JStr s =>
      ret (string_of_list_ascii
             (flat_map (fun c => if markdown_special c then ["\"%char; c] else [c])
                       (list_ascii_of_string s)))
  | _ => raise (Exn TypeError "expected string or bytes-like object")
  end.

(** Whether [f"{amount:,.0f}"] formats the value. *)
Definition formats_as_float (amount : json) : bool :=
  match amount with
  | JFloat _ | JInt _ | JBool _ => true
  | _ => false
  end.

(** The branch [request_type == "transaction"]. *)
Definition log_transaction (context : BotData) (user_sheet_id : string)
    (analysis_result : dict) : M World unit :=
  let amount := get "amount" analysis_result in
  let category := get "category" analysis_result in
  let description := get_default "description" (JStr "") analysis_result in
  let income := truthy (get "is_income" analysis_result) in
  let transaction_type := if income then "Thu" else "Chi" in
  let email := if Gemini.str_truthy (service_account_email context)
               then service_account_email context else None in
  if negb (is_none amount) && truthy category then
    try_except
      (success <- in_sheets
         (Sheets.append_expense_to_sheet user_sheet_id amount category
            description transaction_type) ;;
       if success then
         if formats_as_float amount
         then reply_text (Logged income amount category)
         else raise (Exn ValueError "Unknown format code 'f'")
       else reply_text (AppendFailed email))
      (fun e =>
         if is_http e then
           if (status_of e =? 403)%Z then reply_text (PermissionDenied email)
           else if (status_of e =? 404)%Z then reply_text SheetNotFound
           else reply_text (AppendApiError (status_of e))
         else reply_text AppendUnexpected)
  else ret tt.

(** The branch [request_type == "analysis"].  The summary message is cut
    to 4096 characters in the source; the cut changes the text of that one
    message only and is left out. *)
Definition perform_analysis (user_sheet_id : string) (analysis_result : dict)
  : M World unit :=
  let user_query := get "analysis_query" analysis_result in
  if negb (truthy user_query) then ret tt
  else
    reply_text (Analysing user_query) ;;
    try_except
      (all_transactions <- in_sheets
         (Sheets.get_all_expenses_for_analysis user_sheet_id) ;;
       match all_transactions with
       | [] => reply_text NoTransactions
       | _ =>
           report <- in_gemini
             (Gemini.generate_expense_report user_query all_transactions) ;;
           let '(summary, chart_json) := report in
           if truthy summary then
             escaped_summary <- escape_markdown summary ;;
             try_except
               (reply_text (AnalysisResult user_query escaped_summary))
               (fun e =>
                  match kind e with
                  | BadRequest => reply_text FormatError
                  | _ => reply_text CannotSendResult
                  end) ;;
             match chart_json with
             | Some chart =>
                 ok <- gets plot_ok ;;
                 match Chart.generate_chart_from_json ok (Some chart) with
                 | Some chart_image_buffer =>
                     try_except
                       (reply_photo chart_image_buffer user_query)
                       (fun _ => reply_text ChartNotSent)
                 | None => ret tt
                 end
             | None => ret tt
             end
           else reply_text AnalysisFailed
       end)
      (fun e =>
         if is_http e then reply_text AnalysisSheetError
         else reply_text AnalysisUnexpected).

Definition handle_message (update : Update) (context : BotData)
  : M World unit :=
  let user_id := Sheets.str_of_Z (effective_user_id update) in
  if negb (sheets_service context)
     || negb (Gemini.str_truthy (master_sheet_id context))
  then ret tt
  else
    let master := match master_sheet_id context with
                  | Some m => m | None => "" end in
    registration <-
      try_except
        (user_sheet_id <- in_sheets (Sheets.get_user_sheet_id master user_id) ;;
         if negb (Gemini.str_truthy user_sheet_id) then ret None
         else ret user_sheet_id)
        (fun _ => reply_text RegistrationCheckError ;; ret None) ;;
    match registration with
    | None => ret tt
    | Some user_sheet_id =>
        try_except
          (analysis_result <- in_gemini
             (Gemini.analyze_expense_message (message_text update)) ;;
           if negb (truthy analysis_result) then ret tt
           else
             result <- as_dict analysis_result ;;
             let request_type := get "request_type" result in
             if eq_str request_type "transaction" then
               log_transaction context user_sheet_id result
             else if eq_str request_type "analysis" then
               perform_analysis user_sheet_id result
             else if eq_str request_type "other" then ret tt
             else ret tt)
          (fun _ => ret tt)
    end.

End Handlers.

(* ================================================================== *)
(** * Vocabulary of the statements *)
(* ================================================================== *)

(** Vocabulary of the statements about the registry table. *)
Module RegistrySpec.
Import Py Eff Eff.Notations Sheets.

(** The first cell of the row is [u]: the row is "a row for [u]" to
    [add_user_to_master_sheet]. *)
Definition row_of (u : string) (r : row) : Prop := hd_error r = Some u.

(** [row_of] as a test. *)
Definition row_ofb (u : string) (r : row) : bool :=
  match r with
  | c :: _ => String.eqb c u
  | [] => false
  end.

(** The cells right of the second one. *)
Definition tl_skip (tl : row) : row := skipn 1 tl.


(** The state after the read of the registry alone. *)
Definition after_read (mid : string) (s : State) : State :=
  set_api [] (api_log s ++ [GetValues mid "A:B"]) s.

(** The request that rewrites row [i] (1-based). *)
Definition update_request (mid u sid : string) (i : Z) : Request :=
  UpdateValues mid ("A" ++ str_of_Z i ++ ":B" ++ str_of_Z i)
               [[JStr u; JStr sid]].

(** The state after the read and the rewrite of row [i], the table being
    [t] then. *)
Definition after_update (mid u sid : string) (i : Z) (t : table) (s : State)
  : State :=
  set_master t
    (set_api [] (api_log s ++ [GetValues mid "A:B"; update_request mid u sid i]) s).

(** The state after the read and the append of the row [u; sid]. *)
Definition after_append (mid u sid : string) (s : State) : State :=
  set_master (master s ++ [[u; sid]])
    (set_api [] (api_log s ++ [GetValues mid "A:B";
                               AppendValues mid "A1" [[JStr u; JStr sid]]]) s).

(** The table a successful [add_user_to_master_sheet] leaves. *)
Definition upsert_table (u sid : string) (t : table) : table :=
  let '(idx, ex) := scan_rows u 0 t in
  if negb (idx =? -1)%Z then
    if option_str_eqb ex sid then t
    else write_row (Z.to_nat (idx - 1)) [u; sid] t
  else t ++ [[u; sid]].

(** A backend with the registry table [t] and nothing else. *)
Definition registry (t : table) : State :=
  mkState t [] (fun _ => "") [] [] (mkDateTime 2025 4 1 9 30 0) [].

End RegistrySpec.

(** Vocabulary of the statements about the message classifier. *)
Module ClassifierSpec.
Import Py Eff Eff.Notations Gemini.

(** The test of the category check of the transaction branch. *)
Definition coerces (d : dict) : bool :=
  (truthy (get "is_expense" d) || truthy (get "is_income" d))
  && negb (category_listed (get "category" d)).

(** The dict after the category check of the transaction branch. *)
Definition after_category (d : dict) : dict :=
  if coerces d then dict_set "category" (JStr "Khác") d else d.

(** A response with the seven keys. *)
Definition response_dict (request_type is_income is_expense amount category
    : json) : dict :=
  [("request_type", request_type); ("is_income", is_income);
   ("is_expense", is_expense); ("amount", amount); ("category", category);
   ("description", JNull); ("analysis_query", JNull)].

(** An endpoint whose next answer parses to [v]. *)
Definition answering (v : json) : State :=
  mkState [Text "{...}" (Some v)] 0 None.

End ClassifierSpec.

(** Vocabulary of the statements about the monthly transaction store. *)
Module StoreSpec.
Import Py Eff Eff.Notations Sheets.

(** The state after the tab list was read and found to hold the sheet. *)
Definition after_check (sid : string) (s : State) : State :=
  set_api [] (api_log s ++ [GetSpreadsheet sid]) s.

Definition header_request (sid name : string) : Request :=
  UpdateValues sid (name ++ "!A1") [map JStr HEADER_ROW].

(** The state after a month sheet was created behind the tabs [sheets]. *)
Definition after_create (sid name : string) (sheets : list Sheet) (s : State)
  : State :=
  set_books (put_book sid (sheets ++ [mkSheet name [HEADER_ROW]]) (books s))
    (set_api [] (api_log s ++ [GetSpreadsheet sid; AddSheet sid name;
                               header_request sid name]) s).

(** The cells of the row [append_expense_to_sheet] writes at time [t]. *)
Definition expense_row (s : State) (t : DateTime) (f : pyfloat)
    (category description : json) (kind : string) : row :=
  [strftime_full t; user_entered s (JFloat f); cell_of s category;
   cell_of s description; kind].

Definition append_request (sid : string) (t : DateTime) (f : pyfloat)
    (category description : json) (kind : string) : Request :=
  AppendValues sid (strftime_Y_m t ++ "!A1")
    [[JStr (strftime_full t); JFloat f; category; description; JStr kind]].

Definition valid_date (t : DateTime) : Prop :=
  (1 <= year t <= 9999)%Z /\ (1 <= month t <= 12)%Z.

Definition april : DateTime := mkDateTime 2025 4 30 23 59 58.
Definition may : DateTime := mkDateTime 2025 5 1 0 0 2.

(** A backend with one user spreadsheet that has a single blank tab. *)
Definition one_book : State :=
  mkState [] [("book", [mkSheet "Sheet1" []])]
          (fun v => match v with JFloat (Fin m _) => str_of_Z m | _ => "" end)
          [] [] april [].

Definition amount_warning : level * string :=
  (WARNING,
   "Could not convert amount to float. Skipping amount field for this row.").

End StoreSpec.

(** Vocabulary of the statements about the chart renderer. *)
Module ChartSpec.
Import Py Eff Eff.Notations Chart.

(** A plotting library that draws whatever it is given. *)
Definition draws_all : Figure -> bool := fun _ => true.

Definition spec_of (chart_type : list (string * json)) (labels datasets : json)
  : json :=
  JDict (chart_type ++
         [("data", JDict [("labels", labels); ("datasets", datasets)])]).

(** What is left of [draw] once the chart type is known. *)
Definition draw_typed (chart_type : string) (cd : dict)
  : M unit (option Figure) :=
  (let data := get "data" cd in
   let options := get_default "options" (JDict []) cd in
   bad <- incomplete data ;;
   if bad then ret None
   else
     labels <- subscript data "labels" ;;
     datasets <- subscript data "datasets" ;;
     drawn <-
       (if String.eqb chart_type "bar" then
          ps <- plot_bar labels datasets ;; ret (Some ps)
        else if String.eqb chart_type "line" then
          ps <- plot_line labels datasets ;; ret (Some ps)
        else if String.eqb chart_type "pie" then
          ps <- plot_pie labels datasets ;; ret (Some ps)
        else ret None) ;;
     match drawn with
     | None => ret None
     | Some ps =>
         opts <- as_dict options ;;
         n <- (if truthy datasets then len datasets else ret 0%nat) ;;
         ret (Some (mkFigure ps
                      (get_default "title" (JStr "Biểu đồ phân tích") opts)
                      (get_default "xAxisLabel" (JStr "") opts)
                      (get_default "yAxisLabel" (JStr "Giá trị") opts)
                      (truthy datasets && (1 <? n)%nat)))
     end)%eff.

(** The renderer's answer in terms of the outcome of [draw]. *)
Definition rendered (plot_ok : Figure -> bool)
    (r : res (option Figure) * unit) : option Figure :=
  match r with
  | (Ret (Some fig), _) => if plot_ok fig then Some fig else None
  | _ => None
  end.

End ChartSpec.

(** Vocabulary of the statements about the message handler. *)
Module DispatcherSpec.
Import Py Eff Eff.Notations Handlers.

Definition texts (l : list Reply) : nat :=
  length (filter (fun r => match r with ReplyText _ => true | _ => false end) l).


(** The world after a reply was delivered. *)
Definition deliver (r : Reply) (w : World) : World :=
  mkWorld (sheets w) (gemini w) [] (outbox w ++ [r]) (plot_ok w).

(** The user has no row that [get_user_sheet_id] would accept. *)
Definition unregistered (uid : string) (t : list (list string)) : Prop :=
  Forall (fun r => hd_error r <> Some uid \/ (length r < 2)%nat) t.

Definition configured (context : BotData) (mid : string) : Prop :=
  sheets_service context = true
  /\ master_sheet_id context = Some mid
  /\ mid <> "".


Definition lunch : list string :=
  ["2025-01-05 12:10:00"; "50000"; "Ăn uống & Đồ uống"; ""; "Chi"].

(** User 42 is registered with the spreadsheet [book], which holds one
    month; the registry read may be scripted to fail. *)
Definition bot_world (faults : list (option exn))
    (answers : list Gemini.Response) : World :=
  mkWorld
    (Sheets.mkState [["42"; "book"]]
       [("book", [Sheets.mkSheet "2025-01" [Sheets.HEADER_ROW; lunch]])]
       (fun _ => "") faults [] (Sheets.mkDateTime 2025 1 6 9 0 0) [])
    (Gemini.mkState answers 0 (Some "key"))
    [] [] ChartSpec.draws_all.

Definition bot_data : BotData :=
  mkBotData true (Some "master") (Some "bot@example.com").

Definition message (user : Z) (text : string) : Update :=
  mkUpdate user text [].

Definition classified (request_type amount category query : json) : json :=
  JDict [("request_type", request_type); ("is_income", JBool false);
         ("is_expense", JBool true); ("amount", amount);
         ("category", category); ("description", JNull);
         ("analysis_query", query)].

Definition report : json :=
  JDict [("summary", JStr "Tong chi: 50000");
         ("chart_json",
          ChartSpec.spec_of [("type", JStr "pie")] (JList [JStr "An uong"])
            (JList [JDict [("data", JList [JInt 50000])]]))].

End DispatcherSpec.

(** Vocabulary of the laws of the monthly transaction store. *)
Module StoreLawsSpec.
Import Py Eff Eff.Notations Sheets StoreSpec.

(** What [_get_or_create_monthly_sheet] can leave of a spreadsheet whose
    tabs were [sheets]. *)
Definition ensured (name : string) (sheets : list Sheet) (b : bool)
    (sheets' : list Sheet) : Prop :=
  (b = true /\ has_title name sheets = true /\ sheets' = sheets)
  \/ (b = true /\ has_title name sheets = false
      /\ sheets' = sheets ++ [mkSheet name [HEADER_ROW]])
  \/ (b = false /\ sheets' = sheets)
  \/ (b = false /\ has_title name sheets = false
      /\ sheets' = sheets ++ [mkSheet name []]).

(** The tabs after a data row was written behind the month [name]. *)
Definition row_written (name : string) (r : list string)
    (sheets sheets' : list Sheet) : Prop :=
  (has_title name sheets = true
   /\ sheets' = map_sheet name (fun t => t ++ [r]) sheets)
  \/ (has_title name sheets = false
      /\ sheets' = sheets ++ [mkSheet name [HEADER_ROW; r]]).

(** The tabs when no data row was written: as before, or with the new
    month tab, empty or holding its header only. *)
Definition no_row_written (name : string) (sheets sheets' : list Sheet)
  : Prop :=
  sheets' = sheets
  \/ (has_title name sheets = false
      /\ (sheets' = sheets ++ [mkSheet name []]
          \/ sheets' = sheets ++ [mkSheet name [HEADER_ROW]])).

(** Every tab of [sheets] is still there, in place, under its title, with
    its rows as a prefix of the rows it has now. *)
Definition extends (sheets sheets' : list Sheet) : Prop :=
  exists old extra,
    sheets' = old ++ extra
    /\ Forall2 (fun a b => title b = title a
                           /\ exists more, rows b = rows a ++ more)
               sheets old.

(** The cleaned amount of a cell. *)
Definition amount_of (cell : option string) : option pyfloat :=
  match cell with
  | Some a =>
      if String.eqb a "" then Some (Fin 0 0)
      else float_of_string (replace_comma a)
  | None => Some (Fin 0 0)
  end.

(** The record of one row. *)
Definition record_of (r : list string) : Expense :=
  let p := pad_row r in
  mkExpense (nth 0 p None) (amount_of (nth 1 p None)) (nth 2 p None)
            (nth 3 p None) (nth 4 p None).

(** The tab is one the scan reads. *)
Definition is_month (sh : Sheet) : bool :=
  negb (String.eqb (title sh) "") && monthly_sheet_pattern (title sh).

(** The records of the rows below the first one, columns A to E. *)
Definition data_records (sh : Sheet) : list Expense :=
  map record_of (map (firstn 5) (tl (rows sh))).

(** What the scan collects from one tab. *)
Definition month_records (sh : Sheet) : list Expense :=
  if is_month sh then data_records sh else [].

Definition months (sheets : list Sheet) : nat :=
  length (filter is_month sheets).

(** The scan of [sheets] against the tabs [all] of the spreadsheet, with
    the outcomes [script] of its reads: the records and the outcomes left. *)
Fixpoint scanned (all : list Sheet) (script : list (option exn))
    (sheets : list Sheet) : list Expense * list (option exn) :=
  match sheets with
  | [] => ([], script)
  | sh :: rest =>
      if is_month sh then
        match script with
        | Some _ :: script' => scanned all script' rest
        | _ =>
            let (recs, left) := scanned all (tl script) rest in
            (match find_sheet (title sh) all with
             | Some tab => data_records tab
             | None => []
             end ++ recs, left)
        end
      else scanned all script rest
  end.

(** Each tab of [sheets] is the tab [all] has under its title. *)
Definition own_tabs (all sheets : list Sheet) : Prop :=
  Forall (fun sh => find_sheet (title sh) all = Some sh) sheets.

(** The record the scan makes of the row an append wrote. *)
Definition appended_record (s : State) (f : pyfloat)
    (category description : json) (kind : string) : Expense :=
  mkExpense (Some (strftime_full (now s)))
            (amount_of (Some (user_entered s (JFloat f))))
            (Some (cell_of s category)) (Some (cell_of s description))
            (Some kind).

End StoreLawsSpec.

(** Vocabulary of the laws of the classifier and the report. *)
Module ClassifierLawsSpec.
Import Py Eff Eff.Notations Gemini ClassifierSpec.

(** What the handler may rely on in a classification: a dict whose request
    type is one of the three, with a float or [None] for the amount of a
    transaction and a non-empty query for an analysis. *)
Definition normalised (d : dict) : Prop :=
  (get "request_type" d = JStr "transaction"
   /\ (get "amount" d = JNull \/ exists f, get "amount" d = JFloat f))
  \/ (get "request_type" d = JStr "analysis"
      /\ truthy (get "analysis_query" d) = true)
  \/ get "request_type" d = JStr "other".

End ClassifierLawsSpec.

(** Vocabulary of the laws of the chart renderer. *)
Module ChartLawsSpec.
Import Py Eff Eff.Notations Chart ChartSpec.

(** A dataset the bar and line loops accept: a dict whose [data], when
    present, is a list. *)
Definition well_formed (dataset : json) : Prop :=
  exists d l, dataset = JDict d /\ get_default "data" (JList []) d = JList l.

(** The series of a plot request; the tick request of a bar chart has
    none. *)
Definition series_of (p : Plot) : option json :=
  match p with
  | Bar _ _ data _ => Some data
  | Line _ data _ => Some data
  | _ => None
  end.

(** The value at position [i] of [data] cut or padded to the labels. *)
Definition fitted (l : list json) (i : nat) : json :=
  if (i <? length l)%nat then nth i l JNull else JInt 0.

Definition aligned (labels : list json) (dataset : json) (p : Plot) : Prop :=
  exists d l l',
    dataset = JDict d /\
    get_default "data" (JList []) d = JList l /\
    series_of p = Some (JList l') /\
    length l' = length labels /\
    forall i, (i < length labels)%nat -> nth i l' JNull = fitted l i.

(** The slices kept from integer values paired with their labels. *)
Definition slices (zs : list Z) (labels : list json) : list (Z * json) :=
  filter (fun p => (0 <? fst p)%Z) (combine zs labels).

End ChartLawsSpec.

(** Relations that computations keep. *)
Module InvariantLawsSpec.
Import Py Eff Eff.Notations Sheets Handlers.

(** The computation [c] relates every state to the state it leaves,
    whether it returns or raises. *)
Definition preserves {S A} (R : S -> S -> Prop) (c : M S A) : Prop :=
  forall s, R s (snd (c s)).

Definition preorder {S} (R : S -> S -> Prop) : Prop :=
  (forall s, R s s) /\ (forall a b c, R a b -> R b c -> R a c).

(** The registry table is the same. *)
Definition same_registry (s s' : State) : Prop := master s' = master s.

(** The registry table and every spreadsheet are the same. *)
Definition same_tables (s s' : State) : Prop :=
  master s' = master s /\ books s' = books s.

(** The same, for the backend of a world. *)
Definition world_registry (w w' : World) : Prop :=
  same_registry (sheets w) (sheets w').

End InvariantLawsSpec.

(** Vocabulary of the laws of the handlers. *)
Module DispatcherLawsSpec.
Import Py Eff Eff.Notations Handlers DispatcherSpec.

Definition marker : list ascii := list_ascii_of_string "/spreadsheets/d/".

(** Group 1 of a match that starts at the head of [cs]; empty when there
    is none. *)
Definition match_here (cs : list ascii) : list ascii :=
  if is_prefix marker cs
  then take_while id_char (skipn (length marker) cs)
  else [].

(** The text does not go on with a character of the id class. *)
Definition ends_id (post : string) : Prop :=
  match post with
  | EmptyString => True
  | String c _ => id_char c = false
  end.

(** The text that confirms a registration. *)
Definition registered_text (context : BotData) : TextMsg :=
  if Gemini.str_truthy (service_account_email context)
  then Registered (match service_account_email context with
                   | Some a => a
                   | None => ""
                   end)
  else RegisteredNoEmail.

(** The checks [register] makes before it turns to the backend. *)
Definition rejected (update : Update) (context : BotData) : Prop :=
  args update = []
  \/ (exists url more, args update = url :: more
                       /\ extract_sheet_id_from_url url = None)
  \/ sheets_service context = false
  \/ Gemini.str_truthy (master_sheet_id context) = false.

End DispatcherLawsSpec.

(* ================================================================== *)
(** * Verified properties *)
(* ================================================================== *)

(** The registry: [get_user_sheet_id] and [add_user_to_master_sheet]. *)
Module RegistryFacts.
Import Py Eff Eff.Notations Sheets RegistrySpec.

Lemma row_ofb_spec u r : row_ofb u r = true <-> row_of u r.
Proof.
  unfold row_of; destruct r as [|c tl]; simpl.
  - split; discriminate.
  - rewrite String.eqb_eq. split; [intros ->; reflexivity | intros [= ->]; reflexivity].
Qed.

Lemma scan_test u r :
  ((1 <=? length r)%nat && String.eqb (nth 0 r "") u) = row_ofb u r.
Proof. destruct r; reflexivity. Qed.

Lemma scan_rows_absent u t : forall i,
  Forall (fun r => ~ row_of u r) t -> scan_rows u i t = ((-1)%Z, None).
Proof.
  induction t as [|r t IH]; intros i H; cbn [scan_rows]; [reflexivity|].
  inversion H as [|? ? Hr Ht]; subst.
  rewrite scan_test.
  destruct (row_ofb u r) eqn:E.
  - apply row_ofb_spec in E. contradiction.
  - apply IH; assumption.
Qed.

Lemma scan_rows_found u pre tl post : forall i,
  Forall (fun r => ~ row_of u r) pre ->
  scan_rows u i (pre ++ (u :: tl) :: post)
  = ((i + Z.of_nat (length pre) + 1)%Z, hd_error tl).
Proof.
  induction pre as [|r pre IH]; intros i H.
  - simpl. rewrite String.eqb_refl. simpl.
    replace (i + 0 + 1)%Z with (i + 1)%Z by lia.
    destruct tl; reflexivity.
  - inversion H as [|? ? Hr Hp]; subst.
    cbn [app scan_rows]. rewrite scan_test.
    destruct (row_ofb u r) eqn:E.
    + apply row_ofb_spec in E. contradiction.
    + rewrite IH by assumption. f_equal. cbn [length]. lia.
Qed.

Lemma scan_rows_index_pos u t : forall i, (0 <= i)%Z ->
  fst (scan_rows u i t) = (-1)%Z \/ (i < fst (scan_rows u i t))%Z.
Proof.
  induction t as [|r t IH]; intros i Hi; cbn [scan_rows]; [now left|].
  destruct (_ && _).
  - right. simpl. lia.
  - destruct (IH (i + 1)%Z ltac:(lia)) as [H|H]; [now left | right; lia].
Qed.

Lemma write_row_middle cells pre r post :
  write_row (length pre) cells (pre ++ r :: post)
  = pre ++ overlay cells r :: post.
Proof. induction pre as [|x pre IH]; simpl; [reflexivity | now rewrite IH]. Qed.

Lemma add_user_run mid u sid s :
  api_script s = [] ->
  add_user_to_master_sheet mid u sid s =
  (Ret true,
   let '(idx, ex) := scan_rows u 0 (master s) in
   if negb (idx =? -1)%Z then
     if option_str_eqb ex sid then after_read mid s
     else after_update mid u sid idx
            (write_row (Z.to_nat (idx - 1)) [u; sid] (master s)) s
   else after_append mid u sid s).
Proof.
  intros H.
  cbv beta iota delta [add_user_to_master_sheet try_except bind
    values_get_master request gets].
  rewrite H. cbv beta iota. cbn [master set_api].
  destruct (scan_rows u 0 (master s)) as [idx ex].
  destruct (negb (idx =? -1)%Z).
  - destruct (option_str_eqb ex sid); [reflexivity|].
    cbv beta iota delta [values_update_master bind request modify ret
      after_update update_request after_read].
    cbn. rewrite <- app_assoc. reflexivity.
  - cbv beta iota delta [values_append_master bind request modify ret
      after_append].
    cbn. rewrite <- app_assoc. reflexivity.
Qed.

Lemma scan_rows_cases u t i :
  (Forall (fun r => ~ row_of u r) t /\ scan_rows u i t = ((-1)%Z, None))
  \/ (exists pre tl post,
        t = pre ++ (u :: tl) :: post
        /\ Forall (fun r => ~ row_of u r) pre
        /\ scan_rows u i t = ((i + Z.of_nat (length pre) + 1)%Z, hd_error tl)).
Proof.
  assert (D : Forall (fun r => ~ row_of u r) t
              \/ exists pre tl post, t = pre ++ (u :: tl) :: post
                   /\ Forall (fun r => ~ row_of u r) pre).
  { induction t as [|r t IH]; [left; constructor|].
    destruct (row_ofb u r) eqn:E.
    - right. apply row_ofb_spec in E. destruct r as [|c tl]; [discriminate|].
      injection E as ->. exists [], tl, t. split; [reflexivity | constructor].
    - assert (Hr : ~ row_of u r).
      { intro Hr. apply row_ofb_spec in Hr. congruence. }
      destruct IH as [IH | (pre & tl & post & -> & Hp)].
      + left. constructor; assumption.
      + right. exists (r :: pre), tl, post. split; [reflexivity|].
        constructor; assumption. }
  destruct D as [D | (pre & tl & post & -> & Hp)].
  - left. split; [assumption | apply scan_rows_absent; assumption].
  - right. exists pre, tl, post. repeat split; try assumption.
    apply scan_rows_found; assumption.
Qed.

Lemma add_user_success mid u sid s s' :
  add_user_to_master_sheet mid u sid s = (Ret true, s') ->
  master s' = upsert_table u sid (master s).
Proof.
  unfold upsert_table.
  cbv beta iota delta [add_user_to_master_sheet try_except bind
    values_get_master request gets].
  destruct (api_script s) as [|[e|] rest]; cbv beta iota; cbn [master set_api];
    try (destruct (is_http e); cbn; discriminate).
  all: destruct (scan_rows u 0 (master s)) as [idx ex];
    destruct (negb (idx =? -1)%Z).
  all: try (destruct (option_str_eqb ex sid);
            [cbn; intros [= <-]; reflexivity|]).
  all: cbv beta iota delta [values_update_master values_append_master bind
         request modify ret]; cbn [api_script set_api].
  all: try (destruct rest as [|[e|] rest]); cbv beta iota; cbn;
    try (destruct (is_http e); cbn; discriminate);
    intros [= <-]; reflexivity.
Qed.

Lemma find_skip u pre rest :
  Forall (fun r => ~ row_of u r) pre ->
  find_sheet_id u (pre ++ rest) = find_sheet_id u rest.
Proof.
  induction 1 as [|r pre Hr _ IH]; [reflexivity|].
  cbn [app find_sheet_id].
  destruct r as [|c tl]; [exact IH|].
  destruct (String.eqb_spec c u) as [->|Hne].
  - exfalso. apply Hr. reflexivity.
  - cbn [nth]. destruct (String.eqb_spec c u); [contradiction|].
    rewrite andb_false_r. exact IH.
Qed.

Lemma upsert_table_lookup u sid t :
  find_sheet_id u (upsert_table u sid t) = Some sid.
Proof.
  unfold upsert_table.
  destruct (scan_rows_cases u t 0) as [[Hno ->] | (pre & tl & post & -> & Hp & ->)].
  - change (negb (-1 =? -1)%Z) with false. cbv iota.
    rewrite find_skip by assumption.
    cbn. rewrite String.eqb_refl. reflexivity.
  - replace (negb (0 + Z.of_nat (length pre) + 1 =? -1)%Z) with true
      by (symmetry; apply negb_true_iff, Z.eqb_neq; lia).
    destruct (option_str_eqb (hd_error tl) sid) eqn:E.
    + rewrite find_skip by assumption.
      destruct tl as [|c tl]; [discriminate|]. cbn in E.
      apply String.eqb_eq in E. subst c.
      cbn. rewrite String.eqb_refl. reflexivity.
    + replace (Z.to_nat (0 + Z.of_nat (length pre) + 1 - 1)) with (length pre)
        by lia.
      rewrite write_row_middle, find_skip by assumption.
      cbn. rewrite String.eqb_refl. reflexivity.
Qed.

Lemma lookup_run mid u s :
  hd None (api_script s) = None ->
  get_user_sheet_id mid u s
  = (Ret (find_sheet_id u (master s)),
     set_api (tl (api_script s)) (api_log s ++ [GetValues mid "A:B"]) s).
Proof.
  intros H.
  cbv beta iota delta [get_user_sheet_id try_except bind values_get_master
    request gets].
  destruct (api_script s) as [|[e|] rest]; [| discriminate |];
    cbv beta iota; cbn [master set_api tl];
    destruct (master s); reflexivity.
Qed.




Lemma index_not_minus_one n :
  negb (0 + Z.of_nat n + 1 =? -1)%Z = true.
Proof. apply negb_true_iff, Z.eqb_neq; lia. Qed.

Lemma index_to_nat n : Z.to_nat (0 + Z.of_nat n + 1 - 1) = n.
Proof. lia. Qed.

Lemma upsert_table_miss u sid t :
  Forall (fun r => ~ row_of u r) t ->
  upsert_table u sid t = t ++ [[u; sid]].
Proof.
  intros H. unfold upsert_table. now rewrite scan_rows_absent.
Qed.

Lemma upsert_table_hit u sid pre tl post :
  Forall (fun r => ~ row_of u r) pre ->
  upsert_table u sid (pre ++ (u :: tl) :: post)
  = if option_str_eqb (hd_error tl) sid then pre ++ (u :: tl) :: post
    else pre ++ (u :: sid :: tl_skip tl) :: post.
Proof.
  intros H. unfold upsert_table.
  rewrite scan_rows_found, index_not_minus_one, index_to_nat by assumption.
  now rewrite write_row_middle.
Qed.


Lemma option_str_eqb_spec a b : option_str_eqb a b = true <-> a = Some b.
Proof.
  destruct a as [x|]; cbn; [|split; discriminate].
  rewrite String.eqb_eq. split; [intros ->; reflexivity | intros [= ->]; reflexivity].
Qed.




Lemma add_user_keeps_script mid u sid s :
  api_script s = [] ->
  api_script (snd (add_user_to_master_sheet mid u sid s)) = [].
Proof.
  intros Hs. rewrite (add_user_run mid u sid s Hs). cbn [snd].
  destruct (scan_rows u 0 (master s)) as [idx ex].
  destruct (negb _); [destruct (option_str_eqb _ _)|]; reflexivity.
Qed.



(** C2. When [add_user_to_master_sheet] reports [True] and the read that
    [get_user_sheet_id] sends next is answered, the lookup returns the sheet
    id just written. *)
Theorem read_after_write (mid mid' u sid : string) (s s' : State) :
  add_user_to_master_sheet mid u sid s = (Ret true, s') ->
  hd None (api_script s') = None ->
  fst (get_user_sheet_id mid' u s') = Ret (Some sid).
Proof.
  intros Hadd Hread.
  rewrite (lookup_run mid' u s' Hread). cbn [fst].
  rewrite (add_user_success mid u sid s s' Hadd).
  now rewrite upsert_table_lookup.
Qed.

Lemma read_after_write_witness :
  let s := registry [["7"]; ["7"; "old"]] in
  fst (get_user_sheet_id "m" "7"
         (snd (add_user_to_master_sheet "m" "7" "new" s)))
  = Ret (Some "new").
Proof.
  intros s.
  apply (read_after_write "m" "m" "7" "new" s
           (snd (add_user_to_master_sheet "m" "7" "new" s)));
    reflexivity.
Defined.




End RegistryFacts.

(** The classifier: validation of the inference response. *)
Module ClassifierFacts.
Import Py Eff Eff.Notations Gemini ClassifierSpec.

Lemma get_set_same k v d : get k (dict_set k v d) = v.
Proof.
  unfold get. induction d as [|[k' v'] d IH]; cbn.
  - now rewrite String.eqb_refl.
  - destruct (String.eqb_spec k' k) as [->|Hne]; cbn.
    + now rewrite String.eqb_refl.
    + destruct (String.eqb_spec k' k); [contradiction | exact IH].
Qed.

Lemma get_set_other k k' v d : k' <> k -> get k' (dict_set k v d) = get k' d.
Proof.
  intros Hne. unfold get. induction d as [|[k0 v0] d IH]; cbn.
  - destruct (String.eqb_spec k k'); [congruence | reflexivity].
  - destruct (String.eqb_spec k0 k) as [->|Hk]; cbn.
    + destruct (String.eqb_spec k k'); [congruence | reflexivity].
    + destruct (String.eqb_spec k0 k'); [reflexivity | exact IH].
Qed.

Lemma has_keys_dict ks d (g : State) :
  has_keys ks (JDict d) g = (Ret (forallb (fun k => dict_mem k d) ks), g).
Proof.
  induction ks as [|k ks IH]; [reflexivity|].
  cbn [has_keys forallb]. unfold bind, has_key, ret.
  destruct (dict_mem k d); [exact IH | reflexivity].
Qed.

Lemma after_category_get k d :
  k <> "category" -> get k (after_category d) = get k d.
Proof.
  intros H. unfold after_category.
  destruct (coerces d); [now apply get_set_other | reflexivity].
Qed.

Lemma after_category_category d :
  get "category" (after_category d)
  = if coerces d then JStr "Khác" else get "category" d.
Proof.
  unfold after_category. destruct (coerces d); [apply get_set_same | reflexivity].
Qed.

Lemma validate_transaction d (g : State) :
  forallb (fun k => dict_mem k d) required_keys = true ->
  get "request_type" d = JStr "transaction" ->
  validate (JDict d) g
  = (let d1 := after_category d in
     if negb (is_none (get "amount" d))
     then match to_float (get "amount" d) with
          | Ret f => Ret (JDict (dict_set "amount" (JFloat f) d1))
          | Raise e =>
              if is_value_or_type_error e
              then Ret (JDict (dict_set "amount" JNull d1))
              else Raise e
          end
     else Ret (JDict (dict_set "request_type" (JStr "other") d1)), g).
Proof.
  intros Hk Ht. unfold validate.
  cbv beta iota delta [bind]. rewrite has_keys_dict, Hk.
  change (negb true) with false.
  cbv beta iota delta [as_dict ret]. rewrite Ht.
  change (eq_str (JStr "transaction") "transaction") with true. cbv iota.
  fold (coerces d). fold (after_category d).
  rewrite (after_category_get "amount" d) by discriminate.
  destruct (is_none (get "amount" d)); cbn [negb]; [reflexivity|].
  cbv beta iota delta [try_except py_float pure raise].
  destruct (to_float (get "amount" d)) as [f|e]; [reflexivity|].
  destruct (is_value_or_type_error e); reflexivity.
Qed.

Lemma analyze_run msg g raw v rest :
  script g = Text raw (Some v) :: rest ->
  analyze_expense_message msg g
  = (let g1 := mkState rest (S (calls g)) (api_key g) in
     match validate v g1 with
     | (Ret r, g2) => (Ret r, g2)
     | (Raise _, g2) => (Ret JNull, g2)
     end).
Proof.
  intros Hs. unfold analyze_expense_message.
  cbv beta iota delta [try_except bind generate_content response_text
    json_loads ret].
  rewrite Hs. cbv beta iota.
  destruct (validate v _) as [[r|e] g2]; reflexivity.
Qed.

(** C3, the claim on the code.  A complete transaction response whose
    amount is the string [abc], which [float] rejects, stays a transaction
    with amount [None]; it does not become [other].  And a category outside
    the list is left as it is when neither [is_income] nor [is_expense] is
    set. *)
Lemma transaction_not_degraded :
  let d := response_dict (JStr "transaction") (JBool false) (JBool true)
             (JStr "abc") (JStr "Đi lại") in
  let d' := response_dict (JStr "transaction") (JBool false) (JBool false)
              (JInt 5) (JStr "Crypto") in
  float_of_string "abc" = None
  /\ (exists r,
        fst (analyze_expense_message "abc dong" (answering (JDict d)))
        = Ret (JDict r)
        /\ get "request_type" r = JStr "transaction"
        /\ get "request_type" r <> JStr "other"
        /\ get "amount" r = JNull)
  /\ (category_listed (JStr "Crypto") = false
      /\ exists r,
        fst (analyze_expense_message "5" (answering (JDict d')))
        = Ret (JDict r)
        /\ get "category" r = JStr "Crypto"
        /\ get "category" r <> JStr "Khác").
Proof.
  cbv zeta. split; [reflexivity|]. split.
  - eexists. split; [reflexivity|]. repeat split; discriminate.
  - split; [reflexivity|]. eexists. split; [reflexivity|].
    split; [reflexivity | discriminate].
Qed.

(** C3, as the code has it.  For a response with the seven keys and
    request type [transaction]: the category becomes [Khác] exactly when
    [is_expense] or [is_income] is set and the category is neither in the
    list nor [None], and is otherwise kept; a [None] amount turns the
    request type into [other]; an amount that is not [None] and that
    [float] rejects with [ValueError] or [TypeError] is replaced by [None]
    while the request type stays [transaction]; an amount [float] accepts
    is replaced by its float and the request type stays [transaction]. *)
Theorem transaction_validation (msg raw : string) (g : State) (d : dict)
    (rest : list Response) :
  script g = Text raw (Some (JDict d)) :: rest ->
  forallb (fun k => dict_mem k d) required_keys = true ->
  get "request_type" d = JStr "transaction" ->
  exists r,
    fst (analyze_expense_message msg g) = Ret r
    /\ (get "amount" d = JNull ->
        exists d', r = JDict d'
          /\ get "request_type" d' = JStr "other"
          /\ get "category" d'
             = if coerces d then JStr "Khác" else get "category" d)
    /\ (forall e,
        get "amount" d <> JNull ->
        to_float (get "amount" d) = Raise e ->
        is_value_or_type_error e = true ->
        exists d', r = JDict d'
          /\ get "request_type" d' = JStr "transaction"
          /\ get "amount" d' = JNull
          /\ get "category" d'
             = if coerces d then JStr "Khác" else get "category" d)
    /\ (forall f,
        to_float (get "amount" d) = Ret f ->
        exists d', r = JDict d'
          /\ get "request_type" d' = JStr "transaction"
          /\ get "amount" d' = JFloat f
          /\ get "category" d'
             = if coerces d then JStr "Khác" else get "category" d).
Proof.
  intros Hs Hk Ht.
  rewrite (analyze_run msg g raw (JDict d) rest Hs). cbv zeta.
  rewrite (validate_transaction d _ Hk Ht). cbv zeta.
  destruct (is_none (get "amount" d)) eqn:En; cbn [negb].
  - eexists. split; [reflexivity|].
    assert (Ha : get "amount" d = JNull)
      by (destruct (get "amount" d); try discriminate; reflexivity).
    split; [|split].
    + intros _. eexists. split; [reflexivity|].
      rewrite get_set_same, get_set_other by discriminate.
      split; [reflexivity | apply after_category_category].
    + intros e Hne. contradiction.
    + intros f Hf. rewrite Ha in Hf. discriminate.
  - assert (Ha : get "amount" d <> JNull)
      by (intros Ha; rewrite Ha in En; discriminate).
    destruct (to_float (get "amount" d)) as [f|e] eqn:Ef.
    + eexists. split; [reflexivity|]. split; [|split].
      * intros Hn. contradiction.
      * intros e _ He. discriminate.
      * intros f' [= <-]. eexists. split; [reflexivity|].
        rewrite get_set_same, !get_set_other by discriminate.
        rewrite after_category_get by discriminate.
        repeat split; [assumption | apply after_category_category].
    + destruct (is_value_or_type_error e) eqn:Ee.
      * eexists. split; [reflexivity|]. split; [|split].
        -- intros Hn. contradiction.
        -- intros e' _ _ _. eexists. split; [reflexivity|].
           rewrite get_set_same, !get_set_other by discriminate.
           rewrite after_category_get by discriminate.
           repeat split; [assumption | apply after_category_category].
        -- intros f Hf. discriminate.
      * exists JNull. split; [reflexivity|]. split; [|split].
        -- intros Hn. contradiction.
        -- intros e' _ [= <-] He. congruence.
        -- intros f Hf. discriminate.
Qed.

Lemma transaction_validation_witness :
  let d := response_dict (JStr "transaction") (JBool false) (JBool true)
             (JStr "abc") (JStr "Trà sữa") in
  exists d',
    fst (analyze_expense_message "tra sua abc" (answering (JDict d)))
    = Ret (JDict d')
    /\ get "request_type" d' = JStr "transaction"
    /\ get "amount" d' = JNull
    /\ get "category" d' = JStr "Khác".
Proof.
  intros d.
  destruct (transaction_validation "tra sua abc" "{...}" (answering (JDict d))
              d [] eq_refl eq_refl eq_refl) as (r & Hr & _ & Hbad & _).
  destruct (Hbad (Exn ValueError "could not convert string to float"))
    as (d' & -> & H1 & H2 & H3); [discriminate | reflexivity | reflexivity |].
  exists d'. repeat split; assumption.
Defined.

End ClassifierFacts.

(** The store: month sheets, appends and the scan. *)
Module StoreFacts.
Import Py Eff Eff.Notations Sheets StoreSpec.

Lemma find_put_same sid x b : find_book sid (put_book sid x b) = Some x.
Proof.
  induction b as [|[k old] b IH]; cbn.
  - now rewrite String.eqb_refl.
  - destruct (String.eqb_spec k sid) as [->|Hne]; cbn.
    + now rewrite String.eqb_refl.
    + destruct (String.eqb_spec k sid); [contradiction | exact IH].
Qed.

Lemma put_put sid x y b :
  put_book sid y (put_book sid x b) = put_book sid y b.
Proof.
  induction b as [|[k old] b IH]; cbn.
  - now rewrite String.eqb_refl.
  - destruct (String.eqb_spec k sid) as [->|Hne]; cbn.
    + now rewrite String.eqb_refl.
    + destruct (String.eqb_spec k sid); [contradiction | now rewrite IH].
Qed.

Lemma has_title_app name a b :
  has_title name (a ++ b) = has_title name a || has_title name b.
Proof. unfold has_title. apply existsb_app. Qed.

Lemma has_title_new name r : has_title name [mkSheet name r] = true.
Proof. unfold has_title. cbn. now rewrite String.eqb_refl. Qed.

Lemma map_sheet_new name f sheets r more :
  has_title name sheets = false ->
  map_sheet name f (sheets ++ mkSheet name r :: more)
  = sheets ++ mkSheet name (f r) :: more.
Proof.
  induction sheets as [|sh sheets IH]; cbn; intros H.
  - now rewrite String.eqb_refl.
  - apply orb_false_iff in H as [H1 H2]. rewrite H1.
    now rewrite IH.
Qed.

Lemma ensure_existing sid name sheets s :
  api_script s = [] ->
  find_book sid (books s) = Some sheets ->
  has_title name sheets = true ->
  _get_or_create_monthly_sheet sid name s = (Ret true, after_check sid s).
Proof.
  intros Hs Hb Ht.
  cbv beta iota delta [_get_or_create_monthly_sheet try_except bind
    spreadsheet_get request the_book gets].
  rewrite Hs. cbv beta iota. cbn [books set_api]. rewrite Hb.
  cbv beta iota delta [ret]. rewrite Ht. reflexivity.
Qed.

Lemma ensure_missing sid name sheets s :
  api_script s = [] ->
  find_book sid (books s) = Some sheets ->
  has_title name sheets = false ->
  _get_or_create_monthly_sheet sid name s
  = (Ret true, after_create sid name sheets s).
Proof.
  intros Hs Hb Ht.
  cbv beta iota delta [_get_or_create_monthly_sheet try_except bind
    spreadsheet_get request the_book gets].
  rewrite Hs. cbv beta iota. cbn [books set_api]. rewrite Hb.
  cbv beta iota delta [ret]. rewrite Ht. cbn [negb].
  cbv beta iota delta [batch_add_sheet values_update_a1 write_tab bind
    request the_book gets modify ret].
  cbn [api_script set_api books set_books]. rewrite Hb. cbv beta iota.
  rewrite Ht. cbv beta iota. cbn [api_script set_api books set_books].
  rewrite find_put_same. cbv beta iota.
  rewrite has_title_app, has_title_new, orb_true_r. cbv beta iota.
  unfold after_create, header_request.
  cbn [api_script set_api books set_books api_log].
  rewrite put_put.
  rewrite (map_sheet_new name _ sheets [] [] Ht).
  rewrite <- !app_assoc. reflexivity.
Qed.

Lemma append_existing sid amount f category description kind sheets s :
  api_script s = [] ->
  find_book sid (books s) = Some sheets ->
  has_title (strftime_Y_m (now s)) sheets = true ->
  to_float amount = Ret f ->
  append_expense_to_sheet sid amount category description kind s
  = (Ret true,
     set_books
       (put_book sid
          (map_sheet (strftime_Y_m (now s))
             (fun t => t ++ [expense_row s (now s) f category description kind])
             sheets)
          (books s))
       (set_api []
          (api_log s ++ [GetSpreadsheet sid;
                         append_request sid (now s) f category description kind])
          s)).
Proof.
  intros Hs Hb Ht Hf.
  cbv beta iota zeta delta [append_expense_to_sheet try_except bind gets].
  rewrite (ensure_existing sid _ sheets s Hs Hb Ht).
  cbv beta iota. cbn [negb].
  cbv beta iota delta [py_float pure]. rewrite Hf. cbv beta iota.
  cbv beta iota delta [values_append_a1 write_tab bind request the_book gets
    modify ret after_check].
  cbn [api_script set_api books set_books api_log]. rewrite Hb.
  cbv beta iota. rewrite Ht. cbv beta iota.
  unfold append_request, expense_row.
  cbn [api_script set_api books set_books api_log now map cell_of
       user_entered].
  rewrite <- !app_assoc. reflexivity.
Qed.

Lemma append_missing sid amount f category description kind sheets s :
  api_script s = [] ->
  find_book sid (books s) = Some sheets ->
  has_title (strftime_Y_m (now s)) sheets = false ->
  to_float amount = Ret f ->
  append_expense_to_sheet sid amount category description kind s
  = (Ret true,
     set_books
       (put_book sid
          (sheets ++ [mkSheet (strftime_Y_m (now s))
                        [HEADER_ROW;
                         expense_row s (now s) f category description kind]])
          (books s))
       (set_api []
          (api_log s ++ [GetSpreadsheet sid; AddSheet sid (strftime_Y_m (now s));
                         header_request sid (strftime_Y_m (now s));
                         append_request sid (now s) f category description kind])
          s)).
Proof.
  intros Hs Hb Ht Hf.
  cbv beta iota zeta delta [append_expense_to_sheet try_except bind gets].
  rewrite (ensure_missing sid _ sheets s Hs Hb Ht).
  cbv beta iota. cbn [negb].
  cbv beta iota delta [py_float pure]. rewrite Hf. cbv beta iota.
  cbv beta iota delta [values_append_a1 write_tab bind request the_book gets
    modify ret after_create].
  cbn [api_script set_api books set_books api_log].
  rewrite find_put_same. cbv beta iota.
  rewrite has_title_app, has_title_new, orb_true_r. cbv beta iota.
  unfold append_request, expense_row.
  cbn [api_script set_api books set_books api_log now map cell_of
       user_entered].
  rewrite put_put, (map_sheet_new _ _ sheets _ [] Ht).
  rewrite <- !app_assoc. reflexivity.
Qed.

(** ** The period key *)

Lemma digit_char_inj a b :
  digit_char a = digit_char b -> (a mod 10 = b mod 10)%Z.
Proof.
  unfold digit_char. intros H.
  apply (f_equal nat_of_ascii) in H.
  pose proof (Z.mod_pos_bound a 10 ltac:(lia)).
  pose proof (Z.mod_pos_bound b 10 ltac:(lia)).
  rewrite !nat_ascii_embedding in H by lia.
  lia.
Qed.

Lemma strftime_Y_m_inj t1 t2 :
  valid_date t1 -> valid_date t2 ->
  strftime_Y_m t1 = strftime_Y_m t2 ->
  year t1 = year t2 /\ month t1 = month t2.
Proof.
  intros [Hy1 Hm1] [Hy2 Hm2]. unfold strftime_Y_m, pad4, pad2.
  cbn [String.append]. intros H.
  injection H as H1 H2 H3 H4 H5 H6.
  apply digit_char_inj in H1, H2, H3, H4, H5, H6.
  split; Z.div_mod_to_equations; lia.
Qed.

Lemma strftime_Y_m_same t1 t2 :
  year t1 = year t2 -> month t1 = month t2 ->
  strftime_Y_m t1 = strftime_Y_m t2.
Proof. unfold strftime_Y_m. now intros -> ->. Qed.

Lemma has_title_one name other r :
  has_title name [mkSheet other r] = String.eqb other name.
Proof. unfold has_title. cbn. apply orb_false_r. Qed.

Lemma has_title_map_sheet name other f sheets :
  has_title name (map_sheet other f sheets) = has_title name sheets.
Proof.
  unfold has_title. induction sheets as [|sh sheets IH]; [reflexivity|].
  cbn [map_sheet]. destruct (String.eqb (title sh) other); cbn.
  - reflexivity.
  - now rewrite IH.
Qed.

Lemma map_sheet_twice name f g sheets :
  map_sheet name g (map_sheet name f sheets)
  = map_sheet name (fun t => g (f t)) sheets.
Proof.
  induction sheets as [|sh sheets IH]; [reflexivity|].
  cbn [map_sheet]. destruct (String.eqb (title sh) name) eqn:E; cbn [map_sheet title].
  - now rewrite E.
  - now rewrite E, IH.
Qed.

Lemma map_sheet_ext name f g sheets :
  (forall t, f t = g t) -> map_sheet name f sheets = map_sheet name g sheets.
Proof.
  intros H. induction sheets as [|sh sheets IH]; [reflexivity|].
  cbn [map_sheet]. now rewrite H, IH.
Qed.

(** C6. With a backend that answers and a spreadsheet whose tabs are
    [sheets]: [_get_or_create_monthly_sheet] on a name that is present only
    reads the tab list (no tab is added, no header written); on a name that
    is absent it adds one tab of that name whose only row is the header,
    written by one request, and a second call then only reads the tab
    list.  Two appends in the same month, into a spreadsheet without that
    month's tab, leave one new tab holding the header and the two rows in
    order; two appends in different months leave two new tabs of different
    names, each holding the header and its row. *)
Theorem monthly_segments (sid : string) (s : State) (sheets : list Sheet) :
  api_script s = [] ->
  find_book sid (books s) = Some sheets ->
  (forall name,
      has_title name sheets = true ->
      _get_or_create_monthly_sheet sid name s = (Ret true, after_check sid s)
      /\ books (after_check sid s) = books s)
  /\ (forall name,
      has_title name sheets = false ->
      _get_or_create_monthly_sheet sid name s
      = (Ret true, after_create sid name sheets s)
      /\ _get_or_create_monthly_sheet sid name (after_create sid name sheets s)
         = (Ret true, after_check sid (after_create sid name sheets s)))
  /\ (forall t1 t2 a1 a2 f1 f2 c1 c2 d1 d2 k1 k2,
      valid_date t1 -> valid_date t2 ->
      to_float a1 = Ret f1 -> to_float a2 = Ret f2 ->
      has_title (strftime_Y_m t1) sheets = false ->
      has_title (strftime_Y_m t2) sheets = false ->
      let run1 := append_expense_to_sheet sid a1 c1 d1 k1 (set_now t1 s) in
      let run2 :=
        append_expense_to_sheet sid a2 c2 d2 k2 (set_now t2 (snd run1)) in
      let row1 := expense_row s t1 f1 c1 d1 k1 in
      let row2 := expense_row s t2 f2 c2 d2 k2 in
      fst run1 = Ret true /\ fst run2 = Ret true
      /\ (year t1 = year t2 -> month t1 = month t2 ->
          find_book sid (books (snd run2))
          = Some (sheets ++ [mkSheet (strftime_Y_m t1)
                               [HEADER_ROW; row1; row2]]))
      /\ (year t1 <> year t2 \/ month t1 <> month t2 ->
          strftime_Y_m t1 <> strftime_Y_m t2
          /\ find_book sid (books (snd run2))
             = Some (sheets ++ [mkSheet (strftime_Y_m t1) [HEADER_ROW; row1];
                                mkSheet (strftime_Y_m t2) [HEADER_ROW; row2]])))
  /\ (forall t1 t2 a1 a2 f1 f2 c1 c2 d1 d2 k1 k2,
      to_float a1 = Ret f1 -> to_float a2 = Ret f2 ->
      has_title (strftime_Y_m t1) sheets = true ->
      year t1 = year t2 -> month t1 = month t2 ->
      let run1 := append_expense_to_sheet sid a1 c1 d1 k1 (set_now t1 s) in
      let run2 :=
        append_expense_to_sheet sid a2 c2 d2 k2 (set_now t2 (snd run1)) in
      fst run1 = Ret true /\ fst run2 = Ret true
      /\ find_book sid (books (snd run2))
         = Some (map_sheet (strftime_Y_m t1)
                   (fun rows =>
                      rows ++ [expense_row s t1 f1 c1 d1 k1;
                               expense_row s t2 f2 c2 d2 k2])
                   sheets)).
Proof.
  intros Hs Hb. split; [|split; [|split]].
  - intros name Ht. split; [|reflexivity].
    eapply ensure_existing; eassumption.
  - intros name Ht. split.
    + eapply ensure_missing; eassumption.
    + apply (ensure_existing sid name (sheets ++ [mkSheet name [HEADER_ROW]]));
        [reflexivity | apply find_put_same |].
      now rewrite has_title_app, has_title_new, orb_true_r.
  - intros t1 t2 a1 a2 f1 f2 c1 c2 d1 d2 k1 k2 V1 V2 F1 F2 T1 T2.
    cbv zeta.
    rewrite (append_missing sid a1 f1 c1 d1 k1 sheets (set_now t1 s)
               Hs Hb T1 F1).
    cbn [fst snd].
    set (s1 := set_now t2 _).
    assert (Hs1 : api_script s1 = []) by reflexivity.
    assert (Hb1 : find_book sid (books s1)
                  = Some (sheets ++ [mkSheet (strftime_Y_m t1)
                             [HEADER_ROW; expense_row s t1 f1 c1 d1 k1]]))
      by apply find_put_same.
    destruct (String.eqb_spec (strftime_Y_m t1) (strftime_Y_m t2)) as [E|NE].
    + assert (Ht : has_title (strftime_Y_m (now s1))
                     (sheets ++ [mkSheet (strftime_Y_m t1)
                        [HEADER_ROW; expense_row s t1 f1 c1 d1 k1]]) = true).
      { rewrite has_title_app. cbn [now s1 set_now]. rewrite <- E.
        now rewrite has_title_new, orb_true_r. }
      rewrite (append_existing sid a2 f2 c2 d2 k2 _ s1 Hs1 Hb1 Ht F2).
      cbn [fst snd books set_books set_api].
      split; [reflexivity|]. split; [reflexivity|]. split.
      * intros _ _. rewrite find_put_same. f_equal.
        cbn [now s1 set_now]. rewrite <- E.
        now rewrite (map_sheet_new _ _ sheets _ [] T1).
      * intros Hd. exfalso.
        destruct (strftime_Y_m_inj t1 t2 V1 V2 E). lia.
    + assert (Ht : has_title (strftime_Y_m (now s1))
                     (sheets ++ [mkSheet (strftime_Y_m t1)
                        [HEADER_ROW; expense_row s t1 f1 c1 d1 k1]]) = false).
      { rewrite has_title_app, has_title_one. cbn [now s1 set_now].
        rewrite T2. cbn [orb]. now apply String.eqb_neq. }
      rewrite (append_missing sid a2 f2 c2 d2 k2 _ s1 Hs1 Hb1 Ht F2).
      cbn [fst snd books set_books set_api].
      split; [reflexivity|]. split; [reflexivity|]. split.
      * intros Ey Em. exfalso. apply NE.
        now apply strftime_Y_m_same.
      * intros _. split; [assumption|].
        rewrite find_put_same. rewrite <- app_assoc. reflexivity.
  - intros t1 t2 a1 a2 f1 f2 c1 c2 d1 d2 k1 k2 F1 F2 T1 Ey Em.
    cbv zeta.
    rewrite (append_existing sid a1 f1 c1 d1 k1 sheets (set_now t1 s)
               Hs Hb T1 F1).
    cbn [fst snd].
    set (s1 := set_now t2 _).
    assert (Hs1 : api_script s1 = []) by reflexivity.
    pose proof (strftime_Y_m_same t1 t2 Ey Em) as E.
    assert (Hb1 : find_book sid (books s1)
                  = Some (map_sheet (strftime_Y_m t1)
                            (fun t => t ++ [expense_row s t1 f1 c1 d1 k1])
                            sheets))
      by apply find_put_same.
    assert (Ht : has_title (strftime_Y_m (now s1))
                   (map_sheet (strftime_Y_m t1)
                      (fun t => t ++ [expense_row s t1 f1 c1 d1 k1]) sheets)
                 = true).
    { cbn [now s1 set_now]. rewrite <- E, has_title_map_sheet. exact T1. }
    rewrite (append_existing sid a2 f2 c2 d2 k2 _ s1 Hs1 Hb1 Ht F2).
    cbn [fst snd books set_books set_api].
    split; [reflexivity|]. split; [reflexivity|].
    rewrite find_put_same. f_equal.
    cbn [now s1 set_now]. rewrite <- E, map_sheet_twice.
    apply map_sheet_ext. intros rows. now rewrite <- app_assoc.
Qed.

Lemma monthly_segments_witness :
  find_book "book"
    (books (snd (append_expense_to_sheet "book" (JInt 7) (JStr "Khác")
                   (JStr "b") "Chi"
                   (set_now may
                      (snd (append_expense_to_sheet "book" (JInt 5)
                              (JStr "Khác") (JStr "a") "Chi"
                              (set_now april one_book)))))))
  = Some [mkSheet "Sheet1" [];
          mkSheet "2025-04"
            [HEADER_ROW; ["2025-04-30 23:59:58"; "5"; "Khác"; "a"; "Chi"]];
          mkSheet "2025-05"
            [HEADER_ROW; ["2025-05-01 00:00:02"; "7"; "Khác"; "b"; "Chi"]]].
Proof.
  destruct (monthly_segments "book" one_book [mkSheet "Sheet1" []]
              eq_refl eq_refl) as (_ & _ & H & _).
  assert (V1 : valid_date april) by (unfold valid_date; cbn; lia).
  assert (V2 : valid_date may) by (unfold valid_date; cbn; lia).
  destruct (H april may (JInt 5) (JInt 7) (Fin 5 0) (Fin 7 0)
              (JStr "Khác") (JStr "Khác") (JStr "a") (JStr "b") "Chi" "Chi"
              V1 V2 eq_refl eq_refl eq_refl eq_refl) as (_ & _ & _ & Hd).
  destruct Hd as [_ Hd]; [right; cbn; lia|].
  exact Hd.
Defined.

(** ** Reading the rows back *)

Lemma clean_amount_run cell s :
  clean_amount cell s
  = match cell with
    | Some a =>
        if String.eqb a "" then (Ret (Some (Fin 0 0)), s)
        else match float_of_string (replace_comma a) with
             | Some f => (Ret (Some f), s)
             | None => (Ret None, set_log (log s ++ [amount_warning]) s)
             end
    | None => (Ret (Some (Fin 0 0)), s)
    end.
Proof.
  unfold clean_amount. destruct cell as [a|]; [|reflexivity].
  cbv beta iota delta [try_except cell_truthy].
  destruct (String.eqb a ""); cbn [negb]; [reflexivity|].
  cbv beta iota delta [bind float_str pure float_of_str].
  destruct (float_of_string (replace_comma a)); reflexivity.
Qed.

Lemma row_to_record_run r s :
  row_to_record r s
  = (let p := pad_row r in
     match clean_amount (nth 1 p None) s with
     | (Ret a, s') =>
         (Ret (mkExpense (nth 0 p None) a (nth 2 p None) (nth 3 p None)
                         (nth 4 p None)), s')
     | (Raise e, s') => (Raise e, s')
     end).
Proof. reflexivity. Qed.










End StoreFacts.

(** The chart renderer. *)
Module ChartFacts.
Import Py Eff Eff.Notations Chart ChartSpec.

Lemma draw_dict cd :
  draw (JDict cd) tt
  = match get_default "type" (JStr "bar") cd with
    | JStr t => draw_typed (lower t) cd tt
    | _ => (Raise (Exn AttributeError "object has no attribute 'lower'"), tt)
    end.
Proof.
  unfold draw, chart_type_of.
  cbv beta iota delta [bind as_dict ret].
  destruct (get_default "type" (JStr "bar") cd); reflexivity.
Qed.

Lemma generate_rendered plot_ok chart_data :
  generate_chart_from_json plot_ok (Some chart_data)
  = rendered plot_ok (draw chart_data tt).
Proof.
  unfold generate_chart_from_json, rendered.
  destruct (draw chart_data tt) as [[[fig|]|e] u]; reflexivity.
Qed.








End ChartFacts.

(** The message handler and the registration command. *)
Module DispatcherFacts.
Import Py Eff Eff.Notations Handlers DispatcherSpec.

Lemma send_ok r w :
  send_script w = [] -> send r w = (Ret tt, deliver r w).
Proof. intros H. unfold send. now rewrite H. Qed.

Lemma reply_text_ok m w :
  send_script w = [] -> reply_text m w = (Ret tt, deliver (ReplyText m) w).
Proof. apply send_ok. Qed.

Lemma in_sheets_run {A} (c : M Sheets.State A) w :
  in_sheets c w = (fst (c (sheets w)), set_sheets (snd (c (sheets w))) w).
Proof. unfold in_sheets, lift. now destruct (c (sheets w)). Qed.


Lemma find_sheet_id_unregistered uid t :
  unregistered uid t -> Sheets.find_sheet_id uid t = None.
Proof.
  induction 1 as [|r t Hr _ IH]; [reflexivity|].
  cbn [Sheets.find_sheet_id].
  destruct r as [|c0 [|c1 tl]]; try exact IH.
  destruct Hr as [Hr | Hr]; [|cbn in Hr; lia].
  cbn [length nth]. destruct (String.eqb_spec c0 uid) as [->|Hne].
  - now elim Hr.
  - exact IH.
Qed.


(** ** Replies of the branches *)

Lemma deliver_script r w : send_script (deliver r w) = [].
Proof. reflexivity. Qed.





Lemma texts_app a b : texts (a ++ b) = (texts a + texts b)%nat.
Proof. unfold texts. now rewrite filter_app, length_app. Qed.


(** ** Concrete runs *)




(** C8, the code at the failing inputs.  Whether the backend refuses the
    registry read with a 403 or the connection fails,
    [add_user_to_master_sheet] returns [False], and [register] sends the
    same text in both cases; the text for an API error, with its hint for
    403, is not the one sent. *)
Theorem upsert_rejections_alike :
  let denied := Exn (HttpError 403) "The caller does not have permission" in
  let down := Exn OtherException "Connection reset by peer" in
  let faulty e := sheets (bot_world [Some e] []) in
  let signup :=
    mkUpdate 7 "/register"
      ["https://docs.google.com/spreadsheets/d/abc-123_X/edit"] in
  extract_sheet_id_from_url
    "https://docs.google.com/spreadsheets/d/abc-123_X/edit" = Some "abc-123_X"
  /\ fst (Sheets.add_user_to_master_sheet "master" "7" "abc-123_X"
            (faulty denied)) = Ret false
  /\ fst (Sheets.add_user_to_master_sheet "master" "7" "abc-123_X"
            (faulty down)) = Ret false
  /\ outbox (snd (register signup bot_data (bot_world [Some denied] [])))
     = [ReplyText RegisterFailed]
  /\ outbox (snd (register signup bot_data (bot_world [Some down] [])))
     = [ReplyText RegisterFailed]
  /\ outbox (snd (register signup bot_data (bot_world [Some denied] [])))
     <> [ReplyText (RegisterApiError 403 true)].
Proof.
  cbv zeta. repeat split; try reflexivity. discriminate.
Qed.

End DispatcherFacts.

(** Laws of the registry: lookups and upserts under any backend. *)
Module RegistryLawsFacts.
Import Py Eff Eff.Notations Sheets RegistrySpec DispatcherSpec.

Lemma find_sheet_id_skip_row u pre r post :
  hd_error r <> Some u \/ (length r < 2)%nat ->
  find_sheet_id u (pre ++ r :: post) = find_sheet_id u (pre ++ post).
Proof.
  intros Hr. induction pre as [|x pre IH].
  - cbn [app find_sheet_id].
    destruct r as [|c0 [|c1 tl]]; try reflexivity.
    destruct Hr as [Hr | Hr]; [|cbn in Hr; lia].
    cbn [length nth]. destruct (String.eqb_spec c0 u) as [->|Hne].
    + now elim Hr.
    + reflexivity.
  - cbn [app find_sheet_id]. now rewrite IH.
Qed.

Lemma find_sheet_id_first u pre sid tl post :
  unregistered u pre ->
  find_sheet_id u (pre ++ (u :: sid :: tl) :: post) = Some sid.
Proof.
  induction 1 as [|r pre Hr _ IH].
  - cbn. now rewrite String.eqb_refl.
  - change ((r :: pre) ++ (u :: sid :: tl) :: post)
      with ([] ++ r :: (pre ++ (u :: sid :: tl) :: post)).
    rewrite find_sheet_id_skip_row by exact Hr. exact IH.
Qed.

Lemma find_sheet_id_cases u t :
  (unregistered u t /\ find_sheet_id u t = None)
  \/ (exists pre sid tl post,
        t = pre ++ (u :: sid :: tl) :: post
        /\ unregistered u pre
        /\ find_sheet_id u t = Some sid).
Proof.
  induction t as [|r t IH].
  - left. split; [constructor | reflexivity].
  - destruct r as [|c0 [|c1 tl]].
    + destruct IH as [[Hu Hf] | (pre & sid & tl & post & -> & Hp & Hf)].
      * left. split; [constructor; [right; cbn; lia | exact Hu] | exact Hf].
      * right. exists ([] :: pre), sid, tl, post.
        split; [reflexivity|]. split; [|exact Hf].
        constructor; [right; cbn; lia | exact Hp].
    + destruct IH as [[Hu Hf] | (pre & sid & tl & post & -> & Hp & Hf)].
      * left. split; [constructor; [right; cbn; lia | exact Hu] | exact Hf].
      * right. exists ([c0] :: pre), sid, tl, post.
        split; [reflexivity|]. split; [|exact Hf].
        constructor; [right; cbn; lia | exact Hp].
    + destruct (String.eqb_spec c0 u) as [->|Hne].
      * right. exists [], c1, tl, t. split; [reflexivity|].
        split; [constructor|]. cbn. now rewrite String.eqb_refl.
      * assert (Hr : hd_error (c0 :: c1 :: tl) <> Some u)
          by (cbn; congruence).
        assert (Hk : find_sheet_id u ((c0 :: c1 :: tl) :: t)
                     = find_sheet_id u t).
        { cbn [find_sheet_id length nth].
          destruct (String.eqb_spec c0 u); [contradiction | reflexivity]. }
        destruct IH as [[Hu Hf] | (pre & sid & tl' & post & -> & Hp & Hf)].
        -- left. split; [constructor; [left; exact Hr | exact Hu]|].
           now rewrite Hk.
        -- right. exists ((c0 :: c1 :: tl) :: pre), sid, tl', post.
           split; [reflexivity|].
           split; [constructor; [left; exact Hr | exact Hp]|].
           now rewrite Hk.
Qed.

(** X1. When the registry read is answered, [get_user_sheet_id] returns
    the second cell of the first row that has at least two cells and
    starts with the user id, and [None] exactly when the table has no such
    row; the lookup leaves the table as it is. *)
Theorem lookup_first_match (mid u : string) (s : State) :
  hd None (api_script s) = None ->
  (forall pre sid tl post,
      master s = pre ++ (u :: sid :: tl) :: post ->
      unregistered u pre ->
      fst (get_user_sheet_id mid u s) = Ret (Some sid))
  /\ (fst (get_user_sheet_id mid u s) = Ret None
      <-> unregistered u (master s))
  /\ (forall sid,
      fst (get_user_sheet_id mid u s) = Ret (Some sid) ->
      exists pre tl post,
        master s = pre ++ (u :: sid :: tl) :: post /\ unregistered u pre)
  /\ master (snd (get_user_sheet_id mid u s)) = master s.
Proof.
  intros Hread. rewrite (RegistryFacts.lookup_run mid u s Hread).
  cbn [fst snd]. split; [|split; [|split]].
  - intros pre sid tl post -> Hp. now rewrite find_sheet_id_first.
  - split.
    + intros [= H].
      destruct (find_sheet_id_cases u (master s))
        as [[Hu _] | (pre & sid & tl & post & _ & _ & Hf)];
        [exact Hu | congruence].
    + intros Hu. now rewrite (DispatcherFacts.find_sheet_id_unregistered _ _ Hu).
  - intros sid [= H].
    destruct (find_sheet_id_cases u (master s))
      as [[_ Hf] | (pre & sid' & tl & post & Ht & Hp & Hf)]; [congruence|].
    exists pre, tl, post. split; [|exact Hp]. congruence.
  - reflexivity.
Qed.

Lemma lookup_first_match_witness :
  fst (get_user_sheet_id "m" "7"
         (registry [["7"]; ["5"; "a"]; ["7"; "first"; "x"]; ["7"; "second"]]))
  = Ret (Some "first").
Proof.
  destruct (lookup_first_match "m" "7"
              (registry [["7"]; ["5"; "a"]; ["7"; "first"; "x"];
                         ["7"; "second"]]) eq_refl) as [H _].
  apply (H [["7"]; ["5"; "a"]] "first" ["x"] [["7"; "second"]] eq_refl).
  constructor; [right; cbn; lia|].
  constructor; [left; discriminate | constructor].
Defined.

Lemma add_user_failure mid u sid s s' :
  add_user_to_master_sheet mid u sid s = (Ret false, s') ->
  master s' = master s.
Proof.
  cbv beta iota delta [add_user_to_master_sheet try_except bind
    values_get_master request gets].
  destruct (api_script s) as [|[e|] rest]; cbv beta iota; cbn [master set_api].
  2:{ destruct (is_http e); cbn; intros H; injection H as <-; reflexivity. }
  all: destruct (scan_rows u 0 (master s)) as [idx ex];
    destruct (negb (idx =? -1)%Z).
  all: try (destruct (option_str_eqb ex sid); [cbn; discriminate|]).
  all: cbv beta iota delta [values_update_master values_append_master bind
         request modify ret]; cbn [api_script set_api].
  all: try (destruct rest as [|[e|] rest]); cbv beta iota;
    try (destruct (is_http e)); cbn.
  all: first [discriminate | intros H; injection H as <-; reflexivity].
Qed.

(** X2. [add_user_to_master_sheet] never raises, whatever the backend
    does.  When it returns [True] the table is the upserted one; when it
    returns [False] the table is untouched and one ERROR record was
    logged.  It never touches the users' spreadsheets. *)
Theorem upsert_never_raises (mid u sid : string) (s : State) :
  exists b s',
    add_user_to_master_sheet mid u sid s = (Ret b, s')
    /\ (b = true -> master s' = upsert_table u sid (master s)
                    /\ log s' = log s)
    /\ (b = false -> master s' = master s
                     /\ exists msg, log s' = log s ++ [(ERROR, msg)])
    /\ books s' = books s.
Proof.
  unfold upsert_table.
  cbv beta iota delta [add_user_to_master_sheet try_except bind
    values_get_master request gets].
  destruct (api_script s) as [|[e|] rest]; cbv beta iota; cbn [master set_api].
  2:{ destruct (is_http e); cbn; eexists _, _;
        (split; [reflexivity|]); (split; [discriminate|]);
        (split; [intros _; split; [reflexivity | eexists; reflexivity]
                | reflexivity]). }
  all: destruct (scan_rows u 0 (master s)) as [idx ex];
    destruct (negb (idx =? -1)%Z).
  all: try (destruct (option_str_eqb ex sid);
            [cbn; eexists _, _; (split; [reflexivity|]);
             (split; [intros _; split; reflexivity|]);
             (split; [discriminate | reflexivity])|]).
  all: cbv beta iota delta [values_update_master values_append_master bind
         request modify ret]; cbn [api_script set_api].
  all: try (destruct rest as [|[e|] rest]); cbv beta iota;
    try (destruct (is_http e)); cbn.
  all: try solve [eexists _, _; (split; [reflexivity|]);
    (split; [first [discriminate | intros _; split; reflexivity]|]);
    (split; [first [discriminate
                   | intros _; split; [reflexivity | eexists; reflexivity]]
            | reflexivity])].
Qed.

Lemma find_sheet_id_app_other u' u sid t :
  u' <> u ->
  find_sheet_id u' (t ++ [[u; sid]]) = find_sheet_id u' t.
Proof.
  intros Hne.
  rewrite (find_sheet_id_skip_row u' t [u; sid] []).
  - now rewrite app_nil_r.
  - left. cbn. congruence.
Qed.

Lemma upsert_table_other u' u sid t :
  u' <> u ->
  find_sheet_id u' (upsert_table u sid t) = find_sheet_id u' t.
Proof.
  intros Hne.
  destruct (RegistryFacts.scan_rows_cases u t 0)
    as [[Hno _] | (pre & tl & post & -> & Hp & _)].
  - rewrite RegistryFacts.upsert_table_miss by assumption.
    now apply find_sheet_id_app_other.
  - rewrite RegistryFacts.upsert_table_hit by assumption.
    destruct (option_str_eqb (hd_error tl) sid); [reflexivity|].
    rewrite !find_sheet_id_skip_row; [reflexivity | |];
      left; cbn; congruence.
Qed.

Lemma upsert_table_length u sid t :
  (length t <= length (upsert_table u sid t) <= length t + 1)%nat.
Proof.
  destruct (RegistryFacts.scan_rows_cases u t 0)
    as [[Hno _] | (pre & tl & post & -> & Hp & _)].
  - rewrite RegistryFacts.upsert_table_miss by assumption.
    rewrite length_app. cbn. lia.
  - rewrite RegistryFacts.upsert_table_hit by assumption.
    destruct (option_str_eqb (hd_error tl) sid);
      rewrite !length_app; cbn; lia.
Qed.

(** X3. A registration, successful or not, leaves the lookup of every
    other user as it was, and removes no row: the table keeps its length
    or grows by one. *)
Theorem upsert_keeps_others (mid u sid u' : string) (b : bool)
    (s s' : State) :
  add_user_to_master_sheet mid u sid s = (Ret b, s') ->
  u' <> u ->
  find_sheet_id u' (master s') = find_sheet_id u' (master s)
  /\ (length (master s) <= length (master s') <= length (master s) + 1)%nat.
Proof.
  intros Hrun Hne.
  destruct b.
  - rewrite (RegistryFacts.add_user_success _ _ _ _ _ Hrun).
    split; [now apply upsert_table_other | apply upsert_table_length].
  - rewrite (add_user_failure _ _ _ _ _ Hrun). split; [reflexivity | lia].
Qed.

Lemma upsert_keeps_others_witness :
  let s := registry [["5"; "a"]; ["7"; "old"]] in
  find_sheet_id "5" (master (snd (add_user_to_master_sheet "m" "7" "new" s)))
  = Some "a".
Proof.
  intros s.
  destruct (upsert_keeps_others "m" "7" "new" "5" true s
              (snd (add_user_to_master_sheet "m" "7" "new" s)))
    as [H _]; [reflexivity | discriminate |].
  rewrite H. reflexivity.
Defined.

Lemma option_str_eqb_refl x : option_str_eqb (Some x) x = true.
Proof. cbn. apply String.eqb_refl. Qed.

Lemma upsert_table_twice u s1 s2 t :
  upsert_table u s2 (upsert_table u s1 t) = upsert_table u s2 t.
Proof.
  destruct (RegistryFacts.scan_rows_cases u t 0)
    as [[Hno _] | (pre & tl & post & -> & Hp & _)].
  - rewrite (RegistryFacts.upsert_table_miss u s1) by assumption.
    rewrite (RegistryFacts.upsert_table_miss u s2 t) by assumption.
    change (t ++ [[u; s1]]) with (t ++ (u :: [s1]) :: []).
    rewrite RegistryFacts.upsert_table_hit by assumption.
    cbn [hd_error option_str_eqb].
    destruct (String.eqb_spec s1 s2) as [->|Hne]; reflexivity.
  - rewrite (RegistryFacts.upsert_table_hit u s1) by assumption.
    rewrite (RegistryFacts.upsert_table_hit u s2 pre tl) by assumption.
    destruct (option_str_eqb (hd_error tl) s1) eqn:E1.
    + now rewrite RegistryFacts.upsert_table_hit by assumption.
    + rewrite RegistryFacts.upsert_table_hit by assumption.
      cbn [hd_error option_str_eqb].
      destruct (String.eqb_spec s1 s2) as [->|Hne].
      * now rewrite E1.
      * destruct (option_str_eqb (hd_error tl) s2) eqn:E2.
        -- apply RegistryFacts.option_str_eqb_spec in E2.
           destruct tl as [|c tl]; [discriminate|].
           injection E2 as ->. reflexivity.
        -- reflexivity.
Qed.

(** X4. Last write wins: with a backend that answers, registering a user
    with one sheet id and then with another leaves the table that
    registering with the second alone would leave. *)
Theorem upsert_last_write_wins (mid u s1 s2 : string) (s : State) :
  api_script s = [] ->
  master (snd (add_user_to_master_sheet mid u s2
                 (snd (add_user_to_master_sheet mid u s1 s))))
  = master (snd (add_user_to_master_sheet mid u s2 s)).
Proof.
  intros Hs.
  assert (H : forall x s0, api_script s0 = [] ->
            master (snd (add_user_to_master_sheet mid u x s0))
            = upsert_table u x (master s0)).
  { intros x s0 H0. apply (RegistryFacts.add_user_success mid u x s0).
    now rewrite (RegistryFacts.add_user_run mid u x s0 H0). }
  rewrite H by (apply RegistryFacts.add_user_keeps_script; exact Hs).
  rewrite !H by exact Hs.
  apply upsert_table_twice.
Qed.

Lemma upsert_last_write_wins_witness :
  master (snd (add_user_to_master_sheet "m" "7" "b"
                 (snd (add_user_to_master_sheet "m" "7" "a"
                         (registry [["7"; "b"; "note"]])))))
  = [["7"; "b"; "note"]].
Proof.
  rewrite (upsert_last_write_wins "m" "7" "a" "b"
             (registry [["7"; "b"; "note"]]) eq_refl).
  reflexivity.
Defined.

End RegistryLawsFacts.

(** Laws of the store: month tabs, appends, the scan, and their composition. *)
Module StoreLawsFacts.
Import Py Eff Eff.Notations Sheets StoreSpec StoreLawsSpec.

Lemma ensure_no_book sid name s :
  find_book sid (books s) = None ->
  exists s',
    _get_or_create_monthly_sheet sid name s = (Ret false, s')
    /\ books s' = books s /\ master s' = master s
    /\ api_log s' = api_log s ++ [GetSpreadsheet sid].
Proof.
  intros Hb.
  cbv beta iota delta [_get_or_create_monthly_sheet try_except bind
    spreadsheet_get request the_book gets].
  destruct (api_script s) as [|[e|] rest]; cbv beta iota;
    cbn [books set_api]; try rewrite Hb;
    cbv beta iota delta [raise http_error];
    try (destruct (is_http e); [destruct (is_status e 403)|]);
    cbn; eexists; repeat split.
Qed.

Lemma put_book_same sid sheets b :
  find_book sid b = Some sheets -> put_book sid sheets b = b.
Proof.
  induction b as [|[k old] b IH]; cbn; [discriminate|].
  destruct (String.eqb_spec k sid) as [->|Hne].
  - now intros [= ->].
  - intros H. now rewrite IH.
Qed.

Ltac script_case :=
  match goal with
  | |- context [match ?l with [] => _ | _ :: _ => _ end] =>
      is_var l; destruct l as [|[?|] ?]
  end.

Ltac handler_case :=
  match goal with
  | |- context [is_status ?e _] => destruct (is_status e 403)
  | |- context [is_http ?e] => destruct (is_http e)
  end.

Ltac run_store Hb Ht :=
  repeat first
    [ progress cbv beta iota zeta delta
        [batch_add_sheet values_update_a1 values_append_a1 write_tab bind
         try_except request the_book gets modify ret raise spreadsheet_get
         logger py_float pure]
    | progress cbn [api_script set_api books set_books set_log api_log
                    now user_entered master log negb fst snd]
    | rewrite Hb
    | rewrite Ht
    | rewrite StoreFacts.find_put_same
    | rewrite StoreFacts.has_title_app, StoreFacts.has_title_new, orb_true_r
    | rewrite StoreFacts.put_put
    | handler_case ].

Lemma ensure_outcomes sid name sheets s :
  find_book sid (books s) = Some sheets ->
  exists b s' sheets',
    _get_or_create_monthly_sheet sid name s = (Ret b, s')
    /\ books s' = put_book sid sheets' (books s)
    /\ ensured name sheets b sheets'
    /\ user_entered s' = user_entered s /\ now s' = now s
    /\ master s' = master s.
Proof.
  intros Hb.
  assert (Hsame : books s = put_book sid sheets (books s))
    by (symmetry; now apply put_book_same).
  unfold _get_or_create_monthly_sheet.
  destruct (api_script s) as [|[e|] [|[e'|] [|[e''|] rest]]] eqn:Hs;
    destruct (has_title name sheets) eqn:Ht;
    cbv beta iota zeta delta
      [try_except bind spreadsheet_get request the_book gets ret];
    rewrite ?Hs; run_store Hb Ht;
    rewrite ?(StoreFacts.map_sheet_new name _ sheets [] [] Ht);
    first
      [ eexists true, _, sheets; (split; [reflexivity|]);
        (split; [exact Hsame|]);
        (split; [left; repeat split; assumption | repeat split])
      | eexists false, _, sheets; (split; [reflexivity|]);
        (split; [exact Hsame|]);
        (split; [right; right; left; now split | repeat split])
      | eexists false, _, (sheets ++ [mkSheet name []]);
        (split; [reflexivity|]); (split; [reflexivity|]);
        (split; [right; right; right; repeat split; assumption
                | repeat split])
      | eexists true, _, (sheets ++ [mkSheet name [HEADER_ROW]]);
        (split; [reflexivity|]); (split; [reflexivity|]);
        (split; [right; left; repeat split; assumption | repeat split]) ].
Qed.

Lemma find_put_other sid sid' x b :
  sid' <> sid -> find_book sid' (put_book sid x b) = find_book sid' b.
Proof.
  intros Hne. induction b as [|[k old] b IH]; cbn.
  - destruct (String.eqb_spec sid sid'); [congruence | reflexivity].
  - destruct (String.eqb_spec k sid) as [->|Hk]; cbn.
    + destruct (String.eqb_spec sid sid'); [congruence | reflexivity].
    + destruct (String.eqb_spec k sid'); [reflexivity | exact IH].
Qed.

(** X5. [_get_or_create_monthly_sheet] never raises.  When it returns
    [True] the spreadsheet has a tab of that name; whatever it returns,
    the registry and every other spreadsheet are untouched. *)
Theorem ensure_postcondition (sid name : string) (s : State) :
  exists b s',
    _get_or_create_monthly_sheet sid name s = (Ret b, s')
    /\ (b = true ->
        exists sheets', find_book sid (books s') = Some sheets'
                        /\ has_title name sheets' = true)
    /\ (forall sid', sid' <> sid ->
        find_book sid' (books s') = find_book sid' (books s))
    /\ master s' = master s.
Proof.
  destruct (find_book sid (books s)) as [sheets|] eqn:Hb.
  - destruct (ensure_outcomes sid name sheets s Hb)
      as (b & s' & sheets' & Hrun & Hbooks & Hens & _ & _ & Hm).
    exists b, s'. split; [exact Hrun|]. split; [|split; [|exact Hm]].
    + intros ->. exists sheets'. rewrite Hbooks, StoreFacts.find_put_same.
      split; [reflexivity|].
      destruct Hens as [(_ & Ht & ->) | [(_ & Ht & ->) | [(Hf & _) | (Hf & _)]]];
        try discriminate; [exact Ht|].
      now rewrite StoreFacts.has_title_app, StoreFacts.has_title_new, orb_true_r.
    + intros sid' Hne. rewrite Hbooks. now apply find_put_other.
  - destruct (ensure_no_book sid name s Hb) as (s' & Hrun & Hbooks & Hm & _).
    exists false, s'. split; [exact Hrun|]. split; [discriminate|].
    split; [|exact Hm]. intros sid' _. now rewrite Hbooks.
Qed.

(** X6. A header write that fails is not repaired: when the tab is added
    and the write of the header raises, the call returns [False] and leaves
    a tab without rows; the next call, with the backend answering, finds
    the tab, returns [True] and writes nothing. *)
Theorem header_failure_not_repaired (sid name : string) (e : exn)
    (sheets : list Sheet) (s : State) :
  api_script s = [None; None; Some e] ->
  find_book sid (books s) = Some sheets ->
  has_title name sheets = false ->
  exists s1 s2,
    _get_or_create_monthly_sheet sid name s = (Ret false, s1)
    /\ find_book sid (books s1) = Some (sheets ++ [mkSheet name []])
    /\ _get_or_create_monthly_sheet sid name s1 = (Ret true, s2)
    /\ books s2 = books s1
    /\ api_log s2 = api_log s1 ++ [GetSpreadsheet sid].
Proof.
  intros Hs Hb Ht.
  assert (Hrun : exists s1,
            _get_or_create_monthly_sheet sid name s = (Ret false, s1)
            /\ books s1 = put_book sid (sheets ++ [mkSheet name []]) (books s)
            /\ api_script s1 = []).
  { unfold _get_or_create_monthly_sheet.
    cbv beta iota zeta delta
      [try_except bind spreadsheet_get request the_book gets ret].
    rewrite Hs. run_store Hb Ht; eexists; repeat split. }
  destruct Hrun as (s1 & Hrun & Hbooks & Hs1).
  assert (Hb1 : find_book sid (books s1) = Some (sheets ++ [mkSheet name []]))
    by (rewrite Hbooks; apply StoreFacts.find_put_same).
  exists s1, (after_check sid s1).
  split; [exact Hrun|]. split; [exact Hb1|].
  split; [|split; reflexivity].
  apply (StoreFacts.ensure_existing sid name _ s1 Hs1 Hb1).
  now rewrite StoreFacts.has_title_app, StoreFacts.has_title_new, orb_true_r.
Qed.

Lemma header_failure_not_repaired_witness :
  let broken :=
    set_api [None; None; Some (Exn (HttpError 500) "Internal error")] []
            one_book in
  let s1 := snd (_get_or_create_monthly_sheet "book" "2025-04" broken) in
  find_book "book"
    (books (snd (_get_or_create_monthly_sheet "book" "2025-04" s1)))
  = Some [mkSheet "Sheet1" []; mkSheet "2025-04" []].
Proof.
  intros broken s1.
  destruct (header_failure_not_repaired "book" "2025-04"
              (Exn (HttpError 500) "Internal error")
              [mkSheet "Sheet1" []] broken eq_refl eq_refl eq_refl)
    as (s1' & s2 & H1 & Hb1 & H2 & Hb2 & _).
  assert (E : s1 = s1') by (unfold s1; now rewrite H1).
  rewrite E, H2. cbn [snd]. now rewrite Hb2.
Defined.

Lemma cell_of_ext s s' v :
  user_entered s' = user_entered s -> cell_of s' v = cell_of s v.
Proof. intros H. unfold cell_of. now rewrite H. Qed.

Lemma append_outcomes sid amount category description kind sheets s :
  find_book sid (books s) = Some sheets ->
  exists r s' sheets',
    append_expense_to_sheet sid amount category description kind s = (r, s')
    /\ books s' = put_book sid sheets' (books s)
    /\ master s' = master s
    /\ ((r = Ret true
         /\ exists f, to_float amount = Ret f
              /\ row_written (strftime_Y_m (now s))
                   (expense_row s (now s) f category description kind)
                   sheets sheets')
        \/ (r <> Ret true
            /\ no_row_written (strftime_Y_m (now s)) sheets sheets')).
Proof.
  intros Hb.
  destruct (ensure_outcomes sid (strftime_Y_m (now s)) sheets s Hb)
    as (b & s1 & sheets1 & Hrun & Hbooks & Hens & Hue & Hnow & Hm).
  assert (Hb1 : find_book sid (books s1) = Some sheets1)
    by (rewrite Hbooks; apply StoreFacts.find_put_same).
  cbv beta iota zeta delta [append_expense_to_sheet try_except bind gets].
  rewrite Hrun. cbv beta iota.
  destruct Hens as [(-> & Ht & ->) | [(-> & Ht & ->) | Hfalse]].
  - (* the month tab was there *)
    cbn [negb]. cbv beta iota delta [py_float pure].
    destruct (to_float amount) as [f|e] eqn:Ef.
    2:{ destruct (is_http e); cbv beta iota delta [bind logger modify raise];
          eexists _, _, sheets; (split; [reflexivity|]);
          (split; [exact Hbooks|]); (split; [exact Hm|]);
          right; (split; [discriminate | left; reflexivity]). }
    cbv beta iota delta [values_append_a1 write_tab bind request].
    destruct (api_script s1) as [|[e|] rest];
      run_store Hb1 Ht.
    2:{ eexists _, _, sheets; (split; [reflexivity|]);
          (split; [exact Hbooks|]); (split; [exact Hm|]);
          right; (split; [discriminate | left; reflexivity]). }
    2:{ eexists _, _, sheets; (split; [reflexivity|]);
          (split; [exact Hbooks|]); (split; [exact Hm|]);
          right; (split; [discriminate | left; reflexivity]). }
    all: eexists _, _, _; (split; [reflexivity|]);
      cbn [books set_books set_api master];
      (split; [rewrite Hbooks, StoreFacts.put_put; reflexivity|]);
      (split; [exact Hm|]);
      left; (split; [reflexivity|]); exists f; (split; [reflexivity|]);
      left; (split; [exact Ht|]);
      apply StoreFacts.map_sheet_ext; intros t; unfold expense_row, cell_of;
      cbn [map user_entered set_api set_books]; rewrite ?Hue, ?Hnow;
      reflexivity.
  - (* the month tab was created with its header *)
    assert (Ht1 : has_title (strftime_Y_m (now s))
                    (sheets ++ [mkSheet (strftime_Y_m (now s)) [HEADER_ROW]])
                  = true)
      by now rewrite StoreFacts.has_title_app, StoreFacts.has_title_new,
           orb_true_r.
    cbn [negb]. cbv beta iota delta [py_float pure].
    destruct (to_float amount) as [f|e] eqn:Ef.
    2:{ destruct (is_http e); cbv beta iota delta [bind logger modify raise];
          eexists _, _, _; (split; [reflexivity|]);
          (split; [exact Hbooks|]); (split; [exact Hm|]);
          right; (split; [discriminate|]); right;
          (split; [exact Ht | right; reflexivity]). }
    cbv beta iota delta [values_append_a1 write_tab bind request].
    destruct (api_script s1) as [|[e|] rest];
      run_store Hb1 Ht1.
    2:{ eexists _, _, _; (split; [reflexivity|]);
          (split; [exact Hbooks|]); (split; [exact Hm|]);
          right; (split; [discriminate|]); right;
          (split; [exact Ht | right; reflexivity]). }
    2:{ eexists _, _, _; (split; [reflexivity|]);
          (split; [exact Hbooks|]); (split; [exact Hm|]);
          right; (split; [discriminate|]); right;
          (split; [exact Ht | right; reflexivity]). }
    all: eexists _, _, _; (split; [reflexivity|]);
      cbn [books set_books set_api master];
      (split; [rewrite Hbooks, StoreFacts.put_put; reflexivity|]);
      (split; [exact Hm|]);
      left; (split; [reflexivity|]); exists f; (split; [reflexivity|]);
      right; (split; [exact Ht|]);
      rewrite (StoreFacts.map_sheet_new _ _ sheets _ [] Ht);
      unfold expense_row, cell_of;
      cbn [map app user_entered set_api set_books]; rewrite ?Hue, ?Hnow;
      reflexivity.
  - (* the month tab could not be ensured *)
    assert (Hb' : b = false) by (destruct Hfalse as [[-> _] | [-> _]]; reflexivity).
    subst b. cbn [negb].
    cbv beta iota delta [bind logger modify ret].
    eexists _, _, sheets1. split; [reflexivity|].
    cbn [books set_log master].
    split; [exact Hbooks|]. split; [exact Hm|].
    right. split; [discriminate|].
    destruct Hfalse as [[_ ->] | (_ & Ht & ->)];
      [left; reflexivity | right; split; [exact Ht | left; reflexivity]].
Qed.

(** X7. [append_expense_to_sheet] returns [True] exactly when the data row
    was written: then the amount converted to a float and the row went to
    the end of the month's tab, or behind the header of a tab created for
    it.  In every other outcome, a returned [False] or a raised exception,
    no data row was written: the tabs are as before, or the new month tab
    is there, empty or with its header only.  The registry and the other
    spreadsheets are never touched. *)
Theorem append_result_tells (sid : string) (amount category description : json)
    (kind : string) (sheets : list Sheet) (s : State) :
  find_book sid (books s) = Some sheets ->
  exists r s' sheets',
    append_expense_to_sheet sid amount category description kind s = (r, s')
    /\ find_book sid (books s') = Some sheets'
    /\ (r = Ret true ->
        exists f, to_float amount = Ret f
          /\ row_written (strftime_Y_m (now s))
               (expense_row s (now s) f category description kind)
               sheets sheets')
    /\ (r <> Ret true -> no_row_written (strftime_Y_m (now s)) sheets sheets')
    /\ (forall sid', sid' <> sid ->
        find_book sid' (books s') = find_book sid' (books s))
    /\ master s' = master s.
Proof.
  intros Hb.
  destruct (append_outcomes sid amount category description kind sheets s Hb)
    as (r & s' & sheets' & Hrun & Hbooks & Hm & Hcases).
  exists r, s', sheets'. split; [exact Hrun|].
  split; [rewrite Hbooks; apply StoreFacts.find_put_same|].
  split; [|split; [|split; [|exact Hm]]].
  - intros Hr. destruct Hcases as [[_ H] | [Hne _]]; [exact H | contradiction].
  - intros Hr. destruct Hcases as [[H _] | [_ H]]; [contradiction | exact H].
  - intros sid' Hne. rewrite Hbooks. now apply find_put_other.
Qed.

Lemma append_result_tells_witness :
  exists s',
    append_expense_to_sheet "book" (JStr "abc") (JStr "Khác") JNull "Chi"
      one_book
    = (Raise (Exn ValueError "could not convert string to float"), s')
    /\ find_book "book" (books s')
       = Some [mkSheet "Sheet1" []; mkSheet "2025-04" [HEADER_ROW]].
Proof.
  destruct (append_result_tells "book" (JStr "abc") (JStr "Khác") JNull "Chi"
              [mkSheet "Sheet1" []] one_book eq_refl)
    as (r & s' & sheets' & Hrun & Hb & _ & Hno & _).
  exists s'.
  assert (Hr : r = Raise (Exn ValueError "could not convert string to float"))
    by (apply (f_equal fst) in Hrun; symmetry; exact Hrun).
  subst r. split; [exact Hrun|].
  rewrite Hb. f_equal.
  apply (f_equal (fun p => find_book "book" (books (snd p)))) in Hrun.
  cbn [snd] in Hrun. rewrite Hb in Hrun. now injection Hrun as <-.
Defined.

(** X8. When the spreadsheet does not exist, [append_expense_to_sheet]
    does not raise the 404: it returns [False] after the one request that
    reads the tab list, and writes nothing. *)
Theorem append_missing_spreadsheet (sid : string)
    (amount category description : json) (kind : string) (s : State) :
  find_book sid (books s) = None ->
  exists s',
    append_expense_to_sheet sid amount category description kind s
    = (Ret false, s')
    /\ books s' = books s /\ master s' = master s
    /\ api_log s' = api_log s ++ [GetSpreadsheet sid].
Proof.
  intros Hb.
  destruct (ensure_no_book sid (strftime_Y_m (now s)) s Hb)
    as (s1 & Hrun & Hbooks & Hm & Hlog).
  cbv beta iota zeta delta [append_expense_to_sheet try_except bind gets].
  rewrite Hrun. cbv beta iota. cbn [negb].
  cbv beta iota delta [bind logger modify ret].
  eexists. split; [reflexivity|]. cbn [books master api_log set_log].
  repeat split; assumption.
Qed.

Lemma append_missing_spreadsheet_witness :
  fst (append_expense_to_sheet "gone" (JInt 5) (JStr "Khác") JNull "Chi"
         one_book) = Ret false.
Proof.
  destruct (append_missing_spreadsheet "gone" (JInt 5) (JStr "Khác") JNull
              "Chi" one_book eq_refl) as (s' & Hrun & _).
  now rewrite Hrun.
Defined.

Lemma kept_refl sheets :
  Forall2 (fun a b => title b = title a
                      /\ exists more, rows b = rows a ++ more)
          sheets sheets.
Proof.
  induction sheets as [|sh sheets IH]; constructor; [|exact IH].
  split; [reflexivity | exists []; now rewrite app_nil_r].
Qed.

Lemma extends_refl sheets extra : extends sheets (sheets ++ extra).
Proof. exists sheets, extra. split; [reflexivity | apply kept_refl]. Qed.

Lemma extends_map_sheet name r sheets :
  extends sheets (map_sheet name (fun t => t ++ [r]) sheets).
Proof.
  exists (map_sheet name (fun t => t ++ [r]) sheets), [].
  split; [now rewrite app_nil_r|].
  induction sheets as [|sh sheets IH]; cbn [map_sheet]; [constructor|].
  destruct (String.eqb (title sh) name).
  - constructor; [|apply kept_refl].
    split; [reflexivity | exists [r]; reflexivity].
  - constructor; [|exact IH].
    split; [reflexivity | exists []; now rewrite app_nil_r].
Qed.

(** X9. An append never overwrites: whatever the outcome, every tab that
    was in the spreadsheet is still there, in the same place and under the
    same title, and its old rows are the first of its rows. *)
Theorem append_only (sid : string) (amount category description : json)
    (kind : string) (sheets : list Sheet) (s : State) :
  find_book sid (books s) = Some sheets ->
  exists sheets',
    find_book sid
      (books (snd (append_expense_to_sheet sid amount category description
                     kind s))) = Some sheets'
    /\ extends sheets sheets'.
Proof.
  intros Hb.
  destruct (append_outcomes sid amount category description kind sheets s Hb)
    as (r & s' & sheets' & Hrun & Hbooks & _ & Hcases).
  exists sheets'. rewrite Hrun. cbn [snd].
  split; [rewrite Hbooks; apply StoreFacts.find_put_same|].
  destruct Hcases as [(_ & f & _ & [[_ ->] | [_ ->]])
                     | (_ & [-> | (_ & [-> | ->])])].
  - apply extends_map_sheet.
  - apply extends_refl.
  - rewrite <- (app_nil_r sheets) at 2. apply extends_refl.
  - apply extends_refl.
  - apply extends_refl.
Qed.

Lemma append_only_witness :
  exists sheets',
    find_book "book"
      (books (snd (append_expense_to_sheet "book" (JInt 5) (JStr "Khác")
                     JNull "Chi" one_book))) = Some sheets'
    /\ extends [mkSheet "Sheet1" []] sheets'.
Proof.
  exact (append_only "book" (JInt 5) (JStr "Khác") JNull "Chi"
           [mkSheet "Sheet1" []] one_book eq_refl).
Defined.

(** ** The scan as a function of the tabs *)

Lemma row_to_record_fst r s :
  exists s',
    row_to_record r s = (Ret (record_of r), s')
    /\ books s' = books s /\ api_script s' = api_script s
    /\ master s' = master s /\ api_log s' = api_log s.
Proof.
  rewrite StoreFacts.row_to_record_run. cbv zeta.
  rewrite StoreFacts.clean_amount_run. unfold record_of, amount_of.
  destruct (nth 1 (pad_row r) None) as [a|]; [|eexists; repeat split].
  destruct (String.eqb a ""); [eexists; repeat split|].
  destruct (float_of_string (replace_comma a)); eexists; repeat split.
Qed.

Lemma rows_to_records_fst values : forall s,
  exists s',
    rows_to_records values s = (Ret (map record_of values), s')
    /\ books s' = books s /\ api_script s' = api_script s
    /\ master s' = master s /\ api_log s' = api_log s.
Proof.
  induction values as [|r values IH]; intros s.
  - exists s. repeat split.
  - destruct (row_to_record_fst r s) as (s1 & H1 & Hb1 & Hs1 & Hm1 & Hl1).
    destruct (IH s1) as (s2 & H2 & Hb2 & Hs2 & Hm2 & Hl2).
    exists s2. cbn [rows_to_records map].
    cbv beta iota delta [bind ret]. rewrite H1, H2.
    repeat split; congruence.
Qed.

Lemma scan_sheets_run sid all sheets : forall acc s,
  find_book sid (books s) = Some all ->
  exists s',
    scan_sheets sid sheets acc s
    = (Ret (acc ++ fst (scanned all (api_script s) sheets)), s')
    /\ books s' = books s /\ master s' = master s
    /\ api_script s' = snd (scanned all (api_script s) sheets).
Proof.
  induction sheets as [|sh sheets IH]; intros acc s Hb.
  - exists s. cbn. rewrite app_nil_r. repeat split.
  - cbn [scan_sheets scanned]. fold (is_month sh).
    destruct (is_month sh); [|apply IH; exact Hb].
    cbv beta iota delta [bind try_except values_get_a2e request the_book gets].
    destruct (api_script s) as [|[e|] rest] eqn:Hs; cbv beta iota;
      cbn [books set_api]; try rewrite Hb; cbv beta iota delta [ret].
    2:{ (* the read of this tab raises *)
        set (s1 := set_api rest _ s).
        assert (Hb1 : forall s2, books s2 = books s1 ->
                  find_book sid (books s2) = Some all)
          by (intros s2 ->; exact Hb).
        destruct (is_http e); cbv beta iota delta [logger modify];
          match goal with
          | |- context [scan_sheets _ _ ?ac ?st] =>
              destruct (IH ac st (Hb1 st eq_refl)) as (s' & Hrun & H1 & H2 & H3)
          end;
          exists s'; rewrite Hrun; repeat split; assumption. }
    all: cbn [tl];
      destruct (scanned all _ sheets) as [recs left] eqn:Esc;
      destruct (find_sheet (title sh) all) as [tab|];
      cbv beta iota delta [raise http_error].
    all: try (cbn [is_http kind]; cbv beta iota delta [logger modify];
          match goal with
          | |- context [scan_sheets _ _ ?ac ?st] =>
              destruct (IH ac st Hb) as (s' & Hrun & H1 & H2 & H3)
          end;
          exists s'; rewrite Hrun; cbn [api_script set_log set_api] in *;
          rewrite Esc in *; cbn [fst snd app] in *;
          repeat split; assumption).
    all: unfold data_records;
      destruct (map (firstn 5) (tl (rows tab))) as [|r values] eqn:Ev.
    all: try (match goal with
          | |- context [scan_sheets _ _ ?ac ?st] =>
              destruct (IH ac st Hb) as (s' & Hrun & H1 & H2 & H3)
          end;
          exists s'; rewrite Hrun; cbn [api_script set_api map] in *;
          rewrite Esc in *; cbn [fst snd app] in *;
          repeat split; assumption).
    all: match goal with
         | |- context [rows_to_records ?vs ?st] =>
             destruct (rows_to_records_fst vs st)
               as (s1 & Hrec & Hb1 & Hs1 & Hm1 & _)
         end;
      rewrite Hrec;
      assert (Hb2 : find_book sid (books s1) = Some all)
        by (rewrite Hb1; exact Hb);
      destruct (IH (acc ++ map record_of (r :: values)) s1 Hb2)
        as (s' & Hrun & H1 & H2 & H3);
      exists s'; rewrite Hrun; rewrite Hs1 in *;
      cbn [api_script set_api] in *; rewrite Esc in *; cbn [fst snd] in *;
      rewrite <- app_assoc;
      cbn [books master set_api] in Hb1, Hm1;
      repeat split; congruence.
Qed.

Lemma find_sheet_app_right name pre rest :
  has_title name pre = false ->
  find_sheet name (pre ++ rest) = find_sheet name rest.
Proof.
  induction pre as [|sh pre IH]; [reflexivity|].
  cbn. intros H. apply orb_false_iff in H as [H1 H2].
  rewrite H1. now apply IH.
Qed.

Lemma has_title_In name sheets :
  has_title name sheets = false <-> ~ In name (map title sheets).
Proof.
  unfold has_title. induction sheets as [|sh sheets IH]; cbn.
  - split; [intros _ [] | reflexivity].
  - rewrite orb_false_iff, IH, String.eqb_neq. tauto.
Qed.

Lemma find_sheet_self pre sh post :
  NoDup (map title (pre ++ sh :: post)) ->
  find_sheet (title sh) (pre ++ sh :: post) = Some sh.
Proof.
  intros Hnd. rewrite find_sheet_app_right.
  - cbn. now rewrite String.eqb_refl.
  - apply has_title_In. rewrite map_app in Hnd. cbn [map] in Hnd.
    apply NoDup_remove_2 in Hnd. intros Hin. apply Hnd.
    apply in_or_app. now left.
Qed.

Lemma own_tabs_NoDup all : NoDup (map title all) -> own_tabs all all.
Proof.
  intros Hnd. apply Forall_forall. intros sh Hin.
  destruct (in_split _ _ Hin) as (pre & post & ->).
  now apply find_sheet_self.
Qed.

Lemma scanned_prefix all pre rest tail :
  own_tabs all pre ->
  scanned all (repeat None (months pre) ++ tail) (pre ++ rest)
  = (flat_map month_records pre ++ fst (scanned all tail rest),
     snd (scanned all tail rest)).
Proof.
  unfold months. induction 1 as [|sh pre Hsh _ IH].
  - cbn. now destruct (scanned all tail rest).
  - cbn [app scanned flat_map filter]. unfold month_records at 1.
    destruct (is_month sh).
    + cbn [length repeat app tl]. rewrite IH, Hsh.
      now rewrite <- app_assoc.
    + exact IH.
Qed.

Lemma scanned_healthy all sheets :
  own_tabs all sheets ->
  scanned all [] sheets = (flat_map month_records sheets, []).
Proof.
  induction 1 as [|sh sheets Hsh _ IH]; [reflexivity|].
  cbn [scanned flat_map tl]. unfold month_records at 1.
  destruct (is_month sh); rewrite IH; [now rewrite Hsh | reflexivity].
Qed.

Lemma get_all_run sid all s :
  hd None (api_script s) = None ->
  find_book sid (books s) = Some all ->
  exists s',
    get_all_expenses_for_analysis sid s
    = (Ret (fst (scanned all (tl (api_script s)) all)), s')
    /\ books s' = books s /\ master s' = master s.
Proof.
  intros Hs Hb.
  cbv beta iota delta [get_all_expenses_for_analysis try_except bind
    spreadsheet_get request the_book gets].
  destruct (api_script s) as [|[e|] rest]; [|discriminate|];
    cbv beta iota; cbn [books set_api]; rewrite Hb;
    cbv beta iota delta [ret]; cbn [tl];
    match goal with
    | |- context [scan_sheets _ _ ?ac ?st] =>
        destruct (scan_sheets_run sid all all ac st Hb)
          as (s' & Hrun & H1 & H2 & _)
    end;
    exists s'; rewrite Hrun; repeat split; assumption.
Qed.

Lemma scan_healthy_fst sid all s :
  api_script s = [] ->
  find_book sid (books s) = Some all ->
  NoDup (map title all) ->
  fst (get_all_expenses_for_analysis sid s) = Ret (flat_map month_records all).
Proof.
  intros Hs Hb Hnd.
  destruct (get_all_run sid all s) as (s' & Hrun & _);
    [now rewrite Hs | exact Hb |].
  rewrite Hrun, Hs. cbn [tl fst].
  now rewrite scanned_healthy by now apply own_tabs_NoDup.
Qed.



(** X11. A tab whose read fails is skipped and the scan goes on: when the
    reads of the tabs before it are answered and its own raises, the scan
    returns the records of the tabs before and of the tabs after it. *)
Theorem scan_skips_failed_tab (sid : string) (e : exn)
    (pre post : list Sheet) (bad : Sheet) (s : State) :
  api_script s = None :: repeat None (months pre) ++ [Some e] ->
  find_book sid (books s) = Some (pre ++ bad :: post) ->
  NoDup (map title (pre ++ bad :: post)) ->
  is_month bad = true ->
  fst (get_all_expenses_for_analysis sid s)
  = Ret (flat_map month_records pre ++ flat_map month_records post).
Proof.
  intros Hs Hb Hnd Hbad.
  destruct (get_all_run sid (pre ++ bad :: post) s) as (s' & Hrun & _);
    [now rewrite Hs | exact Hb |].
  rewrite Hrun, Hs. cbn [tl fst].
  pose proof (own_tabs_NoDup _ Hnd) as Hown.
  unfold own_tabs in Hown. apply Forall_app in Hown as [Hpre Hrest].
  rewrite scanned_prefix by exact Hpre. cbn [fst scanned].
  rewrite Hbad. inversion Hrest as [|? ? _ Hpost]; subst.
  now rewrite scanned_healthy.
Qed.

Lemma scan_skips_failed_tab_witness :
  fst (get_all_expenses_for_analysis "book"
         (set_api [None; None; Some (Exn (HttpError 500) "Internal error")] []
            (set_books [("book",
                         [mkSheet "2025-01" [HEADER_ROW; ["a"; "1"]];
                          mkSheet "2025-02" [HEADER_ROW; ["b"; "2"]];
                          mkSheet "2025-03" [HEADER_ROW; ["c"; "3"]]])]
               one_book)))
  = Ret [mkExpense (Some "a") (Some (Fin 1 0)) None None None;
         mkExpense (Some "c") (Some (Fin 3 0)) None None None].
Proof.
  apply (scan_skips_failed_tab "book" (Exn (HttpError 500) "Internal error")
           [mkSheet "2025-01" [HEADER_ROW; ["a"; "1"]]]
           [mkSheet "2025-03" [HEADER_ROW; ["c"; "3"]]]
           (mkSheet "2025-02" [HEADER_ROW; ["b"; "2"]])).
  - reflexivity.
  - reflexivity.
  - repeat constructor; cbn; intuition discriminate.
  - reflexivity.
Defined.

(** X12. The scan raises exactly when the tab list cannot be had: when
    the first request raises, or when the spreadsheet does not exist.  No
    failure of a later read makes it raise. *)
Theorem scan_raises_only_for_tab_list (sid : string) (s : State) :
  (exists e, fst (get_all_expenses_for_analysis sid s) = Raise e)
  <-> (hd None (api_script s) <> None \/ find_book sid (books s) = None).
Proof.
  split.
  - intros [e He].
    destruct (hd None (api_script s)) as [e0|] eqn:Hh; [left; discriminate|].
    destruct (find_book sid (books s)) as [all|] eqn:Hb; [|right; reflexivity].
    destruct (get_all_run sid all s Hh Hb) as (s' & Hrun & _).
    rewrite Hrun in He. discriminate.
  - cbv beta iota delta [get_all_expenses_for_analysis try_except bind
      spreadsheet_get request the_book gets].
    intros [Hh | Hb].
    + destruct (api_script s) as [|[e|] rest]; try (now elim Hh).
      cbv beta iota. exists e.
      destruct (is_http e); reflexivity.
    + destruct (api_script s) as [|[e|] rest]; cbv beta iota;
        cbn [books set_api]; rewrite ?Hb; eexists;
        try (destruct (is_http e)); reflexivity.
Qed.

Lemma digit_char_is_digit d : is_digit (digit_char d) = true.
Proof.
  unfold is_digit, digit_char.
  pose proof (Z.mod_pos_bound d 10 ltac:(lia)).
  rewrite nat_ascii_embedding by lia.
  apply andb_true_iff. split; apply Nat.leb_le; lia.
Qed.

Lemma month_name_is_month t rows :
  is_month (mkSheet (strftime_Y_m t) rows) = true.
Proof.
  unfold is_month, strftime_Y_m, pad4, pad2, monthly_sheet_pattern.
  cbn [title String.append list_ascii_of_string String.eqb negb andb].
  now rewrite !digit_char_is_digit.
Qed.

Lemma record_of_expense_row s f category description kind :
  record_of (firstn 5 (expense_row s (now s) f category description kind))
  = appended_record s f category description kind.
Proof. reflexivity. Qed.

(** X13. Append then scan, in a month that has no tab yet: with a backend
    that answers and an amount [float] accepts, the scan after the append
    returns what the scan returned before and then one record, which
    carries the timestamp, the category, the description and the kind that
    were written, and the amount read back from the cell. *)
Theorem append_then_scan (sid : string) (amount category description : json)
    (kind : string) (f : pyfloat) (all : list Sheet) (s : State) :
  api_script s = [] ->
  find_book sid (books s) = Some all ->
  NoDup (map title all) ->
  has_title (strftime_Y_m (now s)) all = false ->
  to_float amount = Ret f ->
  let s1 := snd (append_expense_to_sheet sid amount category description
                   kind s) in
  fst (get_all_expenses_for_analysis sid s) = Ret (flat_map month_records all)
  /\ fst (get_all_expenses_for_analysis sid s1)
     = Ret (flat_map month_records all
            ++ [appended_record s f category description kind]).
Proof.
  intros Hs Hb Hnd Ht Hf s1. split.
  - now apply scan_healthy_fst.
  - unfold s1.
    rewrite (StoreFacts.append_missing sid amount f category description kind
               all s Hs Hb Ht Hf).
    cbn [snd].
    rewrite (scan_healthy_fst sid
               (all ++ [mkSheet (strftime_Y_m (now s))
                          [HEADER_ROW;
                           expense_row s (now s) f category description
                             kind]])).
    + rewrite flat_map_app. cbn [flat_map].
      unfold month_records at 2. rewrite month_name_is_month.
      unfold data_records. cbn [rows tl map].
      now rewrite record_of_expense_row, app_nil_r.
    + reflexivity.
    + apply StoreFacts.find_put_same.
    + rewrite map_app. cbn [map title].
      apply NoDup_app; [exact Hnd | repeat constructor; intros [] |].
      intros x Hin [<- | []]. now apply has_title_In in Ht.
Qed.

Lemma append_then_scan_witness :
  fst (get_all_expenses_for_analysis "book"
         (snd (append_expense_to_sheet "book" (JStr "125") (JStr "Khác")
                 (JStr "tea") "Chi"
                 (set_books [("book",
                              [mkSheet "2025-03" [HEADER_ROW; ["d"; "7"]]])]
                    one_book))))
  = Ret [mkExpense (Some "d") (Some (Fin 7 0)) None None None;
         mkExpense (Some "2025-04-30 23:59:58") (Some (Fin 125 0))
                   (Some "Khác") (Some "tea") (Some "Chi")].
Proof.
  destruct (append_then_scan "book" (JStr "125") (JStr "Khác") (JStr "tea")
              "Chi" (Fin 125 0)
              [mkSheet "2025-03" [HEADER_ROW; ["d"; "7"]]]
              (set_books [("book",
                           [mkSheet "2025-03" [HEADER_ROW; ["d"; "7"]]])]
                 one_book) eq_refl eq_refl) as [_ H];
    [repeat constructor; cbn; intuition discriminate
    | reflexivity | reflexivity |].
  exact H.
Defined.

(** X14. Append then scan, in a month whose tab exists: the record of the
    new row comes right after the records of that tab, unless the tab had
    no row at all; then the appended row becomes the first row of the tab,
    which the scan takes for the header, and the scan does not return
    it. *)
Theorem append_then_scan_existing (sid : string)
    (amount category description : json) (kind : string) (f : pyfloat)
    (pre post : list Sheet) (tab : Sheet) (s : State) :
  api_script s = [] ->
  find_book sid (books s) = Some (pre ++ tab :: post) ->
  NoDup (map title (pre ++ tab :: post)) ->
  title tab = strftime_Y_m (now s) ->
  to_float amount = Ret f ->
  fst (get_all_expenses_for_analysis sid
         (snd (append_expense_to_sheet sid amount category description kind
                 s)))
  = Ret (flat_map month_records pre
         ++ match rows tab with
            | [] => []
            | _ :: _ =>
                data_records tab
                ++ [appended_record s f category description kind]
            end
         ++ flat_map month_records post).
Proof.
  intros Hs Hb Hnd Htitle Hf.
  assert (Hpre : has_title (strftime_Y_m (now s)) pre = false).
  { apply has_title_In. rewrite map_app in Hnd. cbn [map] in Hnd.
    apply NoDup_remove_2 in Hnd. rewrite <- Htitle. intros Hin. apply Hnd.
    apply in_or_app. now left. }
  assert (Ht : has_title (strftime_Y_m (now s)) (pre ++ tab :: post) = true).
  { rewrite StoreFacts.has_title_app. unfold has_title at 2. cbn [existsb].
    rewrite Htitle, String.eqb_refl. now rewrite orb_true_r. }
  rewrite (StoreFacts.append_existing sid amount f category description kind
             _ s Hs Hb Ht Hf).
  cbn [snd]. destruct tab as [name rows0]. cbn [title rows] in *. subst name.
  rewrite (StoreFacts.map_sheet_new _ _ pre rows0 post Hpre).
  rewrite (scan_healthy_fst sid
             (pre ++ mkSheet (strftime_Y_m (now s))
                       (rows0 ++ [expense_row s (now s) f category
                                    description kind]) :: post)).
  - rewrite flat_map_app. cbn [flat_map].
    unfold month_records at 2. rewrite month_name_is_month.
    do 2 f_equal. unfold data_records. cbn [rows].
    destruct rows0 as [|h rows0]; [reflexivity|].
    cbn [app tl]. rewrite !map_app. cbn [map].
    now rewrite record_of_expense_row.
  - reflexivity.
  - apply StoreFacts.find_put_same.
  - rewrite map_app in *. exact Hnd.
Qed.

Lemma append_then_scan_existing_witness :
  fst (get_all_expenses_for_analysis "book"
         (snd (append_expense_to_sheet "book" (JInt 5) (JStr "Khác")
                 (JStr "tea") "Chi"
                 (set_books [("book", [mkSheet "2025-04" []])] one_book))))
  = Ret [].
Proof.
  apply (append_then_scan_existing "book" (JInt 5) (JStr "Khác") (JStr "tea")
           "Chi" (Fin 5 0) [] [] (mkSheet "2025-04" [])
           (set_books [("book", [mkSheet "2025-04" []])] one_book));
    try reflexivity.
  repeat constructor. intros [].
Defined.

End StoreLawsFacts.

(** Laws of the classifier and of the report generator. *)
Module ClassifierLawsFacts.
Import Py Eff Eff.Notations Gemini ClassifierSpec ClassifierLawsSpec.

Lemma eq_str_true j s : eq_str j s = true -> j = JStr s.
Proof.
  destruct j; cbn; try discriminate. intros H.
  apply String.eqb_eq in H. now subst.
Qed.

Lemma validate_dict d (g : State) :
  exists r,
    validate (JDict d) g = (r, g)
    /\ (forall v, r = Ret v -> exists d', v = JDict d' /\ normalised d').
Proof.
  unfold validate. cbv beta iota delta [bind].
  rewrite ClassifierFacts.has_keys_dict.
  destruct (forallb (fun k => dict_mem k d) required_keys); cbn [negb].
  2:{ eexists. split; [reflexivity|]. intros v [= <-].
      eexists. split; [reflexivity|]. right. right. reflexivity. }
  cbv beta iota delta [as_dict ret].
  destruct (eq_str (get "request_type" d) "transaction") eqn:Etx.
  - apply eq_str_true in Etx. fold (coerces d). fold (after_category d).
    destruct (is_none (get "amount" (after_category d))); cbn [negb].
    + eexists. split; [reflexivity|]. intros v [= <-].
      eexists. split; [reflexivity|]. right. right.
      apply ClassifierFacts.get_set_same.
    + cbv beta iota delta [try_except py_float pure raise].
      destruct (to_float (get "amount" (after_category d))) as [f|e].
      * eexists. split; [reflexivity|]. intros v [= <-].
        eexists. split; [reflexivity|]. left.
        rewrite ClassifierFacts.get_set_same,
          ClassifierFacts.get_set_other by discriminate.
        rewrite ClassifierFacts.after_category_get by discriminate.
        split; [exact Etx | right; eexists; reflexivity].
      * destruct (is_value_or_type_error e).
        -- eexists. split; [reflexivity|]. intros v [= <-].
           eexists. split; [reflexivity|]. left.
           rewrite ClassifierFacts.get_set_same,
             ClassifierFacts.get_set_other by discriminate.
           rewrite ClassifierFacts.after_category_get by discriminate.
           split; [exact Etx | left; reflexivity].
        -- eexists. split; [reflexivity|]. discriminate.
  - destruct (eq_str (get "request_type" d) "analysis") eqn:Ean.
    + apply eq_str_true in Ean.
      destruct (truthy (get "analysis_query" d)) eqn:Eq; cbn [negb].
      * eexists. split; [reflexivity|]. intros v [= <-].
        eexists. split; [reflexivity|]. right. left. now split.
      * eexists. split; [reflexivity|]. intros v [= <-].
        eexists. split; [reflexivity|]. right. right.
        apply ClassifierFacts.get_set_same.
    + destruct (eq_str (get "request_type" d) "other") eqn:Eo.
      * apply eq_str_true in Eo.
        eexists. split; [reflexivity|]. intros v [= <-].
        eexists. split; [reflexivity|]. right. right. exact Eo.
      * eexists. split; [reflexivity|]. intros v [= <-].
        eexists. split; [reflexivity|]. right. right.
        apply ClassifierFacts.get_set_same.
Qed.

Lemma has_keys_result ks v (g : State) :
  exists r, has_keys ks v g = (r, g)
            /\ ((forall d, v <> JDict d) -> r = Ret true ->
                exists e, as_dict (S := State) v g = (Raise e, g)).
Proof.
  induction ks as [|k ks IH].
  - eexists. split; [reflexivity|]. intros Hv _.
    destruct v as [ | b | z | f | s | l | d0 ];
      try (eexists; reflexivity).
    exfalso. eapply Hv. reflexivity.
  - cbn [has_keys]. cbv beta iota delta [bind].
    destruct v; cbn [has_key]; cbv beta iota delta [ret raise];
      try (eexists; split; [reflexivity|]; intros; discriminate).
    + destruct (str_contains k s).
      * exact IH.
      * eexists. split; [reflexivity|]. intros; discriminate.
    + destruct (existsb (fun v => eq_str v k) l).
      * exact IH.
      * eexists. split; [reflexivity|]. intros; discriminate.
    + destruct (dict_mem k d).
      * exact IH.
      * eexists. split; [reflexivity|]. intros; discriminate.
Qed.

Lemma validate_shape v (g : State) :
  exists r,
    validate v g = (r, g)
    /\ (forall x, r = Ret x -> exists d', x = JDict d' /\ normalised d').
Proof.
  destruct v as [ | b | z | f | s | l | d ]; try apply validate_dict.
  all: unfold validate; cbv beta iota delta [bind];
    match goal with
    | |- context [has_keys ?ks ?v ?g] =>
        destruct (has_keys_result ks v g) as (r & Hr & Hraise)
    end;
    rewrite Hr; destruct r as [[|]|e]; cbn [negb].
  all: try (eexists; split; [reflexivity|]; intros x; discriminate).
  all: try (eexists; split; [reflexivity|]; intros x [= <-];
            eexists; split; [reflexivity|]; right; right; reflexivity).
  all: match goal with
       | |- context [as_dict ?v] =>
           destruct (Hraise ltac:(discriminate) eq_refl) as (e & He)
       end;
    rewrite He; eexists; (split; [reflexivity|]); intros x; discriminate.
Qed.

(** X15. Whatever the endpoint does, [analyze_expense_message] returns and
    does not raise, after exactly one call of the endpoint.  It returns
    [None] or a dict whose request type is [transaction], [analysis] or
    [other]; a transaction carries a float or [None] as amount, and an
    analysis carries a non-empty query. *)
Theorem classification_normalised (msg : string) (g : State) :
  exists r g',
    analyze_expense_message msg g = (Ret r, g')
    /\ calls g' = S (calls g)
    /\ (r = JNull \/ exists d, r = JDict d /\ normalised d).
Proof.
  unfold analyze_expense_message.
  cbv beta iota delta [try_except bind generate_content response_text
    json_loads ret raise].
  destruct (script g) as [|[e|e|raw [v|]] rest]; cbv beta iota;
    try (eexists _, _; split; [reflexivity|]; split; [reflexivity|];
         left; reflexivity).
  destruct (validate_shape v (mkState rest (S (calls g)) (api_key g)))
    as (r & Hr & Hshape).
  rewrite Hr. destruct r as [x|e].
  - eexists _, _. split; [reflexivity|]. split; [reflexivity|].
    right. now apply Hshape.
  - eexists _, _. split; [reflexivity|]. split; [reflexivity|].
    left. reflexivity.
Qed.

(** X16. The three ways a complete parse is degraded.  A parsed dict that
    lacks one of the seven keys is replaced by the fixed [other] result,
    whatever else it holds.  A complete dict whose request type is none of
    the three strings, or is [analysis] with an empty query, comes back
    with the request type set to [other] and its other entries as they
    were. *)
Theorem classification_degrades (msg raw : string) (d : dict)
    (rest : list Response) (g : State) :
  script g = Text raw (Some (JDict d)) :: rest ->
  (forallb (fun k => dict_mem k d) required_keys = false ->
   fst (analyze_expense_message msg g) = Ret default_other)
  /\ (forallb (fun k => dict_mem k d) required_keys = true ->
      (eq_str (get "request_type" d) "transaction" = false
       /\ eq_str (get "request_type" d) "analysis" = false
       /\ eq_str (get "request_type" d) "other" = false)
      \/ (get "request_type" d = JStr "analysis"
          /\ truthy (get "analysis_query" d) = false) ->
      fst (analyze_expense_message msg g)
      = Ret (JDict (dict_set "request_type" (JStr "other") d))).
Proof.
  intros Hs.
  rewrite (ClassifierFacts.analyze_run msg g raw (JDict d) rest Hs). cbv zeta.
  unfold validate. cbv beta iota delta [bind].
  rewrite ClassifierFacts.has_keys_dict.
  split.
  - intros ->. reflexivity.
  - intros -> H. cbn [negb]. cbv beta iota delta [as_dict ret].
    destruct H as [(-> & -> & ->) | (Hrt & Hq)]; [reflexivity|].
    rewrite Hrt, Hq. reflexivity.
Qed.

Lemma classification_degrades_witness :
  fst (analyze_expense_message "hi" (answering (JDict [])))
  = Ret default_other
  /\ fst (analyze_expense_message "hi"
            (answering (JDict (response_dict (JStr "chat") JNull JNull JNull
                                 JNull))))
     = Ret (JDict (response_dict (JStr "other") JNull JNull JNull JNull)).
Proof.
  split.
  - destruct (classification_degrades "hi" "{...}" [] []
                (answering (JDict [])) eq_refl) as [H _].
    now apply H.
  - destruct (classification_degrades "hi" "{...}"
                (response_dict (JStr "chat") JNull JNull JNull JNull) []
                (answering (JDict (response_dict (JStr "chat") JNull JNull
                                     JNull JNull))) eq_refl) as [_ H].
    rewrite H; [reflexivity | reflexivity |].
    left. repeat split.
Defined.

(** X17. [generate_expense_report] never raises.  Without an API key it
    returns [(None, None)] and does not call the endpoint; with one it
    calls the endpoint once.  A chart is returned only together with a
    non-empty summary, and every failure of the call or of the parse still
    yields a summary text and no chart. *)
Theorem report_degrades_gracefully {E : Type} (user_query : json)
    (expense_data : list E) (g : State) :
  exists summary chart g',
    generate_expense_report user_query expense_data g
    = (Ret (summary, chart), g')
    /\ (str_truthy (api_key g) = false ->
        summary = JNull /\ chart = None /\ g' = g)
    /\ (str_truthy (api_key g) = true -> calls g' = S (calls g))
    /\ (chart <> None -> truthy summary = true)
    /\ (str_truthy (api_key g) = true -> chart = None ->
        exists text, summary = JStr text).
Proof.
  unfold generate_expense_report.
  cbv beta iota delta [bind gets].
  destruct (str_truthy (api_key g)) eqn:Ek; cbn [negb].
  2:{ eexists _, _, _. split; [reflexivity|].
      repeat split; try discriminate. intros H. now elim H. }
  cbv beta iota delta [try_except bind generate_content response_text
    json_loads ret raise as_dict].
  destruct (script g) as [|[e|e|raw [v|]] rest]; cbv beta iota.
  - eexists _, _, _. split; [reflexivity|].
    split; [discriminate|]. split; [reflexivity|].
    split; [intros H; now elim H | intros _ _; eexists; reflexivity].
  - destruct (kind e); eexists _, _, _; (split; [reflexivity|]);
      (split; [discriminate|]); (split; [reflexivity|]);
      (split; [intros H; now elim H | intros _ _; eexists; reflexivity]).
  - eexists _, _, _. split; [reflexivity|].
    split; [discriminate|]. split; [reflexivity|].
    split; [intros H; now elim H | intros _ _; eexists; reflexivity].
  - destruct v as [ | b | z | f | s | l | d ]; cbv beta iota;
      try (eexists _, _, _; (split; [reflexivity|]);
           (split; [discriminate|]); (split; [reflexivity|]);
           (split; [intros H; now elim H
                   | intros _ _; eexists; reflexivity])).
    destruct (truthy (get "summary" d)) eqn:Esum; cbn [negb orb];
      [destruct (truthy (get "chart_json" d)); cbn [negb]|];
      eexists _, _, _; (split; [reflexivity|]);
      (split; [discriminate|]); (split; [reflexivity|]);
      (split; [first [intros _; exact Esum | intros H; now elim H]
              | first [discriminate | intros _ _; eexists; reflexivity]]).
  - eexists _, _, _. split; [reflexivity|].
    split; [discriminate|]. split; [reflexivity|].
    split; [intros H; now elim H | intros _ _; eexists; reflexivity].
Qed.

End ClassifierLawsFacts.

(** Laws of the chart renderer: series, slices and complete specifications. *)
Module ChartLawsFacts.
Import Py Eff Eff.Notations Chart ChartSpec ChartLawsSpec.

(** ** Series are aligned with the labels *)

Lemma fit_to_labels_list (l ls : list json) :
  exists l',
    fit_to_labels (JList l) (JList ls) tt = (Ret (JList l'), tt) /\
    length l' = length ls /\
    (forall i, (i < length ls)%nat -> nth i l' JNull = fitted l i) /\
    (length l = length ls -> l' = l).
Proof.
  unfold fit_to_labels.
  cbv beta iota delta [bind len ret].
  destruct (Nat.eqb (length l) (length ls)) eqn:E; cbn [negb].
  - apply Nat.eqb_eq in E. exists l. repeat split; auto.
    intros i Hi. unfold fitted.
    rewrite <- E in Hi. apply Nat.ltb_lt in Hi. now rewrite Hi.
  - apply Nat.eqb_neq in E.
    exists (firstn (length ls) (l ++ repeat (JInt 0) (length ls))).
    split; [reflexivity|]. split; [|split].
    + rewrite length_firstn, length_app, repeat_length. lia.
    + intros i Hi. rewrite nth_firstn.
      assert (Hlt : Nat.ltb i (length ls) = true) by now apply Nat.ltb_lt.
      rewrite Hlt. unfold fitted.
      destruct (Nat.ltb i (length l)) eqn:Hil.
      * apply Nat.ltb_lt in Hil. now rewrite app_nth1.
      * apply Nat.ltb_ge in Hil. rewrite app_nth2 by exact Hil.
        apply nth_repeat_lt. lia.
    + intros H. contradiction.
Qed.

Lemma enumerate_from_cons {A} (i : nat) (body : nat -> json -> M unit A)
    (x : json) (xs : list json) (s : unit) :
  enumerate_from i body (x :: xs) s =
  match body i x s with
  | (Ret y, s') =>
      match enumerate_from (S i) body xs s' with
      | (Ret ys, s'') => (Ret (y :: ys), s'')
      | (Raise e, s'') => (Raise e, s'')
      end
  | (Raise e, s') => (Raise e, s')
  end.
Proof.
  cbn [enumerate_from]. cbv beta iota delta [bind ret].
  destruct (body i x s) as [[y|e] s']; [|reflexivity].
  destruct (enumerate_from (S i) body xs s') as [[ys|e] s'']; reflexivity.
Qed.

Lemma enumerate_aligned (ls : list json) (mk : nat -> dict -> json -> Plot)
    (Hmk : forall i d x, series_of (mk i d x) = Some x) (ds : list json) :
  Forall well_formed ds ->
  forall i, exists ps,
    enumerate_from i
      (fun i dataset =>
         d <- as_dict dataset ;;
         dataset_data <- fit_to_labels (get_default "data" (JList []) d)
                           (JList ls) ;;
         ret (mk i d dataset_data))%eff ds tt = (Ret ps, tt) /\
    Forall2 (aligned ls) ds ps.
Proof.
  induction 1 as [|x ds Hx Hds IH]; intros i.
  - exists []. split; [reflexivity | constructor].
  - destruct Hx as (d & l & -> & Hl).
    destruct (fit_to_labels_list l ls) as (l' & Hfit & Hlen & Hnth & _).
    destruct (IH (S i)) as (ps & Hrun & Hall).
    exists (mk i d (JList l') :: ps). split.
    + match goal with
      | |- context [enumerate_from _ ?b _ _] => set (body := b) in *
      end.
      assert (Hb : body i (JDict d) tt = (Ret (mk i d (JList l')), tt)).
      { subst body. cbv beta iota delta [bind as_dict ret].
        rewrite Hl, Hfit. reflexivity. }
      rewrite enumerate_from_cons, Hb, Hrun. reflexivity.
    + constructor; [|exact Hall].
      exists d, l, l'. repeat split; auto.
Qed.

Lemma bar_run (ls ds : list json) :
  Forall well_formed ds ->
  exists bars,
    plot_bar (JList ls) (JList ds) tt
      = (Ret (bars ++ [BarTicks (JList ls)]), tt)
    /\ Forall2 (aligned ls) ds bars.
Proof.
  intros Hds.
  destruct (enumerate_aligned ls
              (fun i d x => Bar i (length ds) x (dataset_label i d))
              (fun _ _ _ => eq_refl) ds Hds 0) as (bars & Hb & Hab).
  exists bars. split; [|exact Hab].
  unfold plot_bar.
  cbv beta iota delta [bind len iter ret] in Hb |- *.
  rewrite Hb. reflexivity.
Qed.

Lemma line_run (ls ds : list json) :
  Forall well_formed ds ->
  exists lines,
    plot_line (JList ls) (JList ds) tt = (Ret lines, tt)
    /\ Forall2 (aligned ls) ds lines.
Proof.
  intros Hds.
  destruct (enumerate_aligned ls
              (fun i d x => Line (JList ls) x (dataset_label i d))
              (fun _ _ _ => eq_refl) ds Hds 0) as (lines & Hl & Hal).
  exists lines. split; [exact Hl | exact Hal].
Qed.

(** X18.  Bar and line charts: when every dataset is a dict whose [data] is
    a list (or is missing), drawing does not raise and requests exactly one
    series per dataset, in order; each series has as many values as there
    are labels, the values of [data] at the positions it has and [0] at the
    others.  A bar chart adds the tick request, and nothing else. *)
Theorem series_follow_labels (ls ds : list json) :
  Forall well_formed ds ->
  exists bars lines,
    plot_bar (JList ls) (JList ds) tt
      = (Ret (bars ++ [BarTicks (JList ls)]), tt) /\
    plot_line (JList ls) (JList ds) tt = (Ret lines, tt) /\
    Forall2 (aligned ls) ds bars /\
    Forall2 (aligned ls) ds lines.
Proof.
  intros Hds.
  destruct (bar_run ls ds Hds) as (bars & Hbar & Hab).
  destruct (line_run ls ds Hds) as (lines & Hline & Hal).
  exists bars, lines.
  split; [exact Hbar|]. split; [exact Hline|]. split; [exact Hab | exact Hal].
Qed.

Lemma series_follow_labels_witness :
  exists bars lines,
    plot_bar (JList [JStr "food"; JStr "rent"])
             (JList [JDict [("data", JList [JInt 5])]; JDict []]) tt
      = (Ret (bars ++ [BarTicks (JList [JStr "food"; JStr "rent"])]), tt) /\
    plot_line (JList [JStr "food"; JStr "rent"])
              (JList [JDict [("data", JList [JInt 5])]; JDict []]) tt
      = (Ret lines, tt) /\
    Forall2 (aligned [JStr "food"; JStr "rent"])
            [JDict [("data", JList [JInt 5])]; JDict []] bars /\
    Forall2 (aligned [JStr "food"; JStr "rent"])
            [JDict [("data", JList [JInt 5])]; JDict []] lines.
Proof.
  apply series_follow_labels.
  constructor; [|constructor; [|constructor]].
  - exists [("data", JList [JInt 5])], [JInt 5]. split; reflexivity.
  - exists [], []. split; reflexivity.
Defined.

(** X19.  A complete bar or line specification is always drawn: with a
    type that lower-cases to [bar] or [line] (or no type), labels that are
    a list, a non-empty list of well-formed datasets and options that are
    a dict (or missing), the renderer fails only if the plotting library
    does.  The figure has the aligned series of the datasets, the tick
    request for a bar chart only, and a legend exactly when there is more
    than one dataset. *)
Theorem complete_chart_rendered (plot_ok : Figure -> bool) (cd dd : dict)
    (t : string) (ls ds : list json) :
  get_default "type" (JStr "bar") cd = JStr t ->
  lower t = "bar" \/ lower t = "line" ->
  get "data" cd = JDict dd ->
  dict_get "labels" dd = Some (JList ls) ->
  dict_get "datasets" dd = Some (JList ds) ->
  ds <> [] ->
  Forall well_formed ds ->
  (forall v, dict_get "options" cd = Some v -> exists o, v = JDict o) ->
  exists fig series,
    generate_chart_from_json plot_ok (Some (JDict cd))
      = (if plot_ok fig then Some fig else None) /\
    plots fig
      = series ++ (if String.eqb (lower t) "bar"
                   then [BarTicks (JList ls)] else []) /\
    Forall2 (aligned ls) ds series /\
    legend fig = (1 <? length ds)%nat.
Proof.
  intros Ht Hkind Hdata Hl Hd Hne Hwf Hopt.
  destruct (bar_run ls ds Hwf) as (bars & Hbar & Hab).
  destruct (line_run ls ds Hwf) as (lines & Hline & Hal).
  assert (Ho : exists o, get_default "options" (JDict []) cd = JDict o).
  { unfold get_default. destruct (dict_get "options" cd) as [v|] eqn:E.
    - exact (Hopt v eq_refl).
    - now exists []. }
  destruct Ho as (o & Ho).
  assert (Htr : truthy (JDict dd) = true).
  { destruct dd; [discriminate | reflexivity]. }
  assert (Htd : truthy (JList ds) = true).
  { destruct ds; [now elim Hne | reflexivity]. }
  assert (Hinc : incomplete (JDict dd) tt = (Ret false, tt)).
  { unfold incomplete. rewrite Htr.
    cbv beta iota delta [bind has_key subscript ret dict_mem negb].
    rewrite Hl, Hd. cbv beta iota. rewrite Htd. reflexivity. }
  rewrite ChartFacts.generate_rendered, ChartFacts.draw_dict, Ht.
  unfold draw_typed. cbv zeta. rewrite Hdata, Ho.
  cbv beta iota delta [bind]. rewrite Hinc.
  cbv beta iota delta [subscript ret]. rewrite Hl, Hd.
  cbv beta iota.
  destruct Hkind as [-> | ->].
  - change (String.eqb "bar" "bar") with true. cbv beta iota.
    rewrite Hbar. cbv beta iota delta [as_dict ret len].
    rewrite Htd. cbv beta iota.
    eexists. exists bars. split; [reflexivity|].
    split; [reflexivity|]. split; [exact Hab | reflexivity].
  - change (String.eqb "line" "bar") with false.
    change (String.eqb "line" "line") with true. cbv beta iota.
    rewrite Hline. cbv beta iota delta [as_dict ret len].
    rewrite Htd. cbv beta iota.
    eexists. exists lines. split; [reflexivity|].
    split; [cbn [plots]; now rewrite app_nil_r|].
    split; [exact Hal | reflexivity].
Qed.

Lemma complete_chart_rendered_witness :
  exists fig series,
    generate_chart_from_json draws_all
      (Some (spec_of [("type", JStr "Line")] (JList [JStr "food"; JStr "rent"])
               (JList [JDict [("data", JList [JInt 5])]; JDict []])))
      = (if draws_all fig then Some fig else None) /\
    plots fig
      = series ++ (if String.eqb (lower "Line") "bar"
                   then [BarTicks (JList [JStr "food"; JStr "rent"])]
                   else []) /\
    Forall2 (aligned [JStr "food"; JStr "rent"])
            [JDict [("data", JList [JInt 5])]; JDict []] series /\
    legend fig = (1 <? length [JDict [("data", JList [JInt 5])]; JDict []])%nat.
Proof.
  apply (complete_chart_rendered draws_all
           [("type", JStr "Line");
            ("data", JDict [("labels", JList [JStr "food"; JStr "rent"]);
                            ("datasets",
                             JList [JDict [("data", JList [JInt 5])];
                                    JDict []])])]
           [("labels", JList [JStr "food"; JStr "rent"]);
            ("datasets", JList [JDict [("data", JList [JInt 5])]; JDict []])]
           "Line").
  - reflexivity.
  - right. reflexivity.
  - reflexivity.
  - reflexivity.
  - reflexivity.
  - discriminate.
  - constructor; [|constructor; [|constructor]].
    + exists [("data", JList [JInt 5])], [JInt 5]. split; reflexivity.
    + exists [], []. split; reflexivity.
  - intros v H. discriminate H.
Defined.

(** ** The slices of a pie *)

Lemma gt_zero_ints (zs : list Z) :
  for_each (S := unit) gt_zero (map JInt zs) tt
    = (Ret (map (fun z => (0 <? z)%Z) zs), tt).
Proof.
  induction zs as [|z zs IH]; [reflexivity|].
  cbn [map for_each].
  cbv beta iota delta [bind gt_zero ret] in IH |- *.
  rewrite IH. reflexivity.
Qed.

Lemma keep_data (zs : list Z) (ls : list json) :
  length zs = length ls ->
  keep (map (fun z => (0 <? z)%Z) zs) (map JInt zs)
    = map JInt (map fst (slices zs ls)).
Proof.
  revert ls. induction zs as [|z zs IH]; intros [|x ls] Hlen;
    try discriminate; [reflexivity|].
  injection Hlen as Hlen. unfold slices in *.
  cbn [map keep combine filter fst].
  destruct (0 <? z)%Z; cbn [map fst]; now rewrite (IH ls Hlen).
Qed.

Lemma keep_labels (pre : list json) (zs : list Z) (ls : list json) :
  length zs = length ls ->
  for_each (S := unit) (item (JList (pre ++ ls)))
    (keep (map (fun z => (0 <? z)%Z) zs) (seq (length pre) (length zs))) tt
    = (Ret (map snd (slices zs ls)), tt).
Proof.
  revert pre ls. induction zs as [|z zs IH]; intros pre [|x ls] Hlen;
    try discriminate; [reflexivity|].
  injection Hlen as Hlen. unfold slices in *.
  cbn [map keep combine filter fst length seq].
  assert (Hpre : pre ++ x :: ls = (pre ++ [x]) ++ ls)
    by now rewrite <- app_assoc.
  assert (Hrec := IH (pre ++ [x]) ls Hlen).
  rewrite <- Hpre, length_app in Hrec. cbn [length] in Hrec.
  rewrite Nat.add_1_r in Hrec.
  destruct (0 <? z)%Z.
  - cbn [for_each map snd].
    cbv beta iota delta [bind item ret] in Hrec |- *.
    rewrite nth_error_app2 by lia. rewrite Nat.sub_diag. cbn [nth_error].
    rewrite Hrec. reflexivity.
  - exact Hrec.
Qed.

(** X20.  A pie chart is drawn from the first dataset only.  When its
    [data] holds one integer per label, the slices requested are the
    values greater than zero, each with the label of its position, in
    order; when no value is greater than zero, the only request is the
    text that says there is nothing to display. *)
Theorem pie_keeps_positive (zs : list Z) (ls : list json) (d : dict)
    (rest : list json) :
  length zs = length ls ->
  get_default "data" (JList []) d = JList (map JInt zs) ->
  plot_pie (JList ls) (JList (JDict d :: rest)) tt
    = (Ret (match slices zs ls with
            | [] => [NoDataText]
            | kept => [Pie (map JInt (map fst kept)) (map snd kept)]
            end), tt).
Proof.
  intros Hlen Hd.
  destruct (fit_to_labels_list (map JInt zs) ls) as (l' & Hfit & _ & _ & Hsame).
  rewrite (Hsame ltac:(now rewrite length_map)) in Hfit.
  pose proof (keep_labels [] zs ls Hlen) as Hlab.
  cbn [app length] in Hlab.
  unfold plot_pie. cbn [truthy].
  cbv beta iota zeta delta [bind as_dict iter ret].
  change (item (S := unit) (JList (JDict d :: rest)) 0 tt)
    with (Ret (A := json) (JDict d), tt).
  cbv beta iota.
  rewrite Hd, Hfit.
  cbv beta iota zeta delta [bind ret].
  rewrite gt_zero_ints, length_map.
  cbv beta iota zeta delta [bind ret] in Hlab |- *.
  rewrite Hlab.
  rewrite (keep_data zs ls Hlen).
  destruct (slices zs ls); reflexivity.
Qed.

Lemma pie_keeps_positive_witness :
  plot_pie (JList [JStr "food"; JStr "rent"; JStr "fun"])
           (JList [JDict [("data", JList [JInt 5; JInt 0; JInt 7])];
                   JDict [("data", JList [JInt 1; JInt 1; JInt 1])]]) tt
    = (Ret [Pie [JInt 5; JInt 7] [JStr "food"; JStr "fun"]], tt).
Proof.
  apply (pie_keeps_positive [5; 0; 7]%Z
           [JStr "food"; JStr "rent"; JStr "fun"]
           [("data", JList [JInt 5; JInt 0; JInt 7])]
           [JDict [("data", JList [JInt 1; JInt 1; JInt 1])]]);
    reflexivity.
Defined.

End ChartLawsFacts.

(** What the reads and the message handler leave unchanged. *)
Module InvariantLawsFacts.
Import Py Eff Eff.Notations Sheets Handlers InvariantLawsSpec.

(** ** Relations every step of a computation keeps *)

Lemma same_registry_preorder : preorder same_registry.
Proof.
  split; [reflexivity|]. unfold same_registry. intros a b c H1 H2. congruence.
Qed.

Lemma same_tables_preorder : preorder same_tables.
Proof.
  split; [now split|]. unfold same_tables.
  intros a b c [H1 H2] [H3 H4]. split; congruence.
Qed.

Lemma world_registry_preorder : preorder world_registry.
Proof.
  split; [reflexivity|]. unfold world_registry, same_registry.
  intros a b c H1 H2. congruence.
Qed.

Lemma preserves_ret {S A} (R : S -> S -> Prop) (a : A) :
  preorder R -> preserves R (ret a).
Proof. intros [Hr _] s. apply Hr. Qed.

Lemma preserves_raise {S A} (R : S -> S -> Prop) (e : exn) :
  preorder R -> preserves R (raise (A := A) e).
Proof. intros [Hr _] s. apply Hr. Qed.

Lemma preserves_pure {S A} (R : S -> S -> Prop) (r : res A) :
  preorder R -> preserves R (pure r).
Proof. intros [Hr _] s. apply Hr. Qed.

Lemma preserves_gets {S A} (R : S -> S -> Prop) (f : S -> A) :
  preorder R -> preserves R (gets f).
Proof. intros [Hr _] s. apply Hr. Qed.

Lemma preserves_bind {S A B} (R : S -> S -> Prop) (c : M S A)
    (k : A -> M S B) :
  preorder R -> preserves R c -> (forall a, preserves R (k a)) ->
  preserves R (bind c k).
Proof.
  intros [_ Ht] Hc Hk s. unfold bind.
  specialize (Hc s). destruct (c s) as [[a|e] s1]; cbn [snd] in *.
  - eapply Ht; [exact Hc | apply Hk].
  - exact Hc.
Qed.

Lemma preserves_try {S A} (R : S -> S -> Prop) (c : M S A)
    (h : exn -> M S A) :
  preorder R -> preserves R c -> (forall e, preserves R (h e)) ->
  preserves R (try_except c h).
Proof.
  intros [_ Ht] Hc Hh s. unfold try_except.
  specialize (Hc s). destruct (c s) as [[a|e] s1]; cbn [snd] in *.
  - exact Hc.
  - eapply Ht; [exact Hc | apply Hh].
Qed.

(** ** The backend *)

Lemma request_same_tables r : preserves same_tables (request r).
Proof.
  intros s. unfold request.
  destruct (api_script s) as [|[e|] rest]; split; reflexivity.
Qed.

Lemma logger_same_tables lv msg : preserves same_tables (logger lv msg).
Proof. intros s. split; reflexivity. Qed.

Lemma the_book_same_tables sid : preserves same_tables (the_book sid).
Proof.
  intros s. unfold the_book. cbv beta iota delta [bind gets].
  destruct (find_book sid (books s)); split; reflexivity.
Qed.

Lemma same_tables_registry {A} (c : M State A) :
  preserves same_tables c -> preserves same_registry c.
Proof. intros H s. apply H. Qed.

Lemma set_books_same_registry (f : State -> list (string * list Sheet)) :
  preserves same_registry (modify (fun s => set_books (f s) s)).
Proof. intros s. reflexivity. Qed.

(** One step of a proof that a relation is kept: the relation is a
    preorder, the computation is a primitive that keeps it, or it is built
    from computations that do. *)
Ltac keep_step :=
  first
    [ apply same_tables_preorder
    | apply same_registry_preorder
    | apply world_registry_preorder
    | apply request_same_tables
    | apply logger_same_tables
    | apply the_book_same_tables
    | apply same_tables_registry; apply request_same_tables
    | apply same_tables_registry; apply logger_same_tables
    | apply same_tables_registry; apply the_book_same_tables
    | apply set_books_same_registry
    | apply preserves_ret
    | apply preserves_raise
    | apply preserves_pure
    | apply preserves_gets
    | apply preserves_bind
    | apply preserves_try
    | match goal with
      | |- preserves _ _ => fail 1
      | |- forall _, _ => intro
      end
    | match goal with
      | |- preserves _ (if ?b then _ else _) => destruct b
      | |- preserves _ (match ?x with _ => _ end) => destruct x
      | |- preserves _ (let '(_, _) := ?x in _) => destruct x
      end ].

Ltac keeps := repeat keep_step.

Lemma get_user_sheet_id_same_tables mid u :
  preserves same_tables (get_user_sheet_id mid u).
Proof. unfold get_user_sheet_id, values_get_master. keeps. Qed.

Lemma clean_amount_same_tables cell :
  preserves same_tables (clean_amount cell).
Proof. unfold clean_amount, float_str. keeps. Qed.

Lemma rows_to_records_same_tables values :
  preserves same_tables (rows_to_records values).
Proof.
  induction values as [|r rest IH]; cbn [rows_to_records]; [keeps|].
  unfold row_to_record. keeps;
    first [apply clean_amount_same_tables | exact IH].
Qed.

Lemma values_get_a2e_same_tables sid name :
  preserves same_tables (values_get_a2e sid name).
Proof. unfold values_get_a2e. keeps. Qed.

Lemma scan_sheets_same_tables sid sheets : forall acc,
  preserves same_tables (scan_sheets sid sheets acc).
Proof.
  induction sheets as [|sh rest IH]; intros acc; cbn [scan_sheets]; [keeps|].
  cbv zeta.
  destruct (negb (String.eqb (title sh) "") && monthly_sheet_pattern (title sh));
    [|apply IH].
  keeps;
    first [apply IH | apply values_get_a2e_same_tables
          | apply rows_to_records_same_tables].
Qed.

Lemma get_all_same_tables sid :
  preserves same_tables (get_all_expenses_for_analysis sid).
Proof.
  unfold get_all_expenses_for_analysis, spreadsheet_get. keeps.
  apply scan_sheets_same_tables.
Qed.

(** X21.  The two reads are read-only: whatever the backend answers and
    whether they return or raise, [get_user_sheet_id] and
    [get_all_expenses_for_analysis] leave the registry and every
    spreadsheet as they were. *)
Theorem reads_change_nothing (mid u sid : string) (s : State) :
  same_tables s (snd (get_user_sheet_id mid u s))
  /\ same_tables s (snd (get_all_expenses_for_analysis sid s)).
Proof.
  split; [apply get_user_sheet_id_same_tables | apply get_all_same_tables].
Qed.

Lemma write_tab_same_registry sid name f :
  preserves same_registry (write_tab sid name f).
Proof.
  unfold write_tab. keeps.
Qed.

Lemma ensure_same_registry sid name :
  preserves same_registry (_get_or_create_monthly_sheet sid name).
Proof.
  unfold _get_or_create_monthly_sheet, spreadsheet_get, batch_add_sheet,
    values_update_a1.
  keeps; apply write_tab_same_registry.
Qed.

Lemma append_same_registry sid amount category description kind :
  preserves same_registry
    (append_expense_to_sheet sid amount category description kind).
Proof.
  unfold append_expense_to_sheet, values_append_a1, py_float.
  keeps; try apply write_tab_same_registry; try apply ensure_same_registry.
Qed.

(** ** The handlers *)

Lemma send_world_registry r : preserves world_registry (send r).
Proof.
  intros w. unfold send.
  destruct (send_script w) as [|[e|] rest]; reflexivity.
Qed.

Lemma in_sheets_world_registry {A} (c : M State A) :
  preserves same_registry c -> preserves world_registry (in_sheets c).
Proof.
  intros H w. unfold in_sheets, lift. specialize (H (sheets w)).
  destruct (c (sheets w)) as [r s']. exact H.
Qed.

Lemma in_gemini_world_registry {A} (c : M Gemini.State A) :
  preserves world_registry (in_gemini c).
Proof.
  intros w. unfold in_gemini, lift.
  destruct (c (gemini w)) as [r g']. reflexivity.
Qed.

Ltac keep_world :=
  repeat first
    [ apply send_world_registry
    | apply in_gemini_world_registry
    | apply in_sheets_world_registry
    | apply same_tables_registry; apply get_user_sheet_id_same_tables
    | apply same_tables_registry; apply get_all_same_tables
    | apply append_same_registry
    | keep_step ].

Lemma log_transaction_world_registry context sid d :
  preserves world_registry (log_transaction context sid d).
Proof. unfold log_transaction, reply_text. cbv zeta. keep_world. Qed.

Lemma perform_analysis_world_registry sid d :
  preserves world_registry (perform_analysis sid d).
Proof.
  unfold perform_analysis, reply_text, reply_photo, escape_markdown.
  cbv zeta. keep_world.
Qed.

Lemma handle_message_world_registry update context :
  preserves world_registry (handle_message update context).
Proof.
  unfold handle_message, reply_text, as_dict. cbv zeta.
  keep_world;
    first [apply log_transaction_world_registry
          | apply perform_analysis_world_registry].
Qed.

End InvariantLawsFacts.

(** Laws of the handlers: the URL parser, registration and messages. *)
Module DispatcherLawsFacts.
Import Py Eff Eff.Notations Handlers DispatcherSpec DispatcherLawsSpec.

(** ** The spreadsheet id of a URL *)

Lemma list_ascii_app (a b : string) :
  list_ascii_of_string (a ++ b)
  = (list_ascii_of_string a ++ list_ascii_of_string b)%list.
Proof. induction a as [|c a IH]; cbn; [reflexivity | now rewrite IH]. Qed.

Lemma string_of_list_app (a b : list ascii) :
  string_of_list_ascii (a ++ b)
  = (string_of_list_ascii a ++ string_of_list_ascii b)%string.
Proof. induction a as [|c a IH]; cbn; [reflexivity | now rewrite IH]. Qed.

Lemma search_unfold cs :
  search_sheet_id cs
  = match match_here cs with
    | _ :: _ => Some (string_of_list_ascii (match_here cs))
    | [] => match cs with
            | _ :: cs' => search_sheet_id cs'
            | [] => None
            end
    end.
Proof. destruct cs; reflexivity. Qed.

Lemma is_prefix_split p : forall s,
  is_prefix p s = true -> s = (p ++ skipn (length p) s)%list.
Proof.
  induction p as [|a p IH]; intros s H; [reflexivity|].
  destruct s as [|b s]; [discriminate|]. cbn in H.
  apply andb_true_iff in H. destruct H as [Hab Hp].
  apply Ascii.eqb_eq in Hab. subst b. cbn. f_equal. now apply IH.
Qed.

Lemma is_prefix_app p : forall s rest,
  is_prefix p (p ++ rest) = true
  /\ (length p <= length s -> is_prefix p (s ++ rest) = is_prefix p s)%nat.
Proof.
  induction p as [|a p IH]; intros s rest; [split; reflexivity|].
  split.
  - cbn. rewrite Ascii.eqb_refl. apply (IH [] rest).
  - intros Hlen. destruct s as [|b s]; [cbn in Hlen; lia|].
    cbn in Hlen |- *. destruct (Ascii.eqb a b); [|reflexivity].
    apply IH. lia.
Qed.

Lemma take_while_split p xs :
  exists rest,
    xs = (take_while p xs ++ rest)%list
    /\ forallb p (take_while p xs) = true
    /\ match rest with [] => True | c :: _ => p c = false end.
Proof.
  induction xs as [|x xs IH]; [exists []; repeat split|].
  cbn [take_while]. destruct (p x) eqn:Hx.
  - destruct IH as (rest & Heq & Hall & Hend). exists rest.
    split; [cbn; now rewrite <- Heq|]. split; [cbn; now rewrite Hx|exact Hend].
  - exists (x :: xs). repeat split. exact Hx.
Qed.

Lemma take_while_all p xs rest :
  forallb p xs = true ->
  match rest with [] => True | c :: _ => p c = false end ->
  take_while p (xs ++ rest) = xs.
Proof.
  intros Hall Hend. induction xs as [|x xs IH].
  - destruct rest as [|c rest]; [reflexivity|]. cbn. now rewrite Hend.
  - cbn in Hall |- *. apply andb_true_iff in Hall. destruct Hall as [Hx Hall].
    rewrite Hx. f_equal. now apply IH.
Qed.

Lemma search_sound cs : forall id,
  search_sheet_id cs = Some id ->
  exists pre h rest,
    id = string_of_list_ascii h /\ h <> []
    /\ forallb id_char h = true
    /\ cs = (pre ++ marker ++ h ++ rest)%list
    /\ match rest with [] => True | c :: _ => id_char c = false end.
Proof.
  induction cs as [|c cs IH]; intros id; rewrite search_unfold.
  - cbn. discriminate.
  - destruct (match_here (c :: cs)) as [|a l] eqn:Eh.
    + intros H. destruct (IH id H) as (pre & h & rest & Hid & Hne & Hall & Hcs & Hend).
      exists (c :: pre), h, rest. repeat split; auto. cbn. now rewrite Hcs.
    + intros H. injection H as <-.
      unfold match_here in Eh.
      destruct (is_prefix marker (c :: cs)) eqn:Ep; [|discriminate].
      apply is_prefix_split in Ep.
      destruct (take_while_split id_char (skipn (length marker) (c :: cs)))
        as (rest & Hsplit & Hall & Hend).
      rewrite Eh in Hsplit, Hall.
      exists [], (a :: l), rest. split; [reflexivity|].
      split; [discriminate|]. split; [exact Hall|].
      split; [|exact Hend].
      rewrite Hsplit in Ep. exact Ep.
Qed.

Lemma ends_id_chars post :
  ends_id post <->
  match list_ascii_of_string post with
  | [] => True
  | c :: _ => id_char c = false
  end.
Proof. destruct post; reflexivity. Qed.

(** X22.  The id [extract_sheet_id_from_url] returns is taken from the
    URL: it is not empty, it consists of letters, digits, [-] and [_], it
    stands in the URL right after [/spreadsheets/d/], and it is the whole
    run of such characters there. *)
Theorem extract_sheet_id_sound (url id : string) :
  extract_sheet_id_from_url url = Some id ->
  id <> ""
  /\ forallb id_char (list_ascii_of_string id) = true
  /\ exists pre post,
       url = (pre ++ "/spreadsheets/d/" ++ id ++ post)%string
       /\ ends_id post.
Proof.
  unfold extract_sheet_id_from_url. intros H.
  destruct (search_sound _ _ H) as (pre & h & rest & -> & Hne & Hall & Hcs & Hend).
  rewrite list_ascii_of_string_of_list_ascii.
  split; [|split; [exact Hall|]].
  - destruct h; [now elim Hne | discriminate].
  - exists (string_of_list_ascii pre), (string_of_list_ascii rest). split.
    + rewrite <- (string_of_list_ascii_of_string url), Hcs.
      rewrite !string_of_list_app. reflexivity.
    + apply ends_id_chars. now rewrite list_ascii_of_string_of_list_ascii.
Qed.

Lemma extract_sheet_id_sound_witness :
  "abc-123_X" <> ""
  /\ forallb id_char (list_ascii_of_string "abc-123_X") = true
  /\ exists pre post,
       "https://docs.google.com/spreadsheets/d/abc-123_X/edit#gid=0"
       = (pre ++ "/spreadsheets/d/" ++ "abc-123_X" ++ post)%string
       /\ ends_id post.
Proof.
  apply (extract_sheet_id_sound
           "https://docs.google.com/spreadsheets/d/abc-123_X/edit#gid=0"
           "abc-123_X").
  reflexivity.
Defined.

Lemma match_here_app a rest :
  (length marker < length a)%nat ->
  match_here a = [] -> match_here (a ++ rest) = [].
Proof.
  intros Hlen. unfold match_here.
  rewrite (proj2 (is_prefix_app marker a rest)) by lia.
  destruct (is_prefix marker a); [|reflexivity].
  rewrite skipn_app.
  replace (length marker - length a)%nat with 0%nat by lia.
  cbn [skipn].
  assert (Hs : (0 < length (skipn (length marker) a))%nat)
    by (rewrite length_skipn; lia).
  destruct (skipn (length marker) a) as [|d r]; [cbn in Hs; lia|].
  cbn [app take_while]. destruct (id_char d); [discriminate | reflexivity].
Qed.

Lemma search_skip_prefix pre rest :
  search_sheet_id (pre ++ marker) = None ->
  search_sheet_id (pre ++ marker ++ rest)
  = search_sheet_id (marker ++ rest).
Proof.
  induction pre as [|c pre IH]; [reflexivity|].
  rewrite search_unfold. cbn [app].
  destruct (match_here (c :: pre ++ marker)) as [|a l] eqn:Eh;
    [|discriminate].
  intros Hnone. rewrite search_unfold.
  change (c :: pre ++ marker ++ rest)%list
    with ((c :: pre) ++ marker ++ rest)%list.
  rewrite app_assoc.
  rewrite match_here_app.
  - now apply IH.
  - cbn [app length]. rewrite length_app. lia.
  - exact Eh.
Qed.

Lemma search_at_marker h rest :
  h <> [] -> forallb id_char h = true ->
  match rest with [] => True | c :: _ => id_char c = false end ->
  search_sheet_id (marker ++ h ++ rest) = Some (string_of_list_ascii h).
Proof.
  intros Hne Hall Hend. rewrite search_unfold. unfold match_here.
  rewrite (proj1 (is_prefix_app marker [] (h ++ rest))).
  rewrite skipn_app, Nat.sub_diag, skipn_all. cbn [app skipn].
  rewrite take_while_all by assumption.
  destruct h; [now elim Hne | reflexivity].
Qed.

(** X23.  Round trip: a URL made of a part without a match, then
    [/spreadsheets/d/], then a non-empty id of letters, digits, [-] and
    [_], then a rest that does not go on with such a character, yields that
    id. *)
Theorem extract_sheet_id_round_trip (pre id post : string) :
  extract_sheet_id_from_url (pre ++ "/spreadsheets/d/") = None ->
  id <> "" ->
  forallb id_char (list_ascii_of_string id) = true ->
  ends_id post ->
  extract_sheet_id_from_url (pre ++ "/spreadsheets/d/" ++ id ++ post)
  = Some id.
Proof.
  unfold extract_sheet_id_from_url. intros Hpre Hne Hall Hend.
  rewrite list_ascii_app in Hpre.
  rewrite !list_ascii_app.
  change (list_ascii_of_string "/spreadsheets/d/") with marker in *.
  rewrite (search_skip_prefix _ _ Hpre).
  rewrite search_at_marker.
  - now rewrite string_of_list_ascii_of_string.
  - destruct id; [now elim Hne | discriminate].
  - exact Hall.
  - now apply ends_id_chars.
Qed.

Lemma extract_sheet_id_round_trip_witness :
  extract_sheet_id_from_url
    ("https://docs.google.com" ++ "/spreadsheets/d/" ++ "abc-123_X"
     ++ "/edit#gid=0")
  = Some "abc-123_X".
Proof.
  apply extract_sheet_id_round_trip.
  - reflexivity.
  - discriminate.
  - reflexivity.
  - reflexivity.
Defined.

(** ** Registration *)

Lemma str_truthy_some (s : string) :
  s <> "" -> Gemini.str_truthy (Some s) = true.
Proof. intros H. cbn. apply negb_true_iff. now apply String.eqb_neq. Qed.

Lemma extract_nonempty url sid :
  extract_sheet_id_from_url url = Some sid -> String.eqb sid "" = false.
Proof.
  unfold extract_sheet_id_from_url. intros H.
  destruct (search_sound _ _ H) as (pre & h & rest & -> & Hne & _).
  destruct h; [now elim Hne | reflexivity].
Qed.

(** X24.  Registration end to end.  With the bot configured, a URL that
    holds an id, the backend answering and the send delivered, [register]
    confirms with one text, the registry becomes the upserted table, and
    the next lookup of that user returns the id of the URL. *)
Theorem register_then_lookup (update : Update) (context : BotData)
    (mid url sid : string) (more : list string) (w : World) :
  configured context mid ->
  args update = url :: more ->
  extract_sheet_id_from_url url = Some sid ->
  Sheets.api_script (sheets w) = [] ->
  send_script w = [] ->
  exists w',
    register update context w = (Ret tt, w')
    /\ outbox w' = outbox w ++ [ReplyText (registered_text context)]
    /\ Sheets.master (sheets w')
       = RegistrySpec.upsert_table
           (Sheets.str_of_Z (effective_user_id update)) sid
           (Sheets.master (sheets w))
    /\ fst (Sheets.get_user_sheet_id mid
              (Sheets.str_of_Z (effective_user_id update)) (sheets w'))
       = Ret (Some sid).
Proof.
  intros (Hsvc & Hmid & Hne) Hargs Hurl Hscript Hsend.
  pose proof (RegistryFacts.add_user_run mid
                (Sheets.str_of_Z (effective_user_id update)) sid (sheets w)
                Hscript) as Hrun.
  pose proof (RegistryFacts.add_user_keeps_script mid
                (Sheets.str_of_Z (effective_user_id update)) sid (sheets w)
                Hscript) as Hkeep.
  remember (snd (Sheets.add_user_to_master_sheet mid
                   (Sheets.str_of_Z (effective_user_id update)) sid
                   (sheets w))) as s1 eqn:Hs1.
  assert (Hadd : Sheets.add_user_to_master_sheet mid
                   (Sheets.str_of_Z (effective_user_id update)) sid (sheets w)
                 = (Ret true, s1)).
  { rewrite Hs1, Hrun. reflexivity. }
  pose proof (RegistryFacts.add_user_success _ _ _ _ _ Hadd) as Hmaster.
  assert (Hlook : fst (Sheets.get_user_sheet_id mid
                         (Sheets.str_of_Z (effective_user_id update)) s1)
                  = Ret (Some sid)).
  { rewrite RegistryFacts.lookup_run by now rewrite Hkeep.
    cbn [fst]. rewrite Hmaster.
    now rewrite RegistryFacts.upsert_table_lookup. }
  unfold register, registered_text. cbv zeta.
  rewrite Hargs, Hurl, (extract_nonempty _ _ Hurl), Hsvc, Hmid.
  rewrite (str_truthy_some mid Hne). cbn [negb orb].
  destruct (Gemini.str_truthy (service_account_email context)); cbn [negb];
    cbv beta iota delta [bind try_except];
    rewrite DispatcherFacts.in_sheets_run, Hadd; cbn [fst snd];
    rewrite DispatcherFacts.reply_text_ok by exact Hsend;
    (eexists; split; [reflexivity|]);
    cbn [deliver outbox sheets set_sheets];
    (split; [reflexivity|]); (split; [exact Hmaster | exact Hlook]).
Qed.

Lemma register_then_lookup_witness :
  let signup :=
    mkUpdate 7 "/register"
      ["https://docs.google.com/spreadsheets/d/abc-123_X/edit"] in
  exists w',
    register signup bot_data (bot_world [] []) = (Ret tt, w')
    /\ outbox w' = [ReplyText (Registered "bot@example.com")]
    /\ Sheets.master (sheets w') = [["42"; "book"]; ["7"; "abc-123_X"]]
    /\ fst (Sheets.get_user_sheet_id "master" "7" (sheets w'))
       = Ret (Some "abc-123_X").
Proof.
  intros signup.
  destruct (register_then_lookup signup bot_data "master"
              "https://docs.google.com/spreadsheets/d/abc-123_X/edit"
              "abc-123_X" [] (bot_world [] []))
    as (w' & Hrun & Hout & Hmaster & Hlook).
  - repeat split. discriminate.
  - reflexivity.
  - reflexivity.
  - reflexivity.
  - reflexivity.
  - exists w'. split; [exact Hrun|]. split; [exact Hout|].
    split; [exact Hmaster | exact Hlook].
Defined.

(** X25.  [register] answers every command with exactly one text when the
    send is delivered, whatever the arguments, the configuration and the
    answers of the backend, and it does not raise.  When there is no
    argument, the URL holds no id or the configuration is incomplete, that
    text is the usage, the invalid-URL or the configuration notice, and no
    request reaches the backend. *)
Theorem register_answers_once (update : Update) (context : BotData)
    (w : World) :
  send_script w = [] ->
  exists m w',
    register update context w = (Ret tt, w')
    /\ outbox w' = outbox w ++ [ReplyText m]
    /\ gemini w' = gemini w
    /\ (rejected update context ->
        sheets w' = sheets w
        /\ (m = RegisterUsage \/ m = InvalidUrl \/ m = ConfigError)).
Proof.
  intros Hsend. unfold register, rejected. cbv zeta.
  destruct (args update) as [|url more] eqn:Hargs.
  { rewrite DispatcherFacts.reply_text_ok by exact Hsend.
    eexists _, _. split; [reflexivity|]. repeat split. now left. }
  destruct (extract_sheet_id_from_url url) as [sid|] eqn:Hurl.
  2:{ rewrite DispatcherFacts.reply_text_ok by exact Hsend.
      eexists _, _. split; [reflexivity|]. repeat split. right. now left. }
  rewrite (extract_nonempty _ _ Hurl).
  destruct (sheets_service context) eqn:Hsvc; cbn [negb orb].
  2:{ rewrite DispatcherFacts.reply_text_ok by exact Hsend.
      eexists _, _. split; [reflexivity|]. repeat split. right. now right. }
  destruct (Gemini.str_truthy (master_sheet_id context)) eqn:Hmid;
    cbn [negb].
  2:{ rewrite DispatcherFacts.reply_text_ok by exact Hsend.
      eexists _, _. split; [reflexivity|]. repeat split. right. now right. }
  assert (Hno : forall P : Prop,
            url :: more = []
            \/ (exists url0 more0, url :: more = url0 :: more0
                                   /\ extract_sheet_id_from_url url0 = None)
            \/ true = false \/ true = false -> P).
  { intros P [H | [(u0 & m0 & Heq & Hnone) | [H | H]]]; try discriminate.
    injection Heq as <- _. rewrite Hurl in Hnone. discriminate. }
  destruct (Gemini.str_truthy (service_account_email context)); cbn [negb];
    cbv beta iota delta [bind try_except try_reply];
    rewrite DispatcherFacts.in_sheets_run;
    destruct (Sheets.add_user_to_master_sheet _ _ _ (sheets w))
      as [[[|]|e] s1]; cbn [fst snd];
    try destruct (is_http e);
    rewrite DispatcherFacts.reply_text_ok by exact Hsend;
    (eexists _, _; split; [reflexivity|]);
    (split; [reflexivity|]); (split; [reflexivity|]);
    intros Hrej; exact (Hno _ Hrej).
Qed.

Lemma register_answers_once_witness :
  exists m w',
    register (mkUpdate 7 "/register" ["not a link"]) bot_data
      (bot_world [] []) = (Ret tt, w')
    /\ outbox w' = [ReplyText m]
    /\ sheets w' = sheets (bot_world [] [])
    /\ (m = RegisterUsage \/ m = InvalidUrl \/ m = ConfigError).
Proof.
  destruct (register_answers_once (mkUpdate 7 "/register" ["not a link"])
              bot_data (bot_world [] []) eq_refl)
    as (m & w' & Hrun & Hout & _ & Hrej).
  exists m, w'. split; [exact Hrun|]. split; [exact Hout|].
  apply Hrej. right. left. exists "not a link", []. split; reflexivity.
Defined.

(** ** Messages *)

Lemma lookup_fails mid u e rest s :
  Sheets.api_script s = Some e :: rest ->
  exists s',
    Sheets.get_user_sheet_id mid u s = (Raise e, s')
    /\ Sheets.master s' = Sheets.master s
    /\ Sheets.books s' = Sheets.books s
    /\ Sheets.api_log s' = Sheets.api_log s ++ [Sheets.GetValues mid "A:B"].
Proof.
  intros Hs.
  cbv beta iota delta [Sheets.get_user_sheet_id Sheets.values_get_master
                       Sheets.request try_except bind].
  rewrite Hs. cbv beta iota.
  destruct (is_http e); cbv beta iota delta [Sheets.logger modify raise];
    eexists; (split; [reflexivity|]); repeat split.
Qed.

(** X26.  When the read of the registry fails, the user is told so and
    nothing else happens: [handle_message] sends the one text about the
    registration check, does not call the classifier, and leaves the
    tables as they were, the read being its only request. *)
Theorem lookup_failure_reported (update : Update) (context : BotData)
    (mid : string) (e : exn) (rest : list (option exn)) (w : World) :
  configured context mid ->
  Sheets.api_script (sheets w) = Some e :: rest ->
  send_script w = [] ->
  exists w',
    handle_message update context w = (Ret tt, w')
    /\ outbox w' = outbox w ++ [ReplyText RegistrationCheckError]
    /\ gemini w' = gemini w
    /\ Sheets.master (sheets w') = Sheets.master (sheets w)
    /\ Sheets.books (sheets w') = Sheets.books (sheets w)
    /\ Sheets.api_log (sheets w')
       = Sheets.api_log (sheets w) ++ [Sheets.GetValues mid "A:B"].
Proof.
  intros (Hsvc & Hmid & Hne) Hscript Hsend.
  destruct (lookup_fails mid (Sheets.str_of_Z (effective_user_id update))
              e rest (sheets w) Hscript) as (s' & Hrun & Hm & Hb & Hl).
  unfold handle_message. rewrite Hsvc, Hmid, (str_truthy_some mid Hne).
  cbn [negb orb]. cbv beta iota zeta delta [bind try_except].
  rewrite DispatcherFacts.in_sheets_run, Hrun. cbn [fst snd].
  rewrite DispatcherFacts.reply_text_ok by exact Hsend.
  cbv beta iota delta [ret].
  eexists. split; [reflexivity|].
  cbn [deliver outbox gemini sheets set_sheets].
  repeat split; assumption.
Qed.

Lemma lookup_failure_reported_witness :
  exists w',
    handle_message (message 42 "an pho 50k") bot_data
      (bot_world [Some (Exn (HttpError 503) "Service unavailable")] [])
    = (Ret tt, w')
    /\ outbox w' = [ReplyText RegistrationCheckError]
    /\ Gemini.calls (gemini w') = 0%nat.
Proof.
  destruct (lookup_failure_reported (message 42 "an pho 50k") bot_data
              "master" (Exn (HttpError 503) "Service unavailable") []
              (bot_world [Some (Exn (HttpError 503) "Service unavailable")] []))
    as (w' & Hrun & Hout & Hgem & _).
  - repeat split. discriminate.
  - reflexivity.
  - reflexivity.
  - exists w'. split; [exact Hrun|]. split; [exact Hout|].
    now rewrite Hgem.
Defined.

(** X27.  [handle_message] does not raise when its sends are delivered,
    whatever the backend and the classifier answer; and, delivered or not,
    it never changes the registry. *)
Theorem handle_message_contained (update : Update) (context : BotData)
    (w : World) :
  Sheets.master (sheets (snd (handle_message update context w)))
  = Sheets.master (sheets w)
  /\ (send_script w = [] ->
      fst (handle_message update context w) = Ret tt).
Proof.
  split; [apply InvariantLawsFacts.handle_message_world_registry|].
  intros Hsend. unfold handle_message. cbv zeta.
  destruct (negb (sheets_service context)
            || negb (Gemini.str_truthy (master_sheet_id context)));
    [reflexivity|].
  unfold bind at 1. unfold try_except at 1. unfold bind at 1.
  rewrite DispatcherFacts.in_sheets_run.
  destruct (Sheets.get_user_sheet_id _ _ (sheets w)) as [[found|e] s1];
    cbn [fst snd].
  - destruct (negb (Gemini.str_truthy found)); cbv beta iota delta [ret];
      [reflexivity|].
    destruct found as [user_sheet_id|]; [|reflexivity].
    match goal with
    | |- fst (try_except ?c _ ?w1) = _ =>
        unfold try_except at 1; destruct (c w1) as [[[]|e2] w2]
    end; reflexivity.
  - unfold bind at 1.
    rewrite DispatcherFacts.reply_text_ok by exact Hsend.
    reflexivity.
Qed.

Lemma handle_message_contained_witness :
  fst (handle_message (message 42 "an pho 50k") bot_data
         (bot_world [None; Some (Exn (HttpError 500) "Internal error")]
            [Gemini.Text "{...}"
               (Some (classified (JStr "transaction") (JInt 50000)
                        (JStr "An uong") JNull))]))
  = Ret tt.
Proof.
  apply (handle_message_contained (message 42 "an pho 50k") bot_data).
  reflexivity.
Defined.

(** X28.  A transaction for a spreadsheet that does not exist: the 404 of
    the backend does not reach the handler, the append returns [False], and
    the user gets the text for a failed append, not the one for a sheet
    that was not found. *)
Theorem missing_spreadsheet_reply (context : BotData) (sid : string)
    (d : dict) (w : World) :
  Sheets.find_book sid (Sheets.books (sheets w)) = None ->
  negb (is_none (get "amount" d)) && truthy (get "category" d) = true ->
  send_script w = [] ->
  exists w',
    log_transaction context sid d w = (Ret tt, w')
    /\ outbox w'
       = outbox w
         ++ [ReplyText
               (AppendFailed
                  (if Gemini.str_truthy (service_account_email context)
                   then service_account_email context else None))]
    /\ Sheets.books (sheets w') = Sheets.books (sheets w).
Proof.
  intros Hbook Hc Hsend.
  destruct (StoreLawsFacts.ensure_no_book sid
              (Sheets.strftime_Y_m (Sheets.now (sheets w))) (sheets w) Hbook)
    as (s1 & Hrun & Hbooks & _).
  assert (Happ : exists s2,
             Sheets.append_expense_to_sheet sid (get "amount" d)
               (get "category" d) (get_default "description" (JStr "") d)
               (if truthy (get "is_income" d) then "Thu" else "Chi")
               (sheets w) = (Ret false, s2)
             /\ Sheets.books s2 = Sheets.books (sheets w)).
  { cbv beta iota zeta delta [Sheets.append_expense_to_sheet try_except bind
                              gets].
    rewrite Hrun. cbv beta iota. cbn [negb].
    cbv beta iota delta [bind Sheets.logger modify ret].
    eexists. split; [reflexivity | exact Hbooks]. }
  destruct Happ as (s2 & Happ & Hb2).
  unfold log_transaction. cbv zeta. rewrite Hc.
  cbv beta iota delta [bind try_except].
  rewrite DispatcherFacts.in_sheets_run, Happ. cbn [fst snd].
  rewrite DispatcherFacts.reply_text_ok by exact Hsend.
  eexists. split; [reflexivity|].
  cbn [deliver outbox sheets set_sheets]. split; [reflexivity | exact Hb2].
Qed.

Lemma missing_spreadsheet_reply_witness :
  exists w',
    log_transaction bot_data "gone"
      [("amount", JInt 50000); ("category", JStr "An uong")]
      (bot_world [] []) = (Ret tt, w')
    /\ outbox w' = [ReplyText (AppendFailed (Some "bot@example.com"))].
Proof.
  destruct (missing_spreadsheet_reply bot_data "gone"
              [("amount", JInt 50000); ("category", JStr "An uong")]
              (bot_world [] []))
    as (w' & Hrun & Hout & _).
  - reflexivity.
  - reflexivity.
  - reflexivity.
  - exists w'. split; [exact Hrun | exact Hout].
Defined.

End DispatcherLawsFacts.
